(** * Order price recalculation (saleor/order/calculations.py)

    A shallow embedding of the staleness-gated price and tax recalculation
    pipeline of [saleor.order.calculations], and the properties stated
    about it.

    Conventions of the embedding.
    - A Python [Decimal] is a pair coefficient/exponent (its value is
      [coefficient * 10 ^ exponent]); sums and products are the exact ones
      of the [decimal] module. The rounding to the 28-digit precision of
      the default context is not modelled.
    - [Money] and [TaxedMoney] are the value types of the [prices]
      library: adding amounts of different currencies raises [ValueError].
    - Python objects mutated in place ([order], every [line]) are passed
      and returned explicitly; what is shared between calls (database
      rows, the clock, the record of capability calls) lives in [World],
      threaded by the monad [M], which also carries exceptions. After an
      exception the half-updated Python objects are not tracked: only the
      world is.
    - The plugin manager is a record of functions that return a value or
      raise; every call is recorded in the call log of the world. *)

From stdpp Require Import base decidable option list strings gmap.
From Stdlib Require Import ZArith Lia.

#[local] Open Scope Z_scope.

(** ** Decimal arithmetic *)

Module Decimal.
Record t : Type := mk { coefficient : Z; exponent : Z }.

(** [Decimal.__add__]: the exponent of the sum is the smaller one. *)
Definition add (a b : t) : t :=
  let e := Z.min (exponent a) (exponent b) in
  mk (coefficient a * 10 ^ (exponent a - e)
      + coefficient b * 10 ^ (exponent b - e)) e.

(** [Decimal.__mul__] with an [int]: the exponent is kept. *)
Definition mul_int (a : t) (n : Z) : t :=
  mk (coefficient a * n) (exponent a).

(** [Decimal.__bool__]. *)
Definition to_bool (a : t) : bool := negb (coefficient a =? 0).

(** [Decimal.quantize(Decimal(10) ** -places, rounding=ROUND_HALF_UP)]:
    pad with zeros when the value has fewer places, otherwise drop the
    extra digits and round half away from zero. *)
Definition quantize (a : t) (places : Z) : t :=
  let e := - places in
  if e <=? exponent a then
    mk (coefficient a * 10 ^ (exponent a - e)) e
  else
    let p := 10 ^ (e - exponent a) in
    let q := Z.abs (coefficient a) / p in
    let r := Z.abs (coefficient a) mod p in
    let q' := if p <=? 2 * r then q + 1 else q in
    mk (Z.sgn (coefficient a) * q') e.

Definition zero : t := mk 0 0.

End Decimal.

#[global] Instance Decimal_eq_dec : EqDecision Decimal.t.
Proof. solve_decision. Defined.

(** ** Exceptions and outcomes *)

Inductive Exception : Type :=
  | TaxError
  | ValueError
  | KeyError (key : Z)
  | OtherError (name : string).

#[global] Instance Exception_eq_dec : EqDecision Exception.
Proof. solve_decision. Defined.

Inductive Outcome (A : Type) : Type :=
  | Ok (a : A)
  | Raise (e : Exception).
Arguments Ok {A} a.
Arguments Raise {A} e.

(** ** The [prices] value types *)

Module Money.
Record t : Type := mk { amount : Decimal.t; currency : string }.

(** [Money.__add__]. *)
Definition add (a b : t) : Outcome t :=
  if decide (currency b = currency a)
  then Ok (mk (Decimal.add (amount a) (amount b)) (currency a))
  else Raise ValueError.

(** [Money.__mul__]. *)
Definition mul (a : t) (n : Z) : t :=
  mk (Decimal.mul_int (amount a) n) (currency a).

(** [Money.__bool__]. *)
Definition to_bool (a : t) : bool := Decimal.to_bool (amount a).

(** [Money.quantize]. *)
Definition quantize (a : t) (places : Z) : t :=
  mk (Decimal.quantize (amount a) places) (currency a).

End Money.

#[global] Instance Money_eq_dec : EqDecision Money.t.
Proof. solve_decision. Defined.

Module TaxedMoney.
Record t : Type := mk { net : Money.t; gross : Money.t }.

(** [TaxedMoney.__add__] with a [TaxedMoney]. *)
Definition add (a b : t) : Outcome t :=
  match Money.add (net a) (net b) with
  | Raise e => Raise e
  | Ok n =>
      match Money.add (gross a) (gross b) with
      | Raise e => Raise e
      | Ok g => Ok (mk n g)
      end
  end.

(** [TaxedMoney.__add__] with a [Money]: added to net and to gross. *)
Definition add_money (a : t) (b : Money.t) : Outcome t :=
  match Money.add (net a) b with
  | Raise e => Raise e
  | Ok n =>
      match Money.add (gross a) b with
      | Raise e => Raise e
      | Ok g => Ok (mk n g)
      end
  end.

(** [TaxedMoney.__mul__]. *)
Definition mul (a : t) (n : Z) : t :=
  mk (Money.mul (net a) n) (Money.mul (gross a) n).

(** [TaxedMoney.quantize]. *)
Definition quantize (a : t) (places : Z) : t :=
  mk (Money.quantize (net a) places) (Money.quantize (gross a) places).

End TaxedMoney.

#[global] Instance TaxedMoney_eq_dec : EqDecision TaxedMoney.t.
Proof. solve_decision. Defined.

(** Modelled from the spec: [zero_taxed_money] of saleor/core/taxes.py is
  not part of the sources; the spec describes it as "a zero-valued taxed
  amount [...] in the order's currency". *)
Definition zero_taxed_money (currency : string) : TaxedMoney.t :=
  TaxedMoney.mk (Money.mk Decimal.zero currency) (Money.mk Decimal.zero currency).

(** ** Models, as the pipeline reads and writes them

    The Django models live in saleor/order/models.py, outside the sources
    at hand; the records list the attributes the pipeline touches. A taxed
    price attribute (two amount columns and the currency column in the
    database) is held as the [TaxedMoney] the attribute evaluates to. *)

Module Product.
Record t : Type := mk { pk : Z }.
End Product.

Module ProductVariant.
Record t : Type := mk { pk : Z; product : Product.t }.
End ProductVariant.

Module Order.
Record t : Type := mk {
  pk : Z;
  status : string;
  currency : string;
  total : TaxedMoney.t;
  undiscounted_total : TaxedMoney.t;
  shipping_price : TaxedMoney.t;
  shipping_tax_rate : Decimal.t;
  price_expiration_for_unconfirmed : Z
}.

Definition with_total (v : TaxedMoney.t) (o : t) : t :=
  mk (pk o) (status o) (currency o) v (undiscounted_total o)
     (shipping_price o) (shipping_tax_rate o)
     (price_expiration_for_unconfirmed o).

Definition with_undiscounted_total (v : TaxedMoney.t) (o : t) : t :=
  mk (pk o) (status o) (currency o) (total o) v
     (shipping_price o) (shipping_tax_rate o)
     (price_expiration_for_unconfirmed o).

Definition with_shipping_price (v : TaxedMoney.t) (o : t) : t :=
  mk (pk o) (status o) (currency o) (total o) (undiscounted_total o)
     v (shipping_tax_rate o) (price_expiration_for_unconfirmed o).

Definition with_shipping_tax_rate (v : Decimal.t) (o : t) : t :=
  mk (pk o) (status o) (currency o) (total o) (undiscounted_total o)
     (shipping_price o) v (price_expiration_for_unconfirmed o).

Definition with_price_expiration_for_unconfirmed (v : Z) (o : t) : t :=
  mk (pk o) (status o) (currency o) (total o) (undiscounted_total o)
     (shipping_price o) (shipping_tax_rate o) v.
End Order.

Module OrderLine.
Record t : Type := mk {
  pk : Z;
  variant : option ProductVariant.t;
  quantity : Z;
  unit_discount : Money.t;
  undiscounted_unit_price : TaxedMoney.t;
  unit_price : TaxedMoney.t;
  undiscounted_total_price : TaxedMoney.t;
  total_price : TaxedMoney.t;
  tax_rate : Decimal.t
}.

Definition with_undiscounted_unit_price (v : TaxedMoney.t) (l : t) : t :=
  mk (pk l) (variant l) (quantity l) (unit_discount l)
     v (unit_price l) (undiscounted_total_price l) (total_price l)
     (tax_rate l).

Definition with_unit_price (v : TaxedMoney.t) (l : t) : t :=
  mk (pk l) (variant l) (quantity l) (unit_discount l)
     (undiscounted_unit_price l) v (undiscounted_total_price l)
     (total_price l) (tax_rate l).

Definition with_undiscounted_total_price (v : TaxedMoney.t) (l : t) : t :=
  mk (pk l) (variant l) (quantity l) (unit_discount l)
     (undiscounted_unit_price l) (unit_price l) v (total_price l)
     (tax_rate l).

Definition with_total_price (v : TaxedMoney.t) (l : t) : t :=
  mk (pk l) (variant l) (quantity l) (unit_discount l)
     (undiscounted_unit_price l) (unit_price l)
     (undiscounted_total_price l) v (tax_rate l).

Definition with_tax_rate (v : Decimal.t) (l : t) : t :=
  mk (pk l) (variant l) (quantity l) (unit_discount l)
     (undiscounted_unit_price l) (unit_price l)
     (undiscounted_total_price l) (total_price l) v.
End OrderLine.

Inductive OrderDiscountType : Type := VOUCHER | MANUAL.

#[global] Instance OrderDiscountType_eq_dec : EqDecision OrderDiscountType.
Proof. solve_decision. Defined.

Module OrderDiscount.
Record t : Type := mk {
  pk : Z;
  type : OrderDiscountType;
  amount : Money.t
}.
End OrderDiscount.

(** [saleor.order.interface.OrderTaxedPricesData]. *)
Module OrderTaxedPricesData.
Record t : Type := mk {
  undiscounted_price : TaxedMoney.t;
  price_with_discounts : TaxedMoney.t
}.
End OrderTaxedPricesData.

(** [saleor.core.taxes.TaxLineData] and [TaxData], by the attributes
    [_apply_tax_data] reads. *)
Module TaxLineData.
Record t : Type := mk {
  id : Z;
  unit_net_amount : Decimal.t;
  unit_gross_amount : Decimal.t;
  total_net_amount : Decimal.t;
  total_gross_amount : Decimal.t;
  tax_rate : Decimal.t
}.
End TaxLineData.

Module TaxData.
Record t : Type := mk {
  total_net_amount : Decimal.t;
  total_gross_amount : Decimal.t;
  shipping_price_net_amount : Decimal.t;
  shipping_price_gross_amount : Decimal.t;
  shipping_tax_rate : Decimal.t;
  lines : list TaxLineData.t
}.
End TaxData.

(** ** The plugin manager: the pricing and tax capabilities *)

Module PluginsManager.
Record t : Type := mk {
  calculate_order_line_unit :
    Order.t -> OrderLine.t -> ProductVariant.t -> Product.t ->
    Outcome OrderTaxedPricesData.t;
  calculate_order_line_total :
    Order.t -> OrderLine.t -> ProductVariant.t -> Product.t ->
    Outcome OrderTaxedPricesData.t;
  get_order_line_tax_rate :
    Order.t -> Product.t -> ProductVariant.t -> option string ->
    TaxedMoney.t -> Outcome Decimal.t;
  calculate_order_shipping : Order.t -> Outcome TaxedMoney.t;
  get_order_shipping_tax_rate :
    Order.t -> TaxedMoney.t -> Outcome Decimal.t;
  get_taxes_for_order : Order.t -> Outcome (option TaxData.t)
}.
End PluginsManager.

(** ** The world: database rows, clock and call log *)

Inductive Call : Type :=
  | Call_calculate_order_line_unit (line : Z)
  | Call_calculate_order_line_total (line : Z)
  | Call_get_order_line_tax_rate (line : Z)
  | Call_calculate_order_shipping
  | Call_get_order_shipping_tax_rate
  | Call_get_taxes_for_order
  | Call_update_order_discount_for_order (discount : Z).

(** The rows of one order: the order row, its line rows and its discount
    rows. *)
Record Database : Type := mkDatabase {
  db_order : Order.t;
  db_lines : list OrderLine.t;
  db_discounts : list OrderDiscount.t
}.

(** [clock] gives the successive readings of [timezone.now()], [ticks]
    counts the readings made so far; [calls] is the record of capability
    calls, latest first. *)
Record World : Type := mkWorld {
  db : Database;
  calls : list Call;
  clock : nat -> Z;
  ticks : nat
}.

Definition M (A : Type) : Type := World -> Outcome A * World.

#[global] Instance M_ret : MRet M := fun A a w => (Ok a, w).

#[global] Instance M_bind : MBind M := fun A B f m w =>
  match m w with
  | (Ok a, w') => f a w'
  | (Raise e, w') => (Raise e, w')
  end.

(** An operation of the value types that may raise. *)
Definition lift {A : Type} (r : Outcome A) : M A := fun w => (r, w).

Definition raise {A : Type} (e : Exception) : M A := lift (Raise e).

(** The world once the call [c] is recorded. *)
Definition logged (c : Call) (w : World) : World :=
  mkWorld (db w) (c :: calls w) (clock w) (ticks w).

(** The world after one reading of the clock. *)
Definition tick (w : World) : World :=
  mkWorld (db w) (calls w) (clock w) (S (ticks w)).

(** A capability call: recorded, then its outcome. *)
Definition call {A : Type} (c : Call) (r : Outcome A) : M A :=
  fun w => (r, logged c w).

(** [try: body except TaxError: ...]: [None] when the body raised
    [TaxError], any other exception goes on. *)
Definition catch_TaxError {A : Type} (body : M A) : M (option A) :=
  fun w =>
    match body w with
    | (Ok a, w') => (Ok (Some a), w')
    | (Raise TaxError, w') => (Ok None, w')
    | (Raise e, w') => (Raise e, w')
    end.

(** [timezone.now()]. *)
Definition timezone_now : M Z :=
  fun w => (Ok (clock w (ticks w)), tick w).

(** [with transaction.atomic(savepoint=False)] as the outermost block:
    the writes of a body that raises are rolled back. *)
Definition transaction_atomic {A : Type} (body : M A) : M A :=
  fun w =>
    match body w with
    | (Ok a, w') => (Ok a, w')
    | (Raise e, w') =>
        (Raise e, mkWorld (db w) (calls w') (clock w') (ticks w'))
    end.

(** ** Persistence boundary *)

(** [order.lines.select_related(...)]: the line rows of the order. *)
Definition order_lines_select_related : M (list OrderLine.t) :=
  fun w => (Ok (db_lines (db w)), w).

(** [order.discounts.filter(type=...)]. *)
Definition order_discounts_filter (type : OrderDiscountType)
  : M (list OrderDiscount.t) :=
  fun w =>
    (Ok (filter (fun d => OrderDiscount.type d = type) (db_discounts (db w))),
     w).

(** [order.save(update_fields=[...])] with the field list of
    [fetch_order_prices_if_expired]: the total, the undiscounted total, the
    shipping price, the shipping tax rate and the price expiration of the
    row are overwritten with those of the object. *)
Definition order_save (order : Order.t) : M () :=
  fun w =>
    let row := db_order (db w) in
    let row :=
      Order.mk (Order.pk row) (Order.status row) (Order.currency row)
        (Order.total order) (Order.undiscounted_total order)
        (Order.shipping_price order) (Order.shipping_tax_rate order)
        (Order.price_expiration_for_unconfirmed order) in
    (Ok (),
     mkWorld (mkDatabase row (db_lines (db w)) (db_discounts (db w)))
       (calls w) (clock w) (ticks w)).

(** One row of [bulk_update]: the five price attributes of the row are
    overwritten with those of the first object with the key of the row. *)
Definition bulk_update_row (lines : list OrderLine.t) (row : OrderLine.t)
  : OrderLine.t :=
  match List.find (fun l => bool_decide (OrderLine.pk l = OrderLine.pk row)) lines with
  | Some l =>
      OrderLine.mk (OrderLine.pk row) (OrderLine.variant row)
        (OrderLine.quantity row) (OrderLine.unit_discount row)
        (OrderLine.undiscounted_unit_price l) (OrderLine.unit_price l)
        (OrderLine.undiscounted_total_price l) (OrderLine.total_price l)
        (OrderLine.tax_rate l)
  | None => row
  end.

(** [order.lines.bulk_update(lines, [...])]. *)
Definition order_lines_bulk_update (lines : list OrderLine.t) : M () :=
  fun w =>
    (Ok (),
     mkWorld
       (mkDatabase (db_order (db w))
          (map (bulk_update_row lines) (db_lines (db w)))
          (db_discounts (db w)))
       (calls w) (clock w) (ticks w)).

(** ** Sample data

    A two-decimal currency, an unconfirmed order with two lines, and
    managers that price them; used to run the pipeline on concrete
    inputs. *)

Definition sample_editable_status : list string := ["draft"; "unconfirmed"].

Definition sample_ttl : Z := 86400.

Definition sample_precision (currency : string) : Z := 2.

(** A discount capability that is never reached when the order has no
    manual discount. *)
Definition sample_no_discount (order : Order.t) (d : OrderDiscount.t)
  : M Order.t :=
  mret order.

(** An amount of cents in USD. *)
Definition usd (cents : Z) : Money.t := Money.mk (Decimal.mk cents (-2)) "USD".

Definition usd_taxed (net gross : Z) : TaxedMoney.t :=
  TaxedMoney.mk (usd net) (usd gross).

Definition sample_variant (pk : Z) : ProductVariant.t :=
  ProductVariant.mk pk (Product.mk (100 + pk)).

Definition sample_order : Order.t :=
  Order.mk 1 "unconfirmed" "USD" (usd_taxed 4500 4500) (usd_taxed 4500 4500)
    (usd_taxed 500 500) (Decimal.mk 0 0) 1000.

(** Line 1: unit price 8.00, unit discount 2.00, quantity 3. *)
Definition sample_line1 : OrderLine.t :=
  OrderLine.mk 1 (Some (sample_variant 1)) 3 (usd 200)
    (usd_taxed 1000 1000) (usd_taxed 800 800)
    (usd_taxed 3000 3000) (usd_taxed 2400 2400) (Decimal.mk 0 0).

(** Line 2: unit price 8.00, no unit discount, quantity 2. *)
Definition sample_line2 : OrderLine.t :=
  OrderLine.mk 2 (Some (sample_variant 2)) 2 (usd 0)
    (usd_taxed 800 800) (usd_taxed 800 800)
    (usd_taxed 1600 1600) (usd_taxed 1600 1600) (Decimal.mk 0 0).

(** A line with unit price 8.00, unit discount 2.00 and quantity 3 whose
    stored undiscounted prices are out of date (zero). *)
Definition sample_line_to_rebuild : OrderLine.t :=
  OrderLine.mk 3 (Some (sample_variant 3)) 3 (usd 200)
    (usd_taxed 0 0) (usd_taxed 800 800)
    (usd_taxed 0 0) (usd_taxed 2400 2400) (Decimal.mk 0 0).

Definition sample_lines : list OrderLine.t := [sample_line1; sample_line2].

Definition sample_db : Database :=
  mkDatabase sample_order sample_lines [].

(** A world whose clock reads [now] at every reading. *)
Definition sample_world (now : Z) : World :=
  mkWorld sample_db [] (fun _ => now) 0.

(** A manager that prices a unit at 8.05 net, 9.90 gross (23% tax), a
    line at the unit price times the quantity, shipping at 5.00 net, 6.15
    gross, and has no external tax data. *)
Definition sample_manager : PluginsManager.t :=
  PluginsManager.mk
    (fun _ line _ _ =>
       Ok (OrderTaxedPricesData.mk (usd_taxed 805 990) (usd_taxed 805 990)))
    (fun _ line _ _ =>
       Ok (OrderTaxedPricesData.mk
             (TaxedMoney.mul (usd_taxed 805 990) (OrderLine.quantity line))
             (TaxedMoney.mul (usd_taxed 805 990) (OrderLine.quantity line))))
    (fun _ _ _ _ _ => Ok (Decimal.mk 23 (-2)))
    (fun _ => Ok (usd_taxed 500 615))
    (fun _ _ => Ok (Decimal.mk 23 (-2)))
    (fun _ => Ok None).

(** External tax data for the two sample lines, at 23% tax, line by line
    those of [sample_manager]. The gross total is the tax on the whole
    order, 45.25 * 1.23 = 55.6575, rounded to 55.66: one cent above the
    sum of the rounded parts, 6.15 + 29.70 + 19.80 = 55.65. *)
Definition sample_tax_data : TaxData.t :=
  TaxData.mk (Decimal.mk 4525 (-2)) (Decimal.mk 5566 (-2))
    (Decimal.mk 500 (-2)) (Decimal.mk 615 (-2)) (Decimal.mk 23 (-2))
    [TaxLineData.mk 1 (Decimal.mk 805 (-2)) (Decimal.mk 990 (-2))
       (Decimal.mk 2415 (-2)) (Decimal.mk 2970 (-2)) (Decimal.mk 23 (-2));
     TaxLineData.mk 2 (Decimal.mk 805 (-2)) (Decimal.mk 990 (-2))
       (Decimal.mk 1610 (-2)) (Decimal.mk 1980 (-2)) (Decimal.mk 23 (-2))].

(** [sample_manager] with an external tax data result. *)
Definition sample_manager_with_tax_data (tax_data : TaxData.t)
  : PluginsManager.t :=
  PluginsManager.mk
    (PluginsManager.calculate_order_line_unit sample_manager)
    (PluginsManager.calculate_order_line_total sample_manager)
    (PluginsManager.get_order_line_tax_rate sample_manager)
    (PluginsManager.calculate_order_shipping sample_manager)
    (PluginsManager.get_order_shipping_tax_rate sample_manager)
    (fun _ => Ok (Some tax_data)).

(** Tax data with an entry for line 1 only. *)
Definition sample_tax_data_line1_only : TaxData.t :=
  TaxData.mk (Decimal.mk 4525 (-2)) (Decimal.mk 5566 (-2))
    (Decimal.mk 500 (-2)) (Decimal.mk 615 (-2)) (Decimal.mk 23 (-2))
    [TaxLineData.mk 1 (Decimal.mk 805 (-2)) (Decimal.mk 990 (-2))
       (Decimal.mk 2415 (-2)) (Decimal.mk 2970 (-2)) (Decimal.mk 23 (-2))].

(** [sample_manager], except that [calculate_order_line_unit] raises
    [unit_error] for line [pk] and [calculate_order_line_total] raises
    [total_error] for it, when an error is given. *)
Definition sample_manager_failing
    (pk : Z) (unit_error total_error : option Exception) : PluginsManager.t :=
  PluginsManager.mk
    (fun order line variant product =>
       match unit_error with
       | Some e =>
           if bool_decide (OrderLine.pk line = pk) then Raise e
           else PluginsManager.calculate_order_line_unit sample_manager
                  order line variant product
       | None => PluginsManager.calculate_order_line_unit sample_manager
                   order line variant product
       end)
    (fun order line variant product =>
       match total_error with
       | Some e =>
           if bool_decide (OrderLine.pk line = pk) then Raise e
           else PluginsManager.calculate_order_line_total sample_manager
                  order line variant product
       | None => PluginsManager.calculate_order_line_total sample_manager
                   order line variant product
       end)
    (PluginsManager.get_order_line_tax_rate sample_manager)
    (PluginsManager.calculate_order_shipping sample_manager)
    (PluginsManager.get_order_shipping_tax_rate sample_manager)
    (PluginsManager.get_taxes_for_order sample_manager).

(** A fulfilled order, outside the editable set, whose prices expired. *)
Definition sample_fulfilled_order : Order.t :=
  Order.mk 1 "fulfilled" "USD" (usd_taxed 4500 4500) (usd_taxed 4500 4500)
    (usd_taxed 500 500) (Decimal.mk 0 0) 1000.

(** A fulfilled order whose stored total is 19.995 net, 24.594 gross. *)
Definition sample_order_extra_digits : Order.t :=
  Order.mk 1 "fulfilled" "USD"
    (TaxedMoney.mk (Money.mk (Decimal.mk 19995 (-3)) "USD")
       (Money.mk (Decimal.mk 24594 (-3)) "USD"))
    (usd_taxed 4500 4500) (usd_taxed 500 500) (Decimal.mk 0 0) 1000.

(** A manual discount of 5.00 on the sample order. *)
Definition sample_manual_discount : OrderDiscount.t :=
  OrderDiscount.mk 1 MANUAL (usd 500).

(** The sample world with a manual discount row. *)
Definition sample_world_with_discount (now : Z) : World :=
  mkWorld (mkDatabase sample_order sample_lines [sample_manual_discount])
    [] (fun _ => now) 0.

(** Modelled from the spec: [update_order_discount_for_order] of
    saleor/order/utils.py is not part of the sources. The spec gives its
    contract as "recomputing the order's discounted total downward by the
    discount's amount, clamped so total never goes negative"; only this
    effect on the total of the order object is modelled. *)
Definition update_order_discount_for_order_by_spec
    (order : Order.t) (order_discount : OrderDiscount.t) : M Order.t :=
  let discounted (price : Money.t) : Money.t :=
    let d := Decimal.add (Money.amount price)
               (Decimal.mk
                  (- Decimal.coefficient
                       (Money.amount (OrderDiscount.amount order_discount)))
                  (Decimal.exponent
                     (Money.amount (OrderDiscount.amount order_discount)))) in
    Money.mk
      (if Decimal.coefficient d <? 0
       then Decimal.mk 0 (Decimal.exponent d) else d)
      (Money.currency price) in
  mret (Order.with_total
          (TaxedMoney.mk (discounted (TaxedMoney.net (Order.total order)))
             (discounted (TaxedMoney.gross (Order.total order))))
          order).

(** [sample_manager], except that [get_taxes_for_order] raises [e]. *)
Definition sample_manager_taxes_raising (e : Exception) : PluginsManager.t :=
  PluginsManager.mk
    (PluginsManager.calculate_order_line_unit sample_manager)
    (PluginsManager.calculate_order_line_total sample_manager)
    (PluginsManager.get_order_line_tax_rate sample_manager)
    (PluginsManager.calculate_order_shipping sample_manager)
    (PluginsManager.get_order_shipping_tax_rate sample_manager)
    (fun _ => Raise e).

(** A discount capability that saves the order with a zero total and then
    raises. *)
Definition sample_discount_saves_then_raises
    (order : Order.t) (d : OrderDiscount.t) : M Order.t :=
  fun w =>
    (Raise (OtherError "IntegrityError"),
     mkWorld
       (mkDatabase (Order.with_total (usd_taxed 0 0) (db_order (db w)))
          (db_lines (db w)) (db_discounts (db w)))
       (calls w) (clock w) (ticks w)).

(** A voucher discount row, and the sample world with that row only. *)
Definition sample_voucher_discount : OrderDiscount.t :=
  OrderDiscount.mk 2 VOUCHER (usd 300).

Definition sample_world_with_voucher (now : Z) : World :=
  mkWorld (mkDatabase sample_order sample_lines [sample_voucher_discount])
    [] (fun _ => now) 0.

(** A line whose variant was deleted. *)
Definition sample_line_without_variant : OrderLine.t :=
  OrderLine.mk 4 None 1 (usd 0)
    (usd_taxed 700 700) (usd_taxed 700 700)
    (usd_taxed 700 700) (usd_taxed 700 700) (Decimal.mk 0 0).

(** [sample_manager], except that the two shipping calls raise the errors
    given, when given. *)
Definition sample_manager_shipping_failing
    (price_error rate_error : option Exception) : PluginsManager.t :=
  PluginsManager.mk
    (PluginsManager.calculate_order_line_unit sample_manager)
    (PluginsManager.calculate_order_line_total sample_manager)
    (PluginsManager.get_order_line_tax_rate sample_manager)
    (fun order =>
       match price_error with
       | Some e => Raise e
       | None => PluginsManager.calculate_order_shipping sample_manager order
       end)
    (fun order price =>
       match rate_error with
       | Some e => Raise e
       | None =>
           PluginsManager.get_order_shipping_tax_rate sample_manager
             order price
       end)
    (PluginsManager.get_taxes_for_order sample_manager).

(** Tax data with two entries for line 1, the second with a total of
    30.00 gross. *)
Definition sample_tax_data_duplicate : TaxData.t :=
  TaxData.mk (Decimal.mk 4525 (-2)) (Decimal.mk 5566 (-2))
    (Decimal.mk 500 (-2)) (Decimal.mk 615 (-2)) (Decimal.mk 23 (-2))
    [TaxLineData.mk 1 (Decimal.mk 805 (-2)) (Decimal.mk 990 (-2))
       (Decimal.mk 2415 (-2)) (Decimal.mk 2970 (-2)) (Decimal.mk 23 (-2));
     TaxLineData.mk 2 (Decimal.mk 805 (-2)) (Decimal.mk 990 (-2))
       (Decimal.mk 1610 (-2)) (Decimal.mk 1980 (-2)) (Decimal.mk 23 (-2));
     TaxLineData.mk 1 (Decimal.mk 805 (-2)) (Decimal.mk 1000 (-2))
       (Decimal.mk 2415 (-2)) (Decimal.mk 3000 (-2)) (Decimal.mk 24 (-2))].

(** ** The pipeline *)

Section Pipeline.

(** [saleor.order.ORDER_EDITABLE_STATUS] and
    [settings.ORDER_PRICES_TTL]. *)
Variable ORDER_EDITABLE_STATUS : list string.
Variable ORDER_PRICES_TTL : Z.

(** The number of decimal places of a currency. *)
Variable get_currency_precision : string -> Z.

(** [saleor.order.utils.update_order_discount_for_order], the
    order-discount-application capability: it may change the order
    object, read and write rows, and raise. *)
Variable update_order_discount_for_order :
  Order.t -> OrderDiscount.t -> M Order.t.

(** Modelled from the spec: [quantize_price] of saleor/core/prices.py is
    not part of the sources; the glossary of the spec has "Quantize: round
    a decimal amount to a currency's minor-unit precision (e.g., 2 decimal
    places for most currencies)", and its example rounds 19.995 to 20.00. *)
Definition quantize_price (price : TaxedMoney.t) (currency : string)
  : TaxedMoney.t :=
  TaxedMoney.quantize price (get_currency_precision currency).

(** The body of the [for line in lines] loop of
    [_recalculate_order_prices], up to the update of the subtotal: the
    line as the [try] block leaves it. *)
Definition _recalculate_order_prices_line
    (manager : PluginsManager.t) (order : Order.t) (line : OrderLine.t)
  : M OrderLine.t :=
  match OrderLine.variant line with
  | None => mret line
  | Some variant =>
      let product := ProductVariant.product variant in
      line_unit ← catch_TaxError
        (call (Call_calculate_order_line_unit (OrderLine.pk line))
           (PluginsManager.calculate_order_line_unit manager
              order line variant product));
      match line_unit with
      | None => mret line
      | Some line_unit =>
          let line := OrderLine.with_undiscounted_unit_price
            (OrderTaxedPricesData.undiscounted_price line_unit) line in
          let line := OrderLine.with_unit_price
            (OrderTaxedPricesData.price_with_discounts line_unit) line in
          line_total ← catch_TaxError
            (call (Call_calculate_order_line_total (OrderLine.pk line))
               (PluginsManager.calculate_order_line_total manager
                  order line variant product));
          match line_total with
          | None => mret line
          | Some line_total =>
              let line := OrderLine.with_undiscounted_total_price
                (OrderTaxedPricesData.undiscounted_price line_total) line in
              let line := OrderLine.with_total_price
                (OrderTaxedPricesData.price_with_discounts line_total) line in
              tax_rate ← catch_TaxError
                (call (Call_get_order_line_tax_rate (OrderLine.pk line))
                   (PluginsManager.get_order_line_tax_rate manager
                      order product variant None
                      (OrderTaxedPricesData.undiscounted_price line_unit)));
              match tax_rate with
              | None => mret line
              | Some tax_rate => mret (OrderLine.with_tax_rate tax_rate line)
              end
          end
      end
  end.

(** The [for line in lines] loop of [_recalculate_order_prices]. *)
Fixpoint _recalculate_order_prices_lines
    (manager : PluginsManager.t) (order : Order.t)
    (lines : list OrderLine.t) (subtotal : TaxedMoney.t)
  : M (list OrderLine.t * TaxedMoney.t) :=
  match lines with
  | [] => mret ([], subtotal)
  | line :: rest =>
      line ← _recalculate_order_prices_line manager order line;
      subtotal ← lift (TaxedMoney.add subtotal (OrderLine.total_price line));
      '(rest, subtotal) ←
        _recalculate_order_prices_lines manager order rest subtotal;
      mret (line :: rest, subtotal)
  end.

(** The shipping [try] block of [_recalculate_order_prices]. *)
Definition _recalculate_order_prices_shipping
    (manager : PluginsManager.t) (order : Order.t) : M Order.t :=
  shipping_price ← catch_TaxError
    (call Call_calculate_order_shipping
       (PluginsManager.calculate_order_shipping manager order));
  match shipping_price with
  | None => mret order
  | Some shipping_price =>
      let order := Order.with_shipping_price shipping_price order in
      shipping_tax_rate ← catch_TaxError
        (call Call_get_order_shipping_tax_rate
           (PluginsManager.get_order_shipping_tax_rate manager
              order (Order.shipping_price order)));
      match shipping_tax_rate with
      | None => mret order
      | Some shipping_tax_rate =>
          mret (Order.with_shipping_tax_rate shipping_tax_rate order)
      end
  end.

Definition _recalculate_order_prices
    (manager : PluginsManager.t) (order : Order.t)
    (lines : list OrderLine.t)
  : M (Order.t * list OrderLine.t) :=
  let currency := Order.currency order in
  let subtotal := zero_taxed_money currency in
  '(lines, subtotal) ←
    _recalculate_order_prices_lines manager order lines subtotal;
  order ← _recalculate_order_prices_shipping manager order;
  total ← lift (TaxedMoney.add (Order.shipping_price order) subtotal);
  mret (Order.with_total total order, lines).

(** [create_taxed_money] of [_apply_tax_data]. *)
Definition create_taxed_money (order : Order.t) (net gross : Decimal.t)
  : TaxedMoney.t :=
  let currency := Order.currency order in
  TaxedMoney.mk (Money.mk net currency) (Money.mk gross currency).

(** [{line.id: line for line in tax_data.lines}]: a later entry replaces
    an earlier one with the same key. *)
Definition tax_lines_dict (tax_data : TaxData.t) : gmap Z TaxLineData.t :=
  foldl (fun d line => <[TaxLineData.id line := line]> d) ∅
    (TaxData.lines tax_data).

(** The [for (order_line, tax_line) in zipped_order_and_tax_lines] loop of
    [_apply_tax_data]; the generator looks a line up when the loop reaches
    it, and [tax_lines[line.id]] raises [KeyError] for a missing key. *)
Fixpoint _apply_tax_data_lines
    (order : Order.t) (tax_lines : gmap Z TaxLineData.t)
    (lines : list OrderLine.t)
  : M (list OrderLine.t) :=
  match lines with
  | [] => mret []
  | line :: rest =>
      match tax_lines !! OrderLine.pk line with
      | None => raise (KeyError (OrderLine.pk line))
      | Some tax_line =>
          let order_line := OrderLine.with_unit_price
            (create_taxed_money order
               (TaxLineData.unit_net_amount tax_line)
               (TaxLineData.unit_gross_amount tax_line)) line in
          let order_line := OrderLine.with_total_price
            (create_taxed_money order
               (TaxLineData.total_net_amount tax_line)
               (TaxLineData.total_gross_amount tax_line)) order_line in
          let order_line := OrderLine.with_tax_rate
            (TaxLineData.tax_rate tax_line) order_line in
          rest ← _apply_tax_data_lines order tax_lines rest;
          mret (order_line :: rest)
      end
  end.

Definition _apply_tax_data
    (order : Order.t) (lines : list OrderLine.t) (tax_data : TaxData.t)
  : M (Order.t * list OrderLine.t) :=
  let order := Order.with_total
    (create_taxed_money order
       (TaxData.total_net_amount tax_data)
       (TaxData.total_gross_amount tax_data)) order in
  let order := Order.with_shipping_price
    (create_taxed_money order
       (TaxData.shipping_price_net_amount tax_data)
       (TaxData.shipping_price_gross_amount tax_data)) order in
  let order := Order.with_shipping_tax_rate
    (TaxData.shipping_tax_rate tax_data) order in
  let tax_lines := tax_lines_dict tax_data in
  lines ← _apply_tax_data_lines order tax_lines lines;
  mret (order, lines).

(** The body of the first loop of [_recalculate_order_discounts]. *)
Definition _recalculate_order_discounts_line (line : OrderLine.t)
  : Outcome OrderLine.t :=
  match TaxedMoney.add_money (OrderLine.unit_price line)
          (OrderLine.unit_discount line) with
  | Raise e => Raise e
  | Ok undiscounted_unit_price =>
      let line :=
        OrderLine.with_undiscounted_unit_price undiscounted_unit_price line in
      Ok (OrderLine.with_undiscounted_total_price
            (if Money.to_bool (OrderLine.unit_discount line)
             then TaxedMoney.mul (OrderLine.undiscounted_unit_price line)
                    (OrderLine.quantity line)
             else OrderLine.total_price line)
            line)
  end.

(** The first loop of [_recalculate_order_discounts]. *)
Fixpoint _recalculate_order_discounts_lines (lines : list OrderLine.t)
  : M (list OrderLine.t) :=
  match lines with
  | [] => mret []
  | line :: rest =>
      line ← lift (_recalculate_order_discounts_line line);
      rest ← _recalculate_order_discounts_lines rest;
      mret (line :: rest)
  end.

(** The second loop of [_recalculate_order_discounts]. *)
Fixpoint _recalculate_order_discounts_manual
    (order : Order.t) (order_discounts : list OrderDiscount.t)
  : M Order.t :=
  match order_discounts with
  | [] => mret order
  | order_discount :: rest =>
      order ←
        (fun w =>
           update_order_discount_for_order order order_discount
             (logged
                (Call_update_order_discount_for_order
                   (OrderDiscount.pk order_discount)) w));
      _recalculate_order_discounts_manual order rest
  end.

Definition _recalculate_order_discounts
    (order : Order.t) (lines : list OrderLine.t)
  : M (Order.t * list OrderLine.t) :=
  lines ← _recalculate_order_discounts_lines lines;
  order_discounts ← order_discounts_filter MANUAL;
  order ← _recalculate_order_discounts_manual order order_discounts;
  mret (order, lines).

(** The part of [fetch_order_prices_if_expired] that runs once the
    prices are found stale (lines 136 to 179). *)
Definition fetch_order_prices_stale
    (order : Order.t) (manager : PluginsManager.t)
    (lines : option (list OrderLine.t))
  : M (Order.t * option (list OrderLine.t)) :=
  lines ← match lines with
          | None => order_lines_select_related
          | Some lines => mret lines
          end;
  now ← timezone_now;
  let order :=
    Order.with_price_expiration_for_unconfirmed
      (now + ORDER_PRICES_TTL) order in
  '(order, lines) ← _recalculate_order_prices manager order lines;
  tax_data ← call Call_get_taxes_for_order
    (PluginsManager.get_taxes_for_order manager order);
  transaction_atomic (
    '(order, lines) ← match tax_data with
                      | Some tax_data => _apply_tax_data order lines tax_data
                      | None => mret (order, lines)
                      end;
    '(order, lines) ← _recalculate_order_discounts order lines;
    _ ← order_save order;
    _ ← order_lines_bulk_update lines;
    mret (order, Some lines)).

Definition fetch_order_prices_if_expired
    (order : Order.t) (manager : PluginsManager.t)
    (lines : option (list OrderLine.t)) (force_update : bool)
  : M (Order.t * option (list OrderLine.t)) :=
  if negb (bool_decide (Order.status order ∈ ORDER_EDITABLE_STATUS))
  then mret (order, lines)
  else
    if force_update
    then fetch_order_prices_stale order manager lines
    else
      now ← timezone_now;
      if now <? Order.price_expiration_for_unconfirmed order
      then mret (order, lines)
      else fetch_order_prices_stale order manager lines.

Definition order_total
    (order : Order.t) (manager : PluginsManager.t)
    (lines : option (list OrderLine.t)) (force_update : bool)
  : M TaxedMoney.t :=
  let currency := Order.currency order in
  '(order, _) ← fetch_order_prices_if_expired order manager lines force_update;
  mret (quantize_price (Order.total order) currency).

(** [next((line for line in (lines or []) if line.pk == order_line.pk),
    order_line)]. *)
Definition _find_order_line
    (lines : option (list OrderLine.t)) (order_line : OrderLine.t)
  : OrderLine.t :=
  let lines := match lines with
               | Some lines => lines
               | None => []
               end in
  match List.find
          (fun line => bool_decide (OrderLine.pk line = OrderLine.pk order_line))
          lines with
  | Some line => line
  | None => order_line
  end.

Definition order_line_unit
    (order : Order.t) (order_line : OrderLine.t) (manager : PluginsManager.t)
    (lines : option (list OrderLine.t)) (force_update : bool)
  : M OrderTaxedPricesData.t :=
  let currency := Order.currency order in
  '(_, lines) ← fetch_order_prices_if_expired order manager lines force_update;
  let order_line := _find_order_line lines order_line in
  mret (OrderTaxedPricesData.mk
          (quantize_price (OrderLine.undiscounted_unit_price order_line)
             currency)
          (quantize_price (OrderLine.unit_price order_line) currency)).

Definition order_line_total
    (order : Order.t) (order_line : OrderLine.t) (manager : PluginsManager.t)
    (lines : option (list OrderLine.t)) (force_update : bool)
  : M OrderTaxedPricesData.t :=
  let currency := Order.currency order in
  '(_, lines) ← fetch_order_prices_if_expired order manager lines force_update;
  let order_line := _find_order_line lines order_line in
  mret (OrderTaxedPricesData.mk
          (quantize_price (OrderLine.undiscounted_total_price order_line)
             currency)
          (quantize_price (OrderLine.total_price order_line) currency)).

Definition order_line_tax_rate
    (order : Order.t) (order_line : OrderLine.t) (manager : PluginsManager.t)
    (lines : option (list OrderLine.t)) (force_update : bool)
  : M Decimal.t :=
  '(_, lines) ← fetch_order_prices_if_expired order manager lines force_update;
  let order_line := _find_order_line lines order_line in
  mret (OrderLine.tax_rate order_line).

Definition order_shipping
    (order : Order.t) (manager : PluginsManager.t)
    (lines : option (list OrderLine.t)) (force_update : bool)
  : M TaxedMoney.t :=
  let currency := Order.currency order in
  '(order, _) ← fetch_order_prices_if_expired order manager lines force_update;
  mret (quantize_price (Order.shipping_price order) currency).

Definition order_shipping_tax_rate
    (order : Order.t) (manager : PluginsManager.t)
    (lines : option (list OrderLine.t)) (force_update : bool)
  : M Decimal.t :=
  '(order, _) ← fetch_order_prices_if_expired order manager lines force_update;
  mret (Order.shipping_tax_rate order).

Definition order_undiscounted_total
    (order : Order.t) (manager : PluginsManager.t)
    (lines : option (list OrderLine.t)) (force_update : bool)
  : M TaxedMoney.t :=
  let currency := Order.currency order in
  '(order, _) ← fetch_order_prices_if_expired order manager lines force_update;
  mret (quantize_price (Order.undiscounted_total order) currency).

(** ** Vocabulary of the statements *)

(** The prices of [order] are found stale in world [w]: the status is
    editable and either the update is forced or the clock reading of the
    gate is not before the price expiration. *)
Definition is_stale (order : Order.t) (force_update : bool) (w : World)
  : Prop :=
  Order.status order ∈ ORDER_EDITABLE_STATUS ∧
  (force_update = true ∨
   Order.price_expiration_for_unconfirmed order <= clock w (ticks w)).

(** The world in which the stale branch starts: the gate reads the clock
    unless the update is forced. *)
Definition after_gate (force_update : bool) (w : World) : World :=
  if force_update then w else tick w.

(** The lines the pass prices: those given, else the rows of the order. *)
Definition priced_lines (lines : option (list OrderLine.t)) (w : World)
  : list OrderLine.t :=
  match lines with
  | None => db_lines (db w)
  | Some lines => lines
  end.

(** The order object as the stale branch hands it to the Engine. *)
Definition refreshed_order (order : Order.t) (w : World) : Order.t :=
  Order.with_price_expiration_for_unconfirmed
    (clock w (ticks w) + ORDER_PRICES_TTL) order.

(** [sum(line.total_price for line in lines)], from [start]. *)
Fixpoint sum_total_price (start : TaxedMoney.t) (lines : list OrderLine.t)
  : Outcome TaxedMoney.t :=
  match lines with
  | [] => Ok start
  | line :: rest =>
      match TaxedMoney.add start (OrderLine.total_price line) with
      | Ok s => sum_total_price s rest
      | Raise e => Raise e
      end
  end.

(** A computation whose only effect is on the call log. *)
Definition only_logs {A : Type} (m : M A) : Prop :=
  ∀ w, db (m w).2 = db w ∧ clock (m w).2 = clock w ∧ ticks (m w).2 = ticks w.

(** One of the three pricing calls the Engine makes for [line] raises
    [e] when the Engine reaches it. *)
Definition line_call_raises
    (manager : PluginsManager.t) (order : Order.t) (line : OrderLine.t)
    (e : Exception) : Prop :=
  ∃ variant,
    OrderLine.variant line = Some variant ∧
    let product := ProductVariant.product variant in
    (PluginsManager.calculate_order_line_unit manager
       order line variant product = Raise e
     ∨ ∃ line_unit,
         PluginsManager.calculate_order_line_unit manager
           order line variant product = Ok line_unit ∧
         let line1 :=
           OrderLine.with_unit_price
             (OrderTaxedPricesData.price_with_discounts line_unit)
             (OrderLine.with_undiscounted_unit_price
                (OrderTaxedPricesData.undiscounted_price line_unit) line) in
         (PluginsManager.calculate_order_line_total manager
            order line1 variant product = Raise e
          ∨ ∃ line_total,
              PluginsManager.calculate_order_line_total manager
                order line1 variant product = Ok line_total ∧
              PluginsManager.get_order_line_tax_rate manager
                order product variant None
                (OrderTaxedPricesData.undiscounted_price line_unit)
              = Raise e)).

(** One of the two shipping calls of the Engine raises [e] when the
    Engine reaches it. *)
Definition shipping_call_raises
    (manager : PluginsManager.t) (order : Order.t) (e : Exception) : Prop :=
  PluginsManager.calculate_order_shipping manager order = Raise e
  ∨ ∃ shipping_price,
      PluginsManager.calculate_order_shipping manager order
      = Ok shipping_price ∧
      PluginsManager.get_order_shipping_tax_rate manager
        (Order.with_shipping_price shipping_price order) shipping_price
      = Raise e.

(** The discount capability leaves the price expiration of the order
    object alone (the spec has it change the total and the undiscounted
    total only). *)
Definition discount_keeps_expiration : Prop :=
  ∀ order order_discount w order' w',
    update_order_discount_for_order order order_discount w = (Ok order', w') →
    Order.price_expiration_for_unconfirmed order'
    = Order.price_expiration_for_unconfirmed order.

(** A computation whose outcome does not depend on the world. *)
Definition world_independent {A : Type} (m : M A) : Prop :=
  ∀ w1 w2, (m w1).1 = (m w2).1.

(** A pricing call of the Engine raises [e] when the Engine reaches it:
    either a call for some line, the lines before it having been priced
    and added up, or a shipping call, all lines having been. *)
Definition engine_call_raises
    (manager : PluginsManager.t) (order : Order.t)
    (lines : list OrderLine.t) (e : Exception) : Prop :=
  (∃ before line after,
     lines = before ++ line :: after ∧
     (∃ w r w',
        _recalculate_order_prices_lines manager order before
          (zero_taxed_money (Order.currency order)) w = (Ok r, w')) ∧
     line_call_raises manager order line e)
  ∨ ((∃ w r w',
        _recalculate_order_prices_lines manager order lines
          (zero_taxed_money (Order.currency order)) w = (Ok r, w')) ∧
     shipping_call_raises manager order e).


(** ** Basic facts on the monad *)

Lemma bind_Ok {A B : Type} (m : M A) (f : A → M B) w a w1 :
  m w = (Ok a, w1) → (m ≫= f) w = f a w1.
Proof. intros H. unfold mbind, M_bind. by rewrite H. Qed.

Lemma bind_Raise {A B : Type} (m : M A) (f : A → M B) w e w1 :
  m w = (Raise e, w1) → (m ≫= f) w = (Raise e, w1).
Proof. intros H. unfold mbind, M_bind. by rewrite H. Qed.

Lemma bind_inv_Ok {A B : Type} (m : M A) (f : A → M B) w b w2 :
  (m ≫= f) w = (Ok b, w2) →
  ∃ a w1, m w = (Ok a, w1) ∧ f a w1 = (Ok b, w2).
Proof.
  unfold mbind, M_bind. destruct (m w) as [[a|e] w1]; intros H.
  - by exists a, w1.
  - discriminate.
Qed.

Lemma bind_inv_Raise {A B : Type} (m : M A) (f : A → M B) w e w2 :
  (m ≫= f) w = (Raise e, w2) →
  m w = (Raise e, w2) ∨ ∃ a w1, m w = (Ok a, w1) ∧ f a w1 = (Raise e, w2).
Proof.
  unfold mbind, M_bind. destruct (m w) as [[a|e'] w1]; intros H.
  - right. by exists a, w1.
  - left. by simplify_eq.
Qed.

Lemma bind_inv {A B : Type} (m : M A) (f : A → M B) w r w2 :
  (m ≫= f) w = (r, w2) →
  (∃ a w1, m w = (Ok a, w1) ∧ f a w1 = (r, w2))
  ∨ (∃ e, m w = (Raise e, w2) ∧ r = Raise e).
Proof.
  unfold mbind, M_bind. destruct (m w) as [[a|e] w1]; intros H.
  - left. by exists a, w1.
  - right. exists e. by simplify_eq.
Qed.

(** ** The staleness gate *)

(** Before the price expiration, an unforced call on an order of
    editable status returns the order and the lines as given: it reads
    the clock once, calls no capability and writes no row. *)
Lemma fetch_fresh order manager lines w :
  clock w (ticks w) < Order.price_expiration_for_unconfirmed order →
  Order.status order ∈ ORDER_EDITABLE_STATUS →
  fetch_order_prices_if_expired order manager lines false w
  = (Ok (order, lines), tick w).
Proof.
  intros Hnow Hst. unfold fetch_order_prices_if_expired.
  rewrite bool_decide_eq_true_2 by done. simpl.
  unfold mbind, M_bind, timezone_now. simpl.
  apply Z.ltb_lt in Hnow. by rewrite Hnow.
Qed.

(** Otherwise the call runs the stale branch. *)
Lemma fetch_stale order manager lines force_update w :
  is_stale order force_update w →
  fetch_order_prices_if_expired order manager lines force_update w
  = fetch_order_prices_stale order manager lines (after_gate force_update w).
Proof.
  intros [Hst Hgate]. unfold fetch_order_prices_if_expired, after_gate.
  rewrite bool_decide_eq_true_2 by done. simpl.
  destruct force_update; [done|].
  destruct Hgate as [?|Hexp]; [done|].
  unfold mbind at 1. unfold M_bind, timezone_now. simpl.
  apply Z.ltb_ge in Hexp. by rewrite Hexp.
Qed.

Lemma priced_lines_after_gate lines force_update w :
  priced_lines lines (after_gate force_update w) = priced_lines lines w.
Proof. unfold after_gate. by destruct force_update. Qed.

Lemma db_after_gate force_update w : db (after_gate force_update w) = db w.
Proof. unfold after_gate. by destruct force_update. Qed.

Lemma fetch_not_editable order manager lines force_update w :
  Order.status order ∉ ORDER_EDITABLE_STATUS →
  fetch_order_prices_if_expired order manager lines force_update w
  = (Ok (order, lines), w).
Proof.
  intros Hst. unfold fetch_order_prices_if_expired.
  by rewrite bool_decide_eq_false_2.
Qed.

(** C8. An order whose status is outside the editable set is returned as
    given, with the lines as given, and the world is left as it was: no
    row is written, the clock is not read and no capability is called.
    This holds whatever the price expiration is (also in the past) and
    whatever [force_update] is. *)
Theorem non_editable_short_circuit order manager lines force_update w :
  Order.status order ∉ ORDER_EDITABLE_STATUS →
  fetch_order_prices_if_expired order manager lines force_update w
  = (Ok (order, lines), w).
Proof.
  intros Hst. unfold fetch_order_prices_if_expired.
  rewrite bool_decide_eq_false_2 by exact Hst. reflexivity.
Qed.

(** ** The price computation Engine *)

Ltac run_M :=
  unfold mbind, M_bind, mret, M_ret, catch_TaxError, call, lift, raise,
    timezone_now in *;
  simpl in *.

(** Case analysis on the outcome of every capability call in the goal. *)
Ltac destruct_calls :=
  repeat match goal with
  | |- context [PluginsManager.calculate_order_line_unit ?m ?o ?l ?v ?p] =>
      destruct (PluginsManager.calculate_order_line_unit m o l v p)
        as [?|[]] eqn:?; simpl
  | |- context [PluginsManager.calculate_order_line_total ?m ?o ?l ?v ?p] =>
      destruct (PluginsManager.calculate_order_line_total m o l v p)
        as [?|[]] eqn:?; simpl
  | |- context [PluginsManager.get_order_line_tax_rate ?m ?o ?p ?v ?a ?r] =>
      destruct (PluginsManager.get_order_line_tax_rate m o p v a r)
        as [?|[]] eqn:?; simpl
  | |- context [PluginsManager.calculate_order_shipping ?m ?o] =>
      destruct (PluginsManager.calculate_order_shipping m o)
        as [?|[]] eqn:?; simpl
  | |- context [PluginsManager.get_order_shipping_tax_rate ?m ?o ?p] =>
      destruct (PluginsManager.get_order_shipping_tax_rate m o p)
        as [?|[]] eqn:?; simpl
  end.

Lemma line_prices_only_logs manager order line :
  only_logs (_recalculate_order_prices_line manager order line).
Proof.
  intros w. unfold _recalculate_order_prices_line.
  destruct (OrderLine.variant line); [|done].
  run_M. destruct_calls; done.
Qed.

Lemma line_prices_world_independent manager order line w1 w2 :
  (_recalculate_order_prices_line manager order line w1).1
  = (_recalculate_order_prices_line manager order line w2).1.
Proof.
  unfold _recalculate_order_prices_line.
  destruct (OrderLine.variant line); [|done].
  run_M. destruct_calls; done.
Qed.

Lemma line_prices_pk manager order line w line' w' :
  _recalculate_order_prices_line manager order line w = (Ok line', w') →
  OrderLine.pk line' = OrderLine.pk line.
Proof.
  unfold _recalculate_order_prices_line.
  destruct (OrderLine.variant line); [|by intros [= <- _]].
  run_M. destruct_calls; by intros [= <- _].
Qed.

Lemma line_prices_no_TaxError manager order line w w' :
  _recalculate_order_prices_line manager order line w ≠ (Raise TaxError, w').
Proof.
  unfold _recalculate_order_prices_line.
  destruct (OrderLine.variant line); [|done].
  run_M. destruct_calls; done.
Qed.

Lemma only_logs_ret {A : Type} (a : A) : only_logs (mret a : M A).
Proof. by intros w. Qed.

Lemma only_logs_lift {A : Type} (r : Outcome A) : only_logs (lift r).
Proof. by intros w. Qed.

Lemma only_logs_bind {A B : Type} (m : M A) (f : A → M B) :
  only_logs m → (∀ a, only_logs (f a)) → only_logs (m ≫= f).
Proof.
  intros Hm Hf w. unfold mbind, M_bind.
  specialize (Hm w). destruct (m w) as [[a|e] w1]; simpl in *; [|done].
  destruct (Hf a w1) as (-> & -> & ->). done.
Qed.

Lemma lines_prices_only_logs manager order lines subtotal :
  only_logs (_recalculate_order_prices_lines manager order lines subtotal).
Proof.
  revert subtotal. induction lines as [|line rest IH]; intros subtotal.
  - apply only_logs_ret.
  - simpl. apply only_logs_bind; [apply line_prices_only_logs|].
    intros line'. apply only_logs_bind; [apply only_logs_lift|].
    intros subtotal'. apply only_logs_bind; [apply IH|].
    intros [? ?]. apply only_logs_ret.
Qed.

(** What the loop returns: every line is the outcome of the loop body on
    that line alone, and the subtotal is the running sum of the total
    prices of the lines as the loop left them. *)
Lemma lines_prices_Ok manager order lines subtotal w lines' subtotal' w' :
  _recalculate_order_prices_lines manager order lines subtotal w
  = (Ok (lines', subtotal'), w') →
  Forall2
    (fun line line' =>
       ∀ w0, (_recalculate_order_prices_line manager order line w0).1
             = Ok line')
    lines lines'
  ∧ sum_total_price subtotal lines' = Ok subtotal'.
Proof.
  revert subtotal w lines' subtotal' w'.
  induction lines as [|line rest IH]; intros subtotal w lines' subtotal' w'.
  - simpl. intros [= <- <- _]. split; [constructor|done].
  - simpl. intros H.
    apply bind_inv_Ok in H as (line1 & w1 & Hline & H).
    apply bind_inv_Ok in H as (subtotal1 & w2 & Hadd & H).
    apply bind_inv_Ok in H as ([rest1 subtotal2] & w3 & Hrest & H).
    injection H as <- <- _.
    apply IH in Hrest as [Hall Hsum].
    unfold lift in Hadd. injection Hadd as Hadd _.
    split.
    + constructor; [|done]. intros w0.
      rewrite (line_prices_world_independent _ _ _ w0 w). by rewrite Hline.
    + simpl. by rewrite Hadd.
Qed.

Lemma lines_prices_no_TaxError manager order lines subtotal w w' :
  _recalculate_order_prices_lines manager order lines subtotal w
  ≠ (Raise TaxError, w').
Proof.
  revert subtotal w. induction lines as [|line rest IH]; intros subtotal w.
  - done.
  - simpl. intros H.
    apply bind_inv_Raise in H as [H|(line1 & w1 & _ & H)].
    { by apply line_prices_no_TaxError in H. }
    apply bind_inv_Raise in H as [H|(subtotal1 & w2 & _ & H)].
    { unfold lift in H. injection H as H _.
      unfold TaxedMoney.add, Money.add in H.
      repeat case_decide; simplify_eq. }
    apply bind_inv_Raise in H as [H|([rest1 subtotal2] & w3 & _ & H)].
    { by apply IH in H. }
    done.
Qed.

Lemma shipping_prices_only_logs manager order :
  only_logs (_recalculate_order_prices_shipping manager order).
Proof.
  intros w. unfold _recalculate_order_prices_shipping.
  run_M. destruct_calls; done.
Qed.

Lemma shipping_prices_no_TaxError manager order w w' :
  _recalculate_order_prices_shipping manager order w ≠ (Raise TaxError, w').
Proof.
  unfold _recalculate_order_prices_shipping.
  run_M. destruct_calls; done.
Qed.

(** The shipping block changes the shipping price and the shipping tax
    rate of the order object only. *)
Lemma shipping_prices_frame manager order w order' w' :
  _recalculate_order_prices_shipping manager order w = (Ok order', w') →
  Order.pk order' = Order.pk order ∧
  Order.status order' = Order.status order ∧
  Order.currency order' = Order.currency order ∧
  Order.total order' = Order.total order ∧
  Order.undiscounted_total order' = Order.undiscounted_total order ∧
  Order.price_expiration_for_unconfirmed order'
  = Order.price_expiration_for_unconfirmed order.
Proof.
  unfold _recalculate_order_prices_shipping.
  run_M. destruct_calls; by intros [= <- _].
Qed.

Lemma shipping_prices_world_independent manager order w1 w2 :
  (_recalculate_order_prices_shipping manager order w1).1
  = (_recalculate_order_prices_shipping manager order w2).1.
Proof.
  unfold _recalculate_order_prices_shipping.
  run_M. destruct_calls; done.
Qed.

Lemma engine_only_logs manager order lines :
  only_logs (_recalculate_order_prices manager order lines).
Proof.
  unfold _recalculate_order_prices.
  apply only_logs_bind; [apply lines_prices_only_logs|]. intros [? ?].
  apply only_logs_bind; [apply shipping_prices_only_logs|]. intros ?.
  apply only_logs_bind; [apply only_logs_lift|]. intros ?.
  apply only_logs_ret.
Qed.

(** The docstring of [_recalculate_order_prices]: "Does not throw
    TaxError". *)
Lemma engine_no_TaxError manager order lines w w' :
  _recalculate_order_prices manager order lines w ≠ (Raise TaxError, w').
Proof.
  unfold _recalculate_order_prices. intros H.
  apply bind_inv_Raise in H as [H|([lines1 subtotal] & w1 & _ & H)].
  { by apply lines_prices_no_TaxError in H. }
  apply bind_inv_Raise in H as [H|(order1 & w2 & _ & H)].
  { by apply shipping_prices_no_TaxError in H. }
  apply bind_inv_Raise in H as [H|(total & w3 & _ & H)]; [|done].
  unfold lift in H. injection H as H _.
  unfold TaxedMoney.add, Money.add in H.
  repeat case_decide; simplify_eq.
Qed.

(** What the Engine returns. *)
Lemma engine_Ok manager order lines w order' lines' w' :
  _recalculate_order_prices manager order lines w
  = (Ok (order', lines'), w') →
  ∃ subtotal order_s total,
    Forall2
      (fun line line' =>
         ∀ w0, (_recalculate_order_prices_line manager order line w0).1
               = Ok line')
      lines lines'
    ∧ sum_total_price (zero_taxed_money (Order.currency order)) lines'
      = Ok subtotal
    ∧ (∀ w0, (_recalculate_order_prices_shipping manager order w0).1
             = Ok order_s)
    ∧ TaxedMoney.add (Order.shipping_price order_s) subtotal = Ok total
    ∧ order' = Order.with_total total order_s.
Proof.
  unfold _recalculate_order_prices. intros H.
  apply bind_inv_Ok in H as ([lines1 subtotal] & w1 & Hlines & H).
  apply bind_inv_Ok in H as (order1 & w2 & Hship & H).
  apply bind_inv_Ok in H as (total & w3 & Hadd & H).
  injection H as <- <- _. unfold lift in Hadd. injection Hadd as Hadd _.
  apply lines_prices_Ok in Hlines as [Hall Hsum].
  exists subtotal, order1, total. repeat split; try done.
  intros w0. rewrite (shipping_prices_world_independent _ _ w0 w1).
  by rewrite Hship.
Qed.

(** When the Engine returns, the total it has set is the shipping price
    plus the sum of the total prices of the lines, whatever the manager
    returned or swallowed. *)
Lemma engine_total_is_shipping_plus_lines
    manager order lines w order' lines' w' :
  _recalculate_order_prices manager order lines w
  = (Ok (order', lines'), w') →
  ∃ subtotal,
    sum_total_price (zero_taxed_money (Order.currency order)) lines'
    = Ok subtotal
    ∧ TaxedMoney.add (Order.shipping_price order') subtotal
      = Ok (Order.total order').
Proof.
  intros H. apply engine_Ok in H as (subtotal & ? & ? & _ & Hsum & _ & Hadd & ->).
  by exists subtotal.
Qed.

(** ** The tax data overlay *)

Lemma overlay_lines_keeps_world order tax_lines lines w r w' :
  _apply_tax_data_lines order tax_lines lines w = (r, w') → w' = w.
Proof.
  revert r. induction lines as [|line rest IH]; intros r; simpl.
  - by intros [= _ <-].
  - destruct (tax_lines !! OrderLine.pk line) as [tax_line|].
    + unfold mbind, M_bind.
      destruct (_apply_tax_data_lines order tax_lines rest w)
        as [[rest'|e] w1] eqn:Hrest.
      * intros [= _ <-]. by eapply IH.
      * intros [= _ <-]. by eapply IH.
    + by intros [= _ <-].
Qed.

Lemma overlay_keeps_world order lines tax_data w r w' :
  _apply_tax_data order lines tax_data w = (r, w') → w' = w.
Proof.
  unfold _apply_tax_data, mbind, M_bind.
  destruct (_apply_tax_data_lines _ _ lines w) as [[lines'|e] w1] eqn:H.
  - intros [= _ <-]. by eapply overlay_lines_keeps_world.
  - intros [= _ <-]. by eapply overlay_lines_keeps_world.
Qed.

(** ** Discount reconciliation *)

(** The first pass on one line changes the two undiscounted prices
    only. *)
Lemma discounts_line_frame line line' :
  _recalculate_order_discounts_line line = Ok line' →
  OrderLine.pk line' = OrderLine.pk line ∧
  OrderLine.variant line' = OrderLine.variant line ∧
  OrderLine.quantity line' = OrderLine.quantity line ∧
  OrderLine.unit_discount line' = OrderLine.unit_discount line ∧
  OrderLine.unit_price line' = OrderLine.unit_price line ∧
  OrderLine.total_price line' = OrderLine.total_price line ∧
  OrderLine.tax_rate line' = OrderLine.tax_rate line.
Proof.
  unfold _recalculate_order_discounts_line.
  destruct (TaxedMoney.add_money _ _); [|done]. by intros [= <-].
Qed.

Lemma discounts_lines_inv lines w r w' :
  _recalculate_order_discounts_lines lines w = (r, w') →
  w' = w ∧
  ∀ lines', r = Ok lines' →
    Forall2 (fun line line' => _recalculate_order_discounts_line line = Ok line')
      lines lines'.
Proof.
  revert r w'. induction lines as [|line rest IH]; intros r w'; simpl.
  - intros [= <- <-]. split; [done|]. intros ? [= <-]. constructor.
  - intros H. apply bind_inv in H as [(line1 & w1 & Hline & H)|(e & H & ->)].
    + unfold lift in Hline. injection Hline as Hline <-.
      apply bind_inv in H as [(rest1 & w2 & Hrest & H)|(e & H & ->)].
      * injection H as <- <-. apply IH in Hrest as [-> Hall].
        split; [done|]. intros ? [= <-]. constructor; [done|by apply Hall].
      * apply IH in H as [-> _]. done.
    + unfold lift in H. by injection H as _ <-.
Qed.

Lemma sum_total_price_ext start lines lines' :
  Forall2 (fun l l' => OrderLine.total_price l' = OrderLine.total_price l)
    lines lines' →
  sum_total_price start lines' = sum_total_price start lines.
Proof.
  intros H. revert start. induction H as [|l l' ls ls' Hl _ IH]; intros start.
  - done.
  - simpl. rewrite Hl. destruct (TaxedMoney.add _ _); [apply IH|done].
Qed.

(** A successful sum is in the currency of its seed. *)
Lemma sum_total_price_currency start lines s :
  sum_total_price start lines = Ok s →
  Money.currency (TaxedMoney.net s) = Money.currency (TaxedMoney.net start) ∧
  Money.currency (TaxedMoney.gross s)
  = Money.currency (TaxedMoney.gross start).
Proof.
  revert start. induction lines as [|l ls IH]; intros start; simpl.
  - by intros [= <-].
  - destruct (TaxedMoney.add start (OrderLine.total_price l)) as [s1|] eqn:Hadd;
      [|done].
    intros H. apply IH in H as [-> ->].
    unfold TaxedMoney.add, Money.add in Hadd.
    repeat case_decide; simplify_eq. done.
Qed.

(** ** The stale branch *)

Lemma atomic_inv_Ok {A : Type} (body : M A) w a w' :
  transaction_atomic body w = (Ok a, w') → body w = (Ok a, w').
Proof.
  unfold transaction_atomic. destruct (body w) as [[a'|e] w1]; [done|].
  discriminate.
Qed.

Lemma atomic_inv_Raise {A : Type} (body : M A) w e w' :
  transaction_atomic body w = (Raise e, w') →
  db w' = db w ∧ ∃ w1, body w = (Raise e, w1).
Proof.
  unfold transaction_atomic. destruct (body w) as [[a'|e'] w1]; [done|].
  intros [= -> <-]. split; [done|]. by exists w1.
Qed.

Lemma fetch_stale_unfold order manager lines w :
  fetch_order_prices_stale order manager lines w
  = ('(order, lines) ←
       _recalculate_order_prices manager (refreshed_order order w)
         (priced_lines lines w);
     tax_data ← call Call_get_taxes_for_order
       (PluginsManager.get_taxes_for_order manager order);
     transaction_atomic (
       '(order, lines) ← match tax_data with
                         | Some tax_data =>
                             _apply_tax_data order lines tax_data
                         | None => mret (order, lines)
                         end;
       '(order, lines) ← _recalculate_order_discounts order lines;
       _ ← order_save order;
       _ ← order_lines_bulk_update lines;
       mret (order, Some lines))) (tick w).
Proof. unfold fetch_order_prices_stale. by destruct lines. Qed.

(** The steps of a stale pass that returns. *)
Lemma fetch_stale_Ok order manager lines w order' lines' w' :
  fetch_order_prices_stale order manager lines w
  = (Ok (order', lines'), w') →
  ∃ order1 lines1 w1 tax_data order2 lines2 lines3 w3,
    _recalculate_order_prices manager (refreshed_order order w)
      (priced_lines lines w) (tick w) = (Ok (order1, lines1), w1)
    ∧ PluginsManager.get_taxes_for_order manager order1 = Ok tax_data
    ∧ match tax_data with
      | Some tax_data =>
          _apply_tax_data order1 lines1 tax_data
            (logged Call_get_taxes_for_order w1)
          = (Ok (order2, lines2), logged Call_get_taxes_for_order w1)
      | None => order2 = order1 ∧ lines2 = lines1
      end
    ∧ _recalculate_order_discounts order2 lines2
        (logged Call_get_taxes_for_order w1)
      = (Ok (order', lines3), w3)
    ∧ lines' = Some lines3
    ∧ w' = (order_lines_bulk_update lines3 (order_save order' w3).2).2.
Proof.
  rewrite fetch_stale_unfold. intros H.
  apply bind_inv_Ok in H as ([order1 lines1] & w1 & Hengine & H).
  apply bind_inv_Ok in H as (tax_data & w2 & Htax & H).
  unfold call in Htax. injection Htax as Htax <-.
  apply atomic_inv_Ok in H.
  apply bind_inv_Ok in H as ([order2 lines2] & w2 & Hoverlay & H).
  apply bind_inv_Ok in H as ([order3 lines3] & w3 & Hdisc & H).
  apply bind_inv_Ok in H as ([] & w4 & Hsave & H).
  apply bind_inv_Ok in H as ([] & w5 & Hbulk & H).
  injection H as <- <- <-.
  exists order1, lines1, w1, tax_data, order2, lines2, lines3, w3.
  assert (w2 = logged Call_get_taxes_for_order w1) as ->.
  { destruct tax_data as [td|].
    - by apply overlay_keeps_world in Hoverlay.
    - by injection Hoverlay as _ _ <-. }
  repeat split; try done.
  - destruct tax_data as [td|]; [done|]. by injection Hoverlay as <- <-.
  - unfold order_save in Hsave. injection Hsave as <-.
    unfold order_lines_bulk_update in Hbulk. by injection Hbulk as <-.
Qed.

(** Atomicity on failure: a stale pass that raises writes no row. *)
Lemma fetch_stale_Raise_keeps_db order manager lines w e w' :
  fetch_order_prices_stale order manager lines w = (Raise e, w') →
  db w' = db w.
Proof.
  rewrite fetch_stale_unfold. intros H.
  pose proof (engine_only_logs manager (refreshed_order order w)
                (priced_lines lines w) (tick w)) as (Hdb & _ & _).
  apply bind_inv_Raise in H as [H|([order1 lines1] & w1 & Hengine & H)].
  { rewrite H in Hdb. done. }
  rewrite Hengine in Hdb. simpl in Hdb.
  apply bind_inv_Raise in H as [H|(tax_data & w2 & Htax & H)].
  { unfold call in H. injection H as _ <-. done. }
  unfold call in Htax. injection Htax as _ <-.
  apply atomic_inv_Raise in H as [-> _]. done.
Qed.

Lemma engine_lines_pk manager order lines w order' lines' w' :
  _recalculate_order_prices manager order lines w
  = (Ok (order', lines'), w') →
  Forall2 (fun l l' => OrderLine.pk l' = OrderLine.pk l) lines lines'.
Proof.
  intros H. apply engine_Ok in H as (? & ? & ? & Hall & _).
  eapply Forall2_impl; [exact Hall|]. intros l l' Hl. simpl in Hl.
  specialize (Hl w).
  destruct (_recalculate_order_prices_line manager order l w) as [r w1] eqn:E.
  simpl in Hl. subst r. by eapply line_prices_pk.
Qed.

Lemma add_currency a b s :
  TaxedMoney.add a b = Ok s →
  Money.currency (TaxedMoney.net s) = Money.currency (TaxedMoney.net b) ∧
  Money.currency (TaxedMoney.gross s) = Money.currency (TaxedMoney.gross b).
Proof.
  unfold TaxedMoney.add, Money.add. intros H.
  repeat case_decide; simplify_eq. done.
Qed.

(** Without external tax data, the order that the stale pass hands to
    the manual discounts has for total its shipping price plus the sum of
    the total prices of the lines it returns; the discount capability is
    then applied to that order, once per manual discount row, and the
    outcome is saved. *)
Lemma total_before_manual_discounts
    order manager lines force_update w order' lines' w' :
  is_stale order force_update w →
  (∀ o, PluginsManager.get_taxes_for_order manager o = Ok None) →
  fetch_order_prices_if_expired order manager lines force_update w
  = (Ok (order', lines'), w') →
  ∃ lines3 subtotal order_pre w_pre w_post,
    lines' = Some lines3
    ∧ sum_total_price (zero_taxed_money (Order.currency order)) lines3
      = Ok subtotal
    ∧ TaxedMoney.add (Order.shipping_price order_pre) subtotal
      = Ok (Order.total order_pre)
    ∧ Order.currency order_pre = Order.currency order
    ∧ db w_pre = db w
    ∧ _recalculate_order_discounts_manual order_pre
        (filter (fun d => OrderDiscount.type d = MANUAL)
           (db_discounts (db w))) w_pre
      = (Ok order', w_post)
    ∧ w' = (order_lines_bulk_update lines3 (order_save order' w_post).2).2.
Proof.
  intros Hstale Htax H. rewrite fetch_stale in H by done.
  set (w0 := after_gate force_update w) in *.
  assert (db w0 = db w) as Hdb0 by apply db_after_gate.
  apply fetch_stale_Ok in H
    as (order1 & lines1 & w1 & tax_data & order2 & lines2 & lines3 & w3
        & Hengine & Htd & Hoverlay & Hdisc & -> & ->).
  rewrite Htax in Htd. injection Htd as <-. destruct Hoverlay as [-> ->].
  pose proof (engine_only_logs manager (refreshed_order order w0)
                (priced_lines lines w0) (tick w0)) as (Hdb1 & _ & _).
  rewrite Hengine in Hdb1. simpl in Hdb1.
  apply engine_Ok in Hengine
    as (subtotal & order_s & total & _ & Hsum & Hship & Hadd & ->).
  unfold _recalculate_order_discounts in Hdisc.
  apply bind_inv_Ok in Hdisc as (lines3' & w2 & Hlines & Hdisc).
  apply discounts_lines_inv in Hlines as [-> Hall].
  specialize (Hall _ eq_refl).
  apply bind_inv_Ok in Hdisc as (discounts & w2 & Hfilter & Hdisc).
  unfold order_discounts_filter in Hfilter. simpl in Hfilter.
  rewrite Hdb1, Hdb0 in Hfilter. injection Hfilter as <- <-.
  apply bind_inv_Ok in Hdisc as (order3 & w4 & Hmanual & Hdisc).
  injection Hdisc as <- <- <-.
  specialize (Hship w).
  destruct (_recalculate_order_prices_shipping manager
              (refreshed_order order w0) w) as [r ws] eqn:Es.
  simpl in Hship. subst r.
  apply shipping_prices_frame in Es as (_ & _ & Hcur & _).
  simpl in Hcur.
  exists lines3', subtotal, (Order.with_total total order_s),
    (logged Call_get_taxes_for_order w1), w4.
  split; [done|]. split.
  { rewrite <- Hsum. apply sum_total_price_ext.
    eapply Forall2_impl; [exact Hall|]. intros l l' Hl.
    by apply discounts_line_frame in Hl as (_ & _ & _ & _ & _ & -> & _). }
  split; [done|]. split; [done|]. split; [by rewrite <- Hdb0, <- Hdb1|].
  split; done.
Qed.

(** C1, as the code has it. After a stale pass that returns, with no
    external tax data and no manual order discount, the total of the
    order is its shipping price plus the sum of the total prices of the
    lines, exactly and in the currency of the order; the order row holds
    that total and that shipping price. *)
Theorem total_is_shipping_plus_lines
    order manager lines force_update w order' lines' w' :
  is_stale order force_update w →
  (∀ o, PluginsManager.get_taxes_for_order manager o = Ok None) →
  filter (fun d => OrderDiscount.type d = MANUAL) (db_discounts (db w)) = [] →
  fetch_order_prices_if_expired order manager lines force_update w
  = (Ok (order', lines'), w') →
  ∃ lines3 subtotal,
    lines' = Some lines3
    ∧ sum_total_price (zero_taxed_money (Order.currency order')) lines3
      = Ok subtotal
    ∧ TaxedMoney.add (Order.shipping_price order') subtotal
      = Ok (Order.total order')
    ∧ Money.currency (TaxedMoney.net (Order.total order'))
      = Order.currency order'
    ∧ Money.currency (TaxedMoney.gross (Order.total order'))
      = Order.currency order'
    ∧ Order.total (db_order (db w')) = Order.total order'
    ∧ Order.shipping_price (db_order (db w')) = Order.shipping_price order'.
Proof.
  intros Hstale Htax Hnone H.
  apply total_before_manual_discounts in H
    as (lines3 & subtotal & order_pre & w_pre & w_post
        & -> & Hsum & Hadd & Hcur & _ & Hmanual & ->); [|done..].
  rewrite Hnone in Hmanual. simpl in Hmanual. injection Hmanual as <- <-.
  exists lines3, subtotal. rewrite Hcur.
  apply sum_total_price_currency in Hsum as Hc. destruct Hc as [Hn Hg].
  simpl in Hn, Hg.
  apply add_currency in Hadd as Hc. destruct Hc as [Hcn Hcg].
  repeat split; try done.
  - by rewrite Hcn.
  - by rewrite Hcg.
Qed.

(** C2, as the code has it. A [TaxError] raised by a pricing call for a
    line whose variant is resolvable is swallowed, field by field: if the
    unit-price call raises it, the line is left exactly as it was; if the
    total-price call raises it, the two unit prices have been overwritten
    and the rest of the line is left as it was; if the tax-rate call
    raises it, the four prices have been overwritten and the tax rate is
    left as it was. The Engine never raises [TaxError], and when it
    returns, every line it returns is the outcome of the loop body on
    that line alone and the shipping price and tax rate are the outcome
    of the shipping block on the order alone: a failure for one line
    changes nothing for the other lines and for shipping. *)
Theorem tax_error_is_swallowed_per_field manager order line variant :
  OrderLine.variant line = Some variant →
  let product := ProductVariant.product variant in
  (PluginsManager.calculate_order_line_unit manager
     order line variant product = Raise TaxError →
   ∀ w, (_recalculate_order_prices_line manager order line w).1 = Ok line)
  ∧ (∀ line_unit,
       PluginsManager.calculate_order_line_unit manager
         order line variant product = Ok line_unit →
       let line1 :=
         OrderLine.with_unit_price
           (OrderTaxedPricesData.price_with_discounts line_unit)
           (OrderLine.with_undiscounted_unit_price
              (OrderTaxedPricesData.undiscounted_price line_unit) line) in
       (PluginsManager.calculate_order_line_total manager
          order line1 variant product = Raise TaxError →
        ∀ w, (_recalculate_order_prices_line manager order line w).1
             = Ok line1)
       ∧ (∀ line_total,
            PluginsManager.calculate_order_line_total manager
              order line1 variant product = Ok line_total →
            PluginsManager.get_order_line_tax_rate manager
              order product variant None
              (OrderTaxedPricesData.undiscounted_price line_unit)
            = Raise TaxError →
            ∀ w, (_recalculate_order_prices_line manager order line w).1
                 = Ok (OrderLine.with_total_price
                         (OrderTaxedPricesData.price_with_discounts line_total)
                         (OrderLine.with_undiscounted_total_price
                            (OrderTaxedPricesData.undiscounted_price line_total)
                            line1))))
  ∧ (∀ lines w w',
       _recalculate_order_prices manager order lines w ≠ (Raise TaxError, w'))
  ∧ (∀ lines w order' lines' w',
       _recalculate_order_prices manager order lines w
       = (Ok (order', lines'), w') →
       Forall2
         (fun l l' =>
            ∀ w0, (_recalculate_order_prices_line manager order l w0).1
                  = Ok l')
         lines lines'
       ∧ ∃ order_s,
           (∀ w0, (_recalculate_order_prices_shipping manager order w0).1
                  = Ok order_s)
           ∧ Order.shipping_price order' = Order.shipping_price order_s
           ∧ Order.shipping_tax_rate order' = Order.shipping_tax_rate order_s).
Proof.
  intros Hvariant product. split; [|split; [|split]].
  - intros Hunit w. unfold _recalculate_order_prices_line.
    rewrite Hvariant. fold product. run_M. by rewrite Hunit.
  - intros line_unit Hunit line1. split.
    + intros Htotal w. unfold _recalculate_order_prices_line.
      rewrite Hvariant. fold product. run_M. rewrite Hunit. simpl.
      fold line1. by rewrite Htotal.
    + intros line_total Htotal Hrate w.
      unfold _recalculate_order_prices_line.
      rewrite Hvariant. fold product. run_M. rewrite Hunit. simpl.
      fold line1. rewrite Htotal. simpl. by rewrite Hrate.
  - intros lines w w'. apply engine_no_TaxError.
  - intros lines w order' lines' w' H.
    apply engine_Ok in H as (? & order_s & total & Hall & _ & Hs & _ & ->).
    split; [done|]. by exists order_s.
Qed.

(** ** Precedence of external tax data *)

(** The line of the tax data that [tax_lines[k]] returns is one of its
    lines with identity [k]. *)
Lemma tax_lines_dict_lookup_Some tax_data k tax_line :
  tax_lines_dict tax_data !! k = Some tax_line →
  tax_line ∈ TaxData.lines tax_data ∧ TaxLineData.id tax_line = k.
Proof.
  unfold tax_lines_dict.
  generalize (TaxData.lines tax_data). intros l.
  assert (∀ (d : gmap Z TaxLineData.t),
            foldl (fun d line => <[TaxLineData.id line := line]> d) d l !! k
            = Some tax_line →
            (tax_line ∈ l ∧ TaxLineData.id tax_line = k)
            ∨ d !! k = Some tax_line) as Hgen.
  { induction l as [|x l IH]; intros d; simpl.
    - by right.
    - intros H. apply IH in H as [[Hin Hid]|H].
      + left. split; [by right|done].
      + destruct (decide (TaxLineData.id x = k)) as [Heq|Hne].
        * rewrite Heq, lookup_insert_eq in H. injection H as ->.
          left. split; [by left|done].
        * rewrite lookup_insert_ne in H by done. by right. }
  intros H. apply Hgen in H as [H|H]; [done|].
  by rewrite lookup_empty in H.
Qed.

(** Every identity that occurs in the tax data has an entry. *)
Lemma tax_lines_dict_is_Some tax_data tax_line :
  tax_line ∈ TaxData.lines tax_data →
  is_Some (tax_lines_dict tax_data !! TaxLineData.id tax_line).
Proof.
  unfold tax_lines_dict.
  generalize (TaxData.lines tax_data). intros l.
  assert (∀ (d : gmap Z TaxLineData.t) k,
            is_Some (d !! k) ∨ (∃ x, x ∈ l ∧ TaxLineData.id x = k) →
            is_Some
              (foldl (fun d line => <[TaxLineData.id line := line]> d) d l
               !! k)) as Hgen.
  { induction l as [|x l IH]; intros d k; simpl.
    - intros [H|(y & Hin & _)]; [done|]. by apply elem_of_nil in Hin.
    - intros [H|(y & Hin & Hid)].
      + apply IH. left.
        destruct (decide (TaxLineData.id x = k)) as [Heq|Hne].
        * rewrite Heq, lookup_insert_eq. by eexists.
        * by rewrite lookup_insert_ne.
      + apply elem_of_cons in Hin as [->|Hin].
        * apply IH. left. rewrite Hid, lookup_insert_eq. by eexists.
        * apply IH. right. by exists y. }
  intros Hin. apply Hgen. right. by exists tax_line.
Qed.

(** What the overlay writes on a line. *)
Lemma overlay_lines_Ok order (tax_lines : gmap Z TaxLineData.t) lines w :
  (∀ line, line ∈ lines → is_Some (tax_lines !! OrderLine.pk line)) →
  ∃ lines',
    _apply_tax_data_lines order tax_lines lines w = (Ok lines', w)
    ∧ Forall2
        (fun line line' =>
           ∃ tax_line,
             tax_lines !! OrderLine.pk line = Some tax_line
             ∧ line'
               = OrderLine.with_tax_rate (TaxLineData.tax_rate tax_line)
                   (OrderLine.with_total_price
                      (create_taxed_money order
                         (TaxLineData.total_net_amount tax_line)
                         (TaxLineData.total_gross_amount tax_line))
                      (OrderLine.with_unit_price
                         (create_taxed_money order
                            (TaxLineData.unit_net_amount tax_line)
                            (TaxLineData.unit_gross_amount tax_line))
                         line)))
        lines lines'.
Proof.
  induction lines as [|line rest IH]; intros Hall.
  - exists []. split; [done|constructor].
  - destruct IH as (rest' & Hrest & Hall').
    { intros l Hl. apply Hall. by right. }
    destruct (Hall line) as [tax_line Htl]; [by left|].
    eexists. simpl. rewrite Htl. split.
    + erewrite bind_Ok by exact Hrest. reflexivity.
    + constructor; [|done]. by exists tax_line.
Qed.

(** C3. When every line has an entry in the tax data, the overlay
    returns, and it has overwritten the total of the order, its shipping
    price (net and gross, as amounts in the currency of the order), its
    shipping tax rate and, for every line, the unit price, the total price
    and the tax rate, with the values of the tax data entry matched by
    identity; whatever these fields held before, the values the Engine
    computed included. *)
Theorem tax_data_overrides_engine_prices order lines tax_data w :
  (∀ line, line ∈ lines →
     is_Some (tax_lines_dict tax_data !! OrderLine.pk line)) →
  ∃ order' lines',
    _apply_tax_data order lines tax_data w = (Ok (order', lines'), w)
    ∧ Order.total order'
      = TaxedMoney.mk
          (Money.mk (TaxData.total_net_amount tax_data) (Order.currency order))
          (Money.mk (TaxData.total_gross_amount tax_data)
             (Order.currency order))
    ∧ Order.shipping_price order'
      = TaxedMoney.mk
          (Money.mk (TaxData.shipping_price_net_amount tax_data)
             (Order.currency order))
          (Money.mk (TaxData.shipping_price_gross_amount tax_data)
             (Order.currency order))
    ∧ Order.shipping_tax_rate order' = TaxData.shipping_tax_rate tax_data
    ∧ Forall2
        (fun line line' =>
           ∃ tax_line,
             tax_lines_dict tax_data !! OrderLine.pk line = Some tax_line
             ∧ tax_line ∈ TaxData.lines tax_data
             ∧ TaxLineData.id tax_line = OrderLine.pk line
             ∧ OrderLine.pk line' = OrderLine.pk line
             ∧ OrderLine.unit_price line'
               = TaxedMoney.mk
                   (Money.mk (TaxLineData.unit_net_amount tax_line)
                      (Order.currency order))
                   (Money.mk (TaxLineData.unit_gross_amount tax_line)
                      (Order.currency order))
             ∧ OrderLine.total_price line'
               = TaxedMoney.mk
                   (Money.mk (TaxLineData.total_net_amount tax_line)
                      (Order.currency order))
                   (Money.mk (TaxLineData.total_gross_amount tax_line)
                      (Order.currency order))
             ∧ OrderLine.tax_rate line' = TaxLineData.tax_rate tax_line)
        lines lines'.
Proof.
  intros Hall. unfold _apply_tax_data.
  edestruct overlay_lines_Ok as (lines' & Hlines & Hall'); [exact Hall|].
  eexists _, lines'. split.
  { erewrite bind_Ok by exact Hlines. reflexivity. }
  repeat split.
  eapply Forall2_impl; [exact Hall'|].
  intros line line' (tax_line & Htl & ->). exists tax_line.
  destruct (tax_lines_dict_lookup_Some _ _ _ Htl) as [Hin Hid].
  repeat split; done.
Qed.

Lemma overlay_lines_inv_Ok
    order (tax_lines : gmap Z TaxLineData.t) lines w lines' w' :
  _apply_tax_data_lines order tax_lines lines w = (Ok lines', w') →
  Forall2
    (fun line line' =>
       ∃ tax_line,
         tax_lines !! OrderLine.pk line = Some tax_line
         ∧ OrderLine.unit_price line'
           = create_taxed_money order
               (TaxLineData.unit_net_amount tax_line)
               (TaxLineData.unit_gross_amount tax_line)
         ∧ OrderLine.total_price line'
           = create_taxed_money order
               (TaxLineData.total_net_amount tax_line)
               (TaxLineData.total_gross_amount tax_line)
         ∧ OrderLine.tax_rate line' = TaxLineData.tax_rate tax_line)
    lines lines'.
Proof.
  revert lines' w'. induction lines as [|line rest IH]; intros lines' w'; simpl.
  - intros [= <- _]. constructor.
  - destruct (tax_lines !! OrderLine.pk line) as [tax_line|] eqn:Htl; [|done].
    intros H. apply bind_inv_Ok in H as (rest' & w1 & Hrest & H).
    injection H as <- _. constructor; [|by eapply IH].
    by exists tax_line.
Qed.

(** The precedence holds through the whole stale pass: when the tax
    capability returned tax data and the pass returns, every line it
    returns carries the unit price, the total price and the tax rate of
    its tax data entry, not those the Engine computed. *)
Lemma stale_pass_returns_tax_data_prices
    order manager lines force_update w tax_data order' lines' w' :
  is_stale order force_update w →
  (∀ o, PluginsManager.get_taxes_for_order manager o = Ok (Some tax_data)) →
  fetch_order_prices_if_expired order manager lines force_update w
  = (Ok (order', lines'), w') →
  ∃ lines3,
    lines' = Some lines3
    ∧ Forall2
        (fun line line' =>
           ∃ tax_line,
             tax_lines_dict tax_data !! OrderLine.pk line = Some tax_line
             ∧ OrderLine.unit_price line'
               = TaxedMoney.mk
                   (Money.mk (TaxLineData.unit_net_amount tax_line)
                      (Order.currency order))
                   (Money.mk (TaxLineData.unit_gross_amount tax_line)
                      (Order.currency order))
             ∧ OrderLine.total_price line'
               = TaxedMoney.mk
                   (Money.mk (TaxLineData.total_net_amount tax_line)
                      (Order.currency order))
                   (Money.mk (TaxLineData.total_gross_amount tax_line)
                      (Order.currency order))
             ∧ OrderLine.tax_rate line' = TaxLineData.tax_rate tax_line)
        (priced_lines lines w) lines3.
Proof.
  intros Hstale Htax H. rewrite fetch_stale in H by done.
  set (w0 := after_gate force_update w) in *.
  apply fetch_stale_Ok in H
    as (order1 & lines1 & w1 & td & order2 & lines2 & lines3 & w3
        & Hengine & Htd & Hoverlay & Hdisc & -> & _).
  rewrite Htax in Htd. injection Htd as <-.
  exists lines3. split; [done|].
  unfold w0 in Hengine. rewrite priced_lines_after_gate in Hengine.
  fold w0 in Hengine.
  apply engine_lines_pk in Hengine as Hpk.
  apply engine_Ok in Hengine as (? & order_s & total & _ & _ & Hs & _ & ->).
  specialize (Hs w).
  destruct (_recalculate_order_prices_shipping manager
              (refreshed_order order w0) w) as [r ws] eqn:Es.
  simpl in Hs. subst r.
  apply shipping_prices_frame in Es as (_ & _ & Hcur & _). simpl in Hcur.
  unfold _apply_tax_data in Hoverlay.
  apply bind_inv_Ok in Hoverlay as (lines2' & wa & Hlines2 & Hoverlay).
  injection Hoverlay as <- <-.
  apply overlay_lines_inv_Ok in Hlines2.
  unfold _recalculate_order_discounts in Hdisc.
  apply bind_inv_Ok in Hdisc as (lines3' & wb & Hlines3 & Hdisc).
  apply discounts_lines_inv in Hlines3 as [-> Hall3].
  specialize (Hall3 _ eq_refl).
  apply bind_inv_Ok in Hdisc as (ds & wc & _ & Hdisc).
  apply bind_inv_Ok in Hdisc as (order3 & wd & _ & Hdisc).
  injection Hdisc as _ <- _.
  clear -Hpk Hlines2 Hall3 Hcur.
  revert lines2' lines3' Hlines2 Hall3.
  induction Hpk as [|l l1 ls ls1 Hl _ IH]; intros lines2' lines3' H2 H3.
  - inversion H2; subst. inversion H3; subst. constructor.
  - inversion H2 as [|? l2 ? ls2 (tax_line & Htl & Hu & Ht & Hr) H2']; subst.
    inversion H3 as [|? l3 ? ls3 Hl3 H3']; subst.
    constructor; [|by eapply IH].
    apply discounts_line_frame in Hl3 as (_ & _ & _ & _ & -> & -> & ->).
    exists tax_line. rewrite <- Hl, Htl, Hu, Ht, Hr.
    unfold create_taxed_money. simpl. rewrite Hcur. done.
Qed.

(** ** Tax data that misses a line *)

Lemma overlay_lines_missing order (tax_lines : gmap Z TaxLineData.t) lines w :
  (∃ line, line ∈ lines ∧ tax_lines !! OrderLine.pk line = None) →
  ∃ line,
    line ∈ lines ∧ tax_lines !! OrderLine.pk line = None
    ∧ _apply_tax_data_lines order tax_lines lines w
      = (Raise (KeyError (OrderLine.pk line)), w).
Proof.
  induction lines as [|line rest IH]; intros (l & Hin & Hnone).
  - by apply elem_of_nil in Hin.
  - simpl. destruct (tax_lines !! OrderLine.pk line) as [tax_line|] eqn:Htl.
    + apply elem_of_cons in Hin as [->|Hin]; [congruence|].
      destruct IH as (l' & Hin' & Hnone' & Hrest); [by exists l|].
      exists l'. split; [by right|]. split; [done|].
      erewrite bind_Raise by exact Hrest. reflexivity.
    + exists line. split; [by left|]. done.
Qed.

Lemma overlay_missing order lines tax_data w :
  (∃ line, line ∈ lines
           ∧ tax_lines_dict tax_data !! OrderLine.pk line = None) →
  ∃ line,
    line ∈ lines ∧ tax_lines_dict tax_data !! OrderLine.pk line = None
    ∧ _apply_tax_data order lines tax_data w
      = (Raise (KeyError (OrderLine.pk line)), w).
Proof.
  intros H. unfold _apply_tax_data.
  eapply overlay_lines_missing in H as (line & Hin & Hnone & Hraise).
  exists line. split; [done|]. split; [done|].
  erewrite bind_Raise by exact Hraise. reflexivity.
Qed.

Lemma fetch_stale_engine_Raise order manager lines w e w1 :
  _recalculate_order_prices manager (refreshed_order order w)
    (priced_lines lines w) (tick w) = (Raise e, w1) →
  fetch_order_prices_stale order manager lines w = (Raise e, w1).
Proof.
  intros H. rewrite fetch_stale_unfold.
  erewrite bind_Raise by exact H. reflexivity.
Qed.

Lemma fetch_stale_overlay_Raise
    order manager lines w order1 lines1 w1 tax_data e w2 :
  _recalculate_order_prices manager (refreshed_order order w)
    (priced_lines lines w) (tick w) = (Ok (order1, lines1), w1) →
  PluginsManager.get_taxes_for_order manager order1 = Ok (Some tax_data) →
  _apply_tax_data order1 lines1 tax_data (logged Call_get_taxes_for_order w1)
  = (Raise e, w2) →
  ∃ w', fetch_order_prices_stale order manager lines w = (Raise e, w').
Proof.
  intros Hengine Htax Hoverlay. rewrite fetch_stale_unfold.
  erewrite bind_Ok by exact Hengine. simpl.
  erewrite bind_Ok; [|unfold call; rewrite Htax; reflexivity].
  unfold transaction_atomic.
  erewrite bind_Raise by exact Hoverlay. by eexists.
Qed.

(** C4. When the tax capability returns tax data that has no entry for
    one of the lines being priced, the stale pass raises, and no row is
    written: the database is as it was before the call. Unless the Engine
    itself raised, the exception is the [KeyError] of a line without
    entry. *)
Theorem tax_data_mismatch_aborts
    order manager lines force_update w tax_data :
  is_stale order force_update w →
  (∀ o, PluginsManager.get_taxes_for_order manager o = Ok (Some tax_data)) →
  (∃ line, line ∈ priced_lines lines w
           ∧ tax_lines_dict tax_data !! OrderLine.pk line = None) →
  ∃ e w',
    fetch_order_prices_if_expired order manager lines force_update w
    = (Raise e, w')
    ∧ db w' = db w
    ∧ ((∃ w1,
          _recalculate_order_prices manager
            (refreshed_order order (after_gate force_update w))
            (priced_lines lines w) (tick (after_gate force_update w))
          = (Raise e, w1))
       ∨ (∃ line, line ∈ priced_lines lines w
                  ∧ tax_lines_dict tax_data !! OrderLine.pk line = None
                  ∧ e = KeyError (OrderLine.pk line))).
Proof.
  intros Hstale Htax (line & Hin & Hnone).
  rewrite fetch_stale by done.
  set (w0 := after_gate force_update w).
  assert (∃ e w',
            fetch_order_prices_stale order manager lines w0 = (Raise e, w')
            ∧ ((∃ w1,
                  _recalculate_order_prices manager (refreshed_order order w0)
                    (priced_lines lines w) (tick w0) = (Raise e, w1))
               ∨ (∃ line, line ∈ priced_lines lines w
                    ∧ tax_lines_dict tax_data !! OrderLine.pk line = None
                    ∧ e = KeyError (OrderLine.pk line))))
    as (e & w' & Hfetch & Hwhy).
  { rewrite <- (priced_lines_after_gate lines force_update w) in Hin |- *.
    fold w0 in Hin |- *.
    destruct (_recalculate_order_prices manager (refreshed_order order w0)
                (priced_lines lines w0) (tick w0))
      as [[[order1 lines1]|e] w1] eqn:Hengine.
    - apply engine_lines_pk in Hengine as Hpk.
      destruct (overlay_missing order1 lines1 tax_data
                  (logged Call_get_taxes_for_order w1))
        as (l1 & Hin1 & Hnone1 & Hraise).
      { apply list_elem_of_lookup in Hin as [i Hi].
        destruct (Forall2_lookup_l _ _ _ _ _ Hpk Hi) as (l1 & Hi1 & Heq).
        exists l1. split; [by eapply list_elem_of_lookup_2|]. by rewrite Heq. }
      apply list_elem_of_lookup in Hin1 as [i Hi1].
      destruct (Forall2_lookup_r _ _ _ _ _ Hpk Hi1) as (l0 & Hi0 & Heq).
      exists (KeyError (OrderLine.pk l1)).
      destruct (fetch_stale_overlay_Raise _ _ _ _ _ _ _ _ _ _
                  Hengine (Htax order1) Hraise) as [w' Hfetch].
      exists w'. split; [done|].
      right. exists l0. split; [by eapply list_elem_of_lookup_2|].
      rewrite <- Heq. done.
    - exists e, w1. split.
      + by apply fetch_stale_engine_Raise.
      + left. by exists w1. }
  exists e, w'. split; [done|]. split; [|done].
  apply fetch_stale_Raise_keeps_db in Hfetch. rewrite Hfetch.
  apply db_after_gate.
Qed.

(** ** Exceptions other than [TaxError] *)

Lemma world_independent_bind {A B : Type} (m : M A) (f : A → M B) :
  world_independent m → (∀ a, world_independent (f a)) →
  world_independent (m ≫= f).
Proof.
  intros Hm Hf w1 w2. unfold mbind, M_bind.
  specialize (Hm w1 w2).
  destruct (m w1) as [[a1|e1] w1'], (m w2) as [[a2|e2] w2'];
    simpl in Hm; simplify_eq; [apply Hf|done].
Qed.

Lemma lines_prices_world_independent manager order lines subtotal :
  world_independent
    (_recalculate_order_prices_lines manager order lines subtotal).
Proof.
  revert subtotal. induction lines as [|line rest IH]; intros subtotal.
  - done.
  - simpl. apply world_independent_bind.
    { intros w1 w2. apply line_prices_world_independent. }
    intros line'. apply world_independent_bind; [done|].
    intros subtotal'. apply world_independent_bind; [apply IH|].
    by intros [? ?].
Qed.

Lemma line_call_raises_body manager order line e w :
  e ≠ TaxError →
  line_call_raises manager order line e →
  ∃ w', _recalculate_order_prices_line manager order line w = (Raise e, w').
Proof.
  intros He (variant & Hvariant & Hcall).
  unfold _recalculate_order_prices_line. rewrite Hvariant. run_M.
  destruct Hcall as [Hunit|(line_unit & Hunit & Hcall)].
  { rewrite Hunit. destruct e; try done; by eexists. }
  rewrite Hunit. simpl.
  destruct Hcall as [Htotal|(line_total & Htotal & Hrate)].
  { rewrite Htotal. destruct e; try done; by eexists. }
  rewrite Htotal. simpl. rewrite Hrate. destruct e; try done; by eexists.
Qed.

Lemma shipping_call_raises_block manager order e w :
  e ≠ TaxError →
  shipping_call_raises manager order e →
  ∃ w', _recalculate_order_prices_shipping manager order w = (Raise e, w').
Proof.
  intros He Hcall. unfold _recalculate_order_prices_shipping. run_M.
  destruct Hcall as [Hship|(shipping_price & Hship & Hrate)].
  { rewrite Hship. destruct e; try done; by eexists. }
  rewrite Hship. simpl. rewrite Hrate. destruct e; try done; by eexists.
Qed.

Lemma lines_prices_raise_at
    manager order before line after subtotal w r w1 e w2 :
  _recalculate_order_prices_lines manager order before subtotal w
  = (Ok r, w1) →
  _recalculate_order_prices_line manager order line w1 = (Raise e, w2) →
  _recalculate_order_prices_lines manager order (before ++ line :: after)
    subtotal w = (Raise e, w2).
Proof.
  revert subtotal w r. induction before as [|l ls IH]; intros subtotal w r.
  - simpl. intros [= _ <-] Hline. by erewrite bind_Raise.
  - simpl. intros H Hline.
    apply bind_inv_Ok in H as (l1 & wa & Hl & H).
    apply bind_inv_Ok in H as (s1 & wb & Hadd & H).
    apply bind_inv_Ok in H as ([ls1 s2] & wc & Hrest & H).
    injection H as _ <-.
    erewrite bind_Ok by exact Hl.
    erewrite bind_Ok by exact Hadd.
    erewrite bind_Raise; [done|]. by eapply IH.
Qed.

(** C10. An exception other than [TaxError] raised by a pricing call of
    the Engine, for a line or for shipping, comes out of
    [_recalculate_order_prices] and out of
    [fetch_order_prices_if_expired] as it is, and the pass writes no row:
    the database is as it was before the call. *)
Theorem other_exceptions_propagate
    order manager lines force_update w e :
  e ≠ TaxError →
  is_stale order force_update w →
  engine_call_raises manager
    (refreshed_order order (after_gate force_update w))
    (priced_lines lines w) e →
  ∃ w1 w',
    _recalculate_order_prices manager
      (refreshed_order order (after_gate force_update w))
      (priced_lines lines w) (tick (after_gate force_update w))
    = (Raise e, w1)
    ∧ fetch_order_prices_if_expired order manager lines force_update w
      = (Raise e, w')
    ∧ db w' = db w.
Proof.
  intros He Hstale Hcall.
  set (w0 := after_gate force_update w) in *.
  set (order0 := refreshed_order order w0) in *.
  assert (∃ w1, _recalculate_order_prices manager order0
                  (priced_lines lines w) (tick w0) = (Raise e, w1))
    as [w1 Hengine].
  { unfold _recalculate_order_prices. cbv zeta.
    destruct Hcall as [(before & line & after & -> & (wa & r & wb & Hbefore)
                        & Hline)
                      |[(wa & r & wb & Hlines) Hship]].
    - pose proof (lines_prices_world_independent manager order0 before
                    (zero_taxed_money (Order.currency order0)) (tick w0) wa)
        as Hind.
      rewrite Hbefore in Hind.
      destruct (_recalculate_order_prices_lines manager order0 before
                  (zero_taxed_money (Order.currency order0)) (tick w0))
        as [r' wb'] eqn:Hrun.
      simpl in Hind. subst r'.
      destruct (line_call_raises_body _ _ _ _ wb' He Hline) as [w2 Hraise].
      exists w2. apply bind_Raise.
      by eapply lines_prices_raise_at.
    - pose proof (lines_prices_world_independent manager order0
                    (priced_lines lines w)
                    (zero_taxed_money (Order.currency order0)) (tick w0) wa)
        as Hind.
      rewrite Hlines in Hind.
      destruct (_recalculate_order_prices_lines manager order0
                  (priced_lines lines w)
                  (zero_taxed_money (Order.currency order0)) (tick w0))
        as [r' wb'] eqn:Hrun.
      simpl in Hind. subst r'. destruct r as [lines1 subtotal].
      destruct (shipping_call_raises_block _ _ _ wb' He Hship) as [w2 Hraise].
      exists w2. erewrite bind_Ok by exact Hrun.
      by apply bind_Raise. }
  exists w1. rewrite fetch_stale by done. fold w0.
  rewrite <- (priced_lines_after_gate lines force_update w) in Hengine.
  fold w0 in Hengine.
  apply fetch_stale_engine_Raise in Hengine as Hfetch.
  exists w1. split; [|split; [done|]].
  - rewrite <- (priced_lines_after_gate lines force_update w). by fold w0.
  - apply fetch_stale_Raise_keeps_db in Hfetch. rewrite Hfetch.
    apply db_after_gate.
Qed.

(** ** Two calls in a row *)

Lemma engine_keeps_expiration manager order lines w order' lines' w' :
  _recalculate_order_prices manager order lines w
  = (Ok (order', lines'), w') →
  Order.price_expiration_for_unconfirmed order'
  = Order.price_expiration_for_unconfirmed order.
Proof.
  intros H. apply engine_Ok in H as (? & order_s & total & _ & _ & Hs & _ & ->).
  specialize (Hs w).
  destruct (_recalculate_order_prices_shipping manager order w)
    as [r ws] eqn:Es.
  simpl in Hs. subst r. simpl.
  by apply shipping_prices_frame in Es as (_ & _ & _ & _ & _ & ->).
Qed.

Lemma overlay_keeps_expiration order lines tax_data w order' lines' w' :
  _apply_tax_data order lines tax_data w = (Ok (order', lines'), w') →
  Order.price_expiration_for_unconfirmed order'
  = Order.price_expiration_for_unconfirmed order.
Proof.
  unfold _apply_tax_data. intros H.
  apply bind_inv_Ok in H as (lines1 & w1 & _ & H). by injection H as <- _ _.
Qed.

Lemma manual_discounts_keep_expiration order order_discounts w order' w' :
  discount_keeps_expiration →
  _recalculate_order_discounts_manual order order_discounts w
  = (Ok order', w') →
  Order.price_expiration_for_unconfirmed order'
  = Order.price_expiration_for_unconfirmed order.
Proof.
  intros Hkeep. revert order w.
  induction order_discounts as [|d ds IH]; intros order w; simpl.
  - by intros [= <- _].
  - intros H. apply bind_inv_Ok in H as (order1 & w1 & Hd & H).
    apply IH in H. apply Hkeep in Hd. congruence.
Qed.

Lemma reconciliation_keeps_expiration order lines w order' lines' w' :
  discount_keeps_expiration →
  _recalculate_order_discounts order lines w = (Ok (order', lines'), w') →
  Order.price_expiration_for_unconfirmed order'
  = Order.price_expiration_for_unconfirmed order.
Proof.
  intros Hkeep. unfold _recalculate_order_discounts. intros H.
  apply bind_inv_Ok in H as (lines1 & w1 & _ & H).
  apply bind_inv_Ok in H as (ds & w2 & _ & H).
  apply bind_inv_Ok in H as (order1 & w3 & Hm & H).
  injection H as <- _ _. by eapply manual_discounts_keep_expiration.
Qed.

(** C7. Let a first call without [force_update] on an order of editable
    status return. If it found the prices stale, the order carries the
    expiration it set at the start of the refresh, the clock reading then
    plus the TTL. A second call without [force_update] whose clock reading
    is before that expiration (or, when the first call found the prices
    fresh, before the expiration the order already had) returns the order
    as the first call left it and the lines as they are given, so the
    order and line totals are those of the first call; it calls no
    capability and writes no row. *)
Theorem second_call_is_fresh
    order manager lines lines2 w order1 lines1 w1 :
  discount_keeps_expiration →
  Order.status order ∈ ORDER_EDITABLE_STATUS →
  fetch_order_prices_if_expired order manager lines false w
  = (Ok (order1, lines1), w1) →
  clock w1 (ticks w1)
  < (if clock w (ticks w) <? Order.price_expiration_for_unconfirmed order
     then Order.price_expiration_for_unconfirmed order
     else clock w (S (ticks w)) + ORDER_PRICES_TTL) →
  (Order.price_expiration_for_unconfirmed order <= clock w (ticks w) →
   Order.price_expiration_for_unconfirmed order1
   = clock w (S (ticks w)) + ORDER_PRICES_TTL)
  ∧ ∃ w2,
      fetch_order_prices_if_expired order1 manager lines2 false w1
      = (Ok (order1, lines2), w2)
      ∧ calls w2 = calls w1
      ∧ db w2 = db w1.
Proof.
  intros Hkeep Hstatus Hfirst Hbefore.
  assert (clock w1 (ticks w1)
          < Order.price_expiration_for_unconfirmed order1
          ∧ (Order.price_expiration_for_unconfirmed order <= clock w (ticks w) →
             Order.price_expiration_for_unconfirmed order1
             = clock w (S (ticks w)) + ORDER_PRICES_TTL)) as [Hlt Hset].
  { destruct (clock w (ticks w)
              <? Order.price_expiration_for_unconfirmed order) eqn:Hgate.
    - apply Z.ltb_lt in Hgate.
      rewrite fetch_fresh in Hfirst by done.
      injection Hfirst as <- _ _. split; [done|lia].
    - apply Z.ltb_ge in Hgate.
      rewrite (fetch_stale order manager lines false w) in Hfirst
        by (split; [done|by right]).
      apply fetch_stale_Ok in Hfirst
        as (o1 & l1 & wa & tax_data & o2 & l2 & l3 & wb
            & Hengine & _ & Hoverlay & Hdisc & _ & _).
      apply engine_keeps_expiration in Hengine.
      apply reconciliation_keeps_expiration in Hdisc; [|done].
      assert (Order.price_expiration_for_unconfirmed o2
              = Order.price_expiration_for_unconfirmed o1) as Ho2.
      { destruct tax_data as [td|].
        - by apply overlay_keeps_expiration in Hoverlay.
        - by destruct Hoverlay as [-> _]. }
      assert (Order.price_expiration_for_unconfirmed order1
              = clock w (S (ticks w)) + ORDER_PRICES_TTL) as Hexp.
      { rewrite Hdisc, Ho2, Hengine. done. }
      split; [by rewrite Hexp|done]. }
  split; [done|].
  destruct (decide (Order.status order1 ∈ ORDER_EDITABLE_STATUS)) as [Hin|Hout].
  - exists (tick w1). by rewrite fetch_fresh.
  - exists w1. by rewrite fetch_not_editable.
Qed.

(** ** The first pass of the reconciliation *)

(** C6. On lines whose unit discount is in the currency of their unit
    price, the first pass of the reconciliation returns; for every line
    it has set the undiscounted unit price to the unit price plus the unit
    discount (on net and on gross), and the undiscounted total price to
    that undiscounted unit price times the quantity when the unit
    discount is not zero, to the total price of the line otherwise; the
    other attributes of the line are as they were. In particular a line
    with unit price 8.00, unit discount 2.00 and quantity 3 gets the
    undiscounted unit price 10.00 and the undiscounted total price
    30.00. *)
Theorem first_pass_rebuilds_undiscounted_prices lines w :
  (∀ line, line ∈ lines →
     Money.currency (OrderLine.unit_discount line)
     = Money.currency (TaxedMoney.net (OrderLine.unit_price line))
     ∧ Money.currency (OrderLine.unit_discount line)
       = Money.currency (TaxedMoney.gross (OrderLine.unit_price line))) →
  (∃ lines',
     _recalculate_order_discounts_lines lines w = (Ok lines', w)
     ∧ Forall2
         (fun line line' =>
            TaxedMoney.add_money (OrderLine.unit_price line)
              (OrderLine.unit_discount line)
            = Ok (OrderLine.undiscounted_unit_price line')
            ∧ OrderLine.undiscounted_unit_price line'
              = TaxedMoney.mk
                  (Money.mk
                     (Decimal.add
                        (Money.amount
                           (TaxedMoney.net (OrderLine.unit_price line)))
                        (Money.amount (OrderLine.unit_discount line)))
                     (Money.currency
                        (TaxedMoney.net (OrderLine.unit_price line))))
                  (Money.mk
                     (Decimal.add
                        (Money.amount
                           (TaxedMoney.gross (OrderLine.unit_price line)))
                        (Money.amount (OrderLine.unit_discount line)))
                     (Money.currency
                        (TaxedMoney.gross (OrderLine.unit_price line))))
            ∧ OrderLine.undiscounted_total_price line'
              = (if Decimal.coefficient
                      (Money.amount (OrderLine.unit_discount line)) =? 0
                 then OrderLine.total_price line
                 else TaxedMoney.mul (OrderLine.undiscounted_unit_price line')
                        (OrderLine.quantity line))
            ∧ OrderLine.pk line' = OrderLine.pk line
            ∧ OrderLine.variant line' = OrderLine.variant line
            ∧ OrderLine.quantity line' = OrderLine.quantity line
            ∧ OrderLine.unit_discount line' = OrderLine.unit_discount line
            ∧ OrderLine.unit_price line' = OrderLine.unit_price line
            ∧ OrderLine.total_price line' = OrderLine.total_price line
            ∧ OrderLine.tax_rate line' = OrderLine.tax_rate line)
         lines lines')
  ∧ (OrderLine.unit_price sample_line_to_rebuild = usd_taxed 800 800
     ∧ OrderLine.unit_discount sample_line_to_rebuild = usd 200
     ∧ OrderLine.quantity sample_line_to_rebuild = 3
     ∧ ∃ line',
         _recalculate_order_discounts_lines [sample_line_to_rebuild] w
         = (Ok [line'], w)
         ∧ OrderLine.undiscounted_unit_price line' = usd_taxed 1000 1000
         ∧ OrderLine.undiscounted_total_price line' = usd_taxed 3000 3000).
Proof.
  intros Hcur. split.
  - induction lines as [|line rest IH].
    + exists []. split; [done|constructor].
    + destruct IH as (rest' & Hrest & Hall).
      { intros l Hl. apply Hcur. by right. }
      destruct (Hcur line) as [Hn Hg]; [by left|].
      assert (TaxedMoney.add_money (OrderLine.unit_price line)
                (OrderLine.unit_discount line)
              = Ok (TaxedMoney.mk
                      (Money.mk
                         (Decimal.add
                            (Money.amount
                               (TaxedMoney.net (OrderLine.unit_price line)))
                            (Money.amount (OrderLine.unit_discount line)))
                         (Money.currency
                            (TaxedMoney.net (OrderLine.unit_price line))))
                      (Money.mk
                         (Decimal.add
                            (Money.amount
                               (TaxedMoney.gross (OrderLine.unit_price line)))
                            (Money.amount (OrderLine.unit_discount line)))
                         (Money.currency
                            (TaxedMoney.gross (OrderLine.unit_price line))))))
        as Hadd.
      { unfold TaxedMoney.add_money, Money.add.
        rewrite !decide_True by done. done. }
      eexists. split.
      * simpl. unfold _recalculate_order_discounts_line. rewrite Hadd.
        erewrite bind_Ok by reflexivity.
        erewrite bind_Ok by exact Hrest. reflexivity.
      * constructor; [|done]. simpl. split; [done|]. split; [done|].
        split; [|done]. unfold Money.to_bool, Decimal.to_bool.
        by destruct (Decimal.coefficient _ =? 0).
  - repeat split. eexists. repeat split.
Qed.

(** ** Quantized accessors *)

(** [Decimal.quantize] yields the requested exponent; it is exact when
    the value has no digit beyond it and otherwise within half a unit of
    the last place kept. *)
Lemma decimal_quantize_spec a places :
  let q := Decimal.quantize a places in
  Decimal.exponent q = - places
  ∧ (- places <= Decimal.exponent a →
     Decimal.coefficient q
     = Decimal.coefficient a * 10 ^ (Decimal.exponent a + places))
  ∧ (Decimal.exponent a < - places →
     2 * Z.abs (Decimal.coefficient q * 10 ^ (- places - Decimal.exponent a)
                - Decimal.coefficient a)
     <= 10 ^ (- places - Decimal.exponent a)).
Proof.
  unfold Decimal.quantize. simpl.
  destruct (- places <=? Decimal.exponent a) eqn:Hcmp; simpl.
  - apply Z.leb_le in Hcmp. split; [done|]. split; [|lia].
    intros _. f_equal. f_equal. lia.
  - apply Z.leb_gt in Hcmp. split; [done|]. split; [lia|]. intros _.
    set (p := 10 ^ (- places - Decimal.exponent a)).
    set (c := Decimal.coefficient a).
    assert (0 < p) as Hp by (apply Z.pow_pos_nonneg; lia).
    pose proof (Z.div_mod (Z.abs c) p ltac:(lia)) as Hdm.
    pose proof (Z.mod_pos_bound (Z.abs c) p Hp) as Hr.
    destruct (p <=? 2 * (Z.abs c mod p)) eqn:Hround.
    + apply Z.leb_le in Hround.
      destruct (Z.sgn_spec c) as [[? ->]|[[? ->]|[? ->]]]; nia.
    + apply Z.leb_gt in Hround.
      destruct (Z.sgn_spec c) as [[? ->]|[[? ->]|[? ->]]]; nia.
Qed.

(** C9. Whenever the orchestrator returns, [order_total] returns the
    total of the order it returned, quantized to the number of decimal
    places of the currency of the order: net and gross amounts have that
    many places, are the stored amounts when these have no further digit,
    and are otherwise within half a unit of the last place of them. For
    instance 19.995 becomes 20.00 in a currency with two decimal
    places. *)
Theorem order_total_is_quantized
    order manager lines force_update w order' lines' w' :
  fetch_order_prices_if_expired order manager lines force_update w
  = (Ok (order', lines'), w') →
  let places := get_currency_precision (Order.currency order) in
  let result := quantize_price (Order.total order') (Order.currency order) in
  order_total order manager lines force_update w = (Ok result, w')
  ∧ Money.amount (TaxedMoney.net result)
    = Decimal.quantize
        (Money.amount (TaxedMoney.net (Order.total order'))) places
  ∧ Money.amount (TaxedMoney.gross result)
    = Decimal.quantize
        (Money.amount (TaxedMoney.gross (Order.total order'))) places
  ∧ Decimal.exponent (Money.amount (TaxedMoney.net result)) = - places
  ∧ Decimal.exponent (Money.amount (TaxedMoney.gross result)) = - places
  ∧ (∀ a,
       let q := Decimal.quantize a places in
       Decimal.exponent q = - places
       ∧ (- places <= Decimal.exponent a →
          Decimal.coefficient q
          = Decimal.coefficient a * 10 ^ (Decimal.exponent a + places))
       ∧ (Decimal.exponent a < - places →
          2 * Z.abs (Decimal.coefficient q
                     * 10 ^ (- places - Decimal.exponent a)
                     - Decimal.coefficient a)
          <= 10 ^ (- places - Decimal.exponent a)))
  ∧ Decimal.quantize (Decimal.mk 19995 (-3)) 2 = Decimal.mk 2000 (-2).
Proof.
  intros Hfetch places result. split.
  { unfold order_total. erewrite bind_Ok by exact Hfetch. reflexivity. }
  split; [done|]. split; [done|].
  split; [apply decimal_quantize_spec|].
  split; [apply decimal_quantize_spec|].
  split; [intros a; apply decimal_quantize_spec|].
  reflexivity.
Qed.

(** ** The line lookup of the accessors *)

(** X1. The line the accessors read has the key of the line asked for:
    it is the first of the given lines with that key, and the line asked
    for itself when no lines are given or none has the key. *)
Theorem find_order_line_by_key lines order_line :
  OrderLine.pk (_find_order_line lines order_line) = OrderLine.pk order_line
  ∧ _find_order_line None order_line = order_line
  ∧ (∀ ls,
       lines = Some ls →
       (∀ line, line ∈ ls → OrderLine.pk line ≠ OrderLine.pk order_line) →
       _find_order_line lines order_line = order_line)
  ∧ (∀ before line after,
       lines = Some (before ++ line :: after) →
       OrderLine.pk line = OrderLine.pk order_line →
       (∀ l, l ∈ before → OrderLine.pk l ≠ OrderLine.pk order_line) →
       _find_order_line lines order_line = line).
Proof.
  assert (∀ ls,
            match List.find
                    (fun line =>
                       bool_decide (OrderLine.pk line = OrderLine.pk order_line))
                    ls with
            | Some line =>
                OrderLine.pk line = OrderLine.pk order_line
                ∧ ∃ before after,
                    ls = before ++ line :: after
                    ∧ ∀ l, l ∈ before →
                        OrderLine.pk l ≠ OrderLine.pk order_line
            | None =>
                ∀ line, line ∈ ls → OrderLine.pk line ≠ OrderLine.pk order_line
            end) as Hfind.
  { induction ls as [|l ls IH]; simpl.
    - intros line Hin. by apply elem_of_nil in Hin.
    - destruct (bool_decide (OrderLine.pk l = OrderLine.pk order_line)) eqn:Hl.
      + apply bool_decide_eq_true in Hl. split; [done|].
        exists [], ls. split; [done|]. intros l0 Hin.
        by apply elem_of_nil in Hin.
      + apply bool_decide_eq_false in Hl.
        destruct (List.find _ ls) as [line|].
        * destruct IH as (Hpk & before & after & -> & Hbefore).
          split; [done|]. exists (l :: before), after. split; [done|].
          intros l0 Hin. apply elem_of_cons in Hin as [->|Hin]; [done|].
          by apply Hbefore.
        * intros line Hin. apply elem_of_cons in Hin as [->|Hin]; [done|].
          by apply IH. }
  split; [|split; [done|split]].
  - unfold _find_order_line. destruct lines as [ls|]; simpl; [|done].
    specialize (Hfind ls). destruct (List.find _ ls); [by destruct Hfind|done].
  - intros ls -> Hnone. unfold _find_order_line.
    specialize (Hfind ls). destruct (List.find _ ls) as [line|]; [|done].
    destruct Hfind as (Hpk & before & after & -> & _).
    exfalso. apply (Hnone line); [|done].
    apply elem_of_app. right. by left.
  - intros before line after -> Hpk Hbefore. unfold _find_order_line.
    specialize (Hfind (before ++ line :: after)).
    destruct (List.find _ (before ++ line :: after)) as [found|].
    + destruct Hfind as (Hfpk & before' & after' & Heq & Hbefore').
      revert before' Heq Hbefore'.
      induction before as [|b before IH]; intros before' Heq Hbefore'.
      * destruct before' as [|b' before'].
        -- simpl in Heq. by injection Heq as <- _.
        -- simpl in Heq. injection Heq as <- _.
           exfalso. apply (Hbefore' line); [by left|done].
      * destruct before' as [|b' before'].
        -- simpl in Heq. injection Heq as -> _.
           exfalso. apply (Hbefore found); [by left|done].
        -- simpl in Heq. injection Heq as <- Heq.
           apply (IH (fun l Hl => Hbefore l (list_elem_of_further _ _ _ Hl))
                    before' Heq).
           intros l Hl. apply Hbefore'. by right.
    + exfalso. apply (Hfind line); [|done].
      apply elem_of_app. right. by left.
Qed.

(** ** The accessors on an order that is not recalculated *)

(** X2. On an order whose status is outside the editable set the seven
    accessors are plain reads: they return the stored values of the order,
    or of the line found by key among the lines given (the line asked for
    when there is none), prices quantized and tax rates as they are, and
    they leave the world as it was. *)
Theorem accessors_read_non_editable_order
    order order_line manager lines force_update w :
  Order.status order ∉ ORDER_EDITABLE_STATUS →
  let currency := Order.currency order in
  let line := _find_order_line lines order_line in
  order_line_unit order order_line manager lines force_update w
  = (Ok (OrderTaxedPricesData.mk
           (quantize_price (OrderLine.undiscounted_unit_price line) currency)
           (quantize_price (OrderLine.unit_price line) currency)), w)
  ∧ order_line_total order order_line manager lines force_update w
    = (Ok (OrderTaxedPricesData.mk
             (quantize_price (OrderLine.undiscounted_total_price line) currency)
             (quantize_price (OrderLine.total_price line) currency)), w)
  ∧ order_line_tax_rate order order_line manager lines force_update w
    = (Ok (OrderLine.tax_rate line), w)
  ∧ order_shipping order manager lines force_update w
    = (Ok (quantize_price (Order.shipping_price order) currency), w)
  ∧ order_shipping_tax_rate order manager lines force_update w
    = (Ok (Order.shipping_tax_rate order), w)
  ∧ order_total order manager lines force_update w
    = (Ok (quantize_price (Order.total order) currency), w)
  ∧ order_undiscounted_total order manager lines force_update w
    = (Ok (quantize_price (Order.undiscounted_total order) currency), w).
Proof.
  intros Hst currency line.
  pose proof (fetch_not_editable order manager lines force_update w Hst)
    as Hfetch.
  unfold order_line_unit, order_line_total, order_line_tax_rate,
    order_shipping, order_shipping_tax_rate, order_total,
    order_undiscounted_total.
  repeat split; erewrite bind_Ok by exact Hfetch; reflexivity.
Qed.

(** ** Failure and atomicity *)

(** X3. A call that raises has written no row, whatever raised and
    whenever: the Engine, the tax capability, the overlay, the
    reconciliation, or the discount capability after it had itself
    written rows inside the transaction. *)
Theorem failed_call_writes_no_row
    order manager lines force_update w e w' :
  fetch_order_prices_if_expired order manager lines force_update w
  = (Raise e, w') →
  db w' = db w.
Proof.
  unfold fetch_order_prices_if_expired.
  destruct (bool_decide (Order.status order ∈ ORDER_EDITABLE_STATUS));
    simpl; [|done].
  destruct force_update.
  - apply fetch_stale_Raise_keeps_db.
  - unfold mbind at 1. unfold M_bind, timezone_now.
    destruct (clock w (ticks w)
              <? Order.price_expiration_for_unconfirmed order); [done|].
    intros H. by apply fetch_stale_Raise_keeps_db in H.
Qed.

(** X4. The call to [get_taxes_for_order] is not guarded: when the Engine
    has returned and the tax capability raises, [TaxError] included, the
    exception leaves [fetch_order_prices_if_expired] and no row is
    written. *)
Theorem tax_capability_error_is_not_swallowed
    order manager lines force_update w order1 lines1 w1 e :
  is_stale order force_update w →
  _recalculate_order_prices manager
    (refreshed_order order (after_gate force_update w))
    (priced_lines lines w) (tick (after_gate force_update w))
  = (Ok (order1, lines1), w1) →
  PluginsManager.get_taxes_for_order manager order1 = Raise e →
  fetch_order_prices_if_expired order manager lines force_update w
  = (Raise e, logged Call_get_taxes_for_order w1)
  ∧ db (logged Call_get_taxes_for_order w1) = db w.
Proof.
  intros Hstale Hengine Htax.
  assert (fetch_order_prices_if_expired order manager lines force_update w
          = (Raise e, logged Call_get_taxes_for_order w1)) as Hfetch.
  { rewrite fetch_stale by done. rewrite fetch_stale_unfold.
    rewrite priced_lines_after_gate.
    erewrite bind_Ok by exact Hengine. simpl.
    apply bind_Raise. unfold call. by rewrite Htax. }
  split; [done|].
  pose proof (engine_only_logs manager
                (refreshed_order order (after_gate force_update w))
                (priced_lines lines w) (tick (after_gate force_update w)))
    as (Hdb & _ & _).
  rewrite Hengine in Hdb. simpl in Hdb. simpl. rewrite Hdb.
  apply db_after_gate.
Qed.

(** ** What a pass leaves alone *)

Lemma line_prices_frame manager order line w line' w' :
  _recalculate_order_prices_line manager order line w = (Ok line', w') →
  OrderLine.pk line' = OrderLine.pk line
  ∧ OrderLine.variant line' = OrderLine.variant line
  ∧ OrderLine.quantity line' = OrderLine.quantity line
  ∧ OrderLine.unit_discount line' = OrderLine.unit_discount line.
Proof.
  unfold _recalculate_order_prices_line.
  destruct (OrderLine.variant line) eqn:Hv; [|by intros [= <- _]].
  run_M. destruct_calls; by intros [= <- _].
Qed.

Lemma overlay_lines_frame
    order (tax_lines : gmap Z TaxLineData.t) lines w lines' w' :
  _apply_tax_data_lines order tax_lines lines w = (Ok lines', w') →
  Forall2
    (fun l l' =>
       OrderLine.pk l' = OrderLine.pk l
       ∧ OrderLine.variant l' = OrderLine.variant l
       ∧ OrderLine.quantity l' = OrderLine.quantity l
       ∧ OrderLine.unit_discount l' = OrderLine.unit_discount l)
    lines lines'.
Proof.
  revert lines' w'. induction lines as [|line rest IH]; intros lines' w'; simpl.
  - intros [= <- _]. constructor.
  - destruct (tax_lines !! OrderLine.pk line) as [tax_line|]; [|done].
    intros H. apply bind_inv_Ok in H as (rest' & w1 & Hrest & H).
    injection H as <- _. constructor; [done|by eapply IH].
Qed.

Lemma engine_lines_frame manager order lines w order' lines' w' :
  _recalculate_order_prices manager order lines w
  = (Ok (order', lines'), w') →
  Forall2
    (fun l l' =>
       OrderLine.pk l' = OrderLine.pk l
       ∧ OrderLine.variant l' = OrderLine.variant l
       ∧ OrderLine.quantity l' = OrderLine.quantity l
       ∧ OrderLine.unit_discount l' = OrderLine.unit_discount l)
    lines lines'.
Proof.
  intros H.
  apply engine_Ok in H as (? & order_s & total & Hall & _).
  eapply Forall2_impl; [exact Hall|]. intros l l' Hl. simpl in Hl.
  specialize (Hl w).
  destruct (_recalculate_order_prices_line manager order l w)
    as [r w1] eqn:E.
  simpl in Hl. subst r. by eapply line_prices_frame.
Qed.

(** X5. When the Engine returns, it returns as many lines as it was
    given, in the same order, each with the key, the variant, the quantity
    and the unit discount it had; and the order keeps its key, its status,
    its currency, its undiscounted total and its price expiration: the
    Engine writes prices and tax rates only. *)
Theorem engine_writes_prices_only manager order lines w order' lines' w' :
  _recalculate_order_prices manager order lines w
  = (Ok (order', lines'), w') →
  Forall2
    (fun l l' =>
       OrderLine.pk l' = OrderLine.pk l
       ∧ OrderLine.variant l' = OrderLine.variant l
       ∧ OrderLine.quantity l' = OrderLine.quantity l
       ∧ OrderLine.unit_discount l' = OrderLine.unit_discount l)
    lines lines'
  ∧ Order.pk order' = Order.pk order
  ∧ Order.status order' = Order.status order
  ∧ Order.currency order' = Order.currency order
  ∧ Order.undiscounted_total order' = Order.undiscounted_total order
  ∧ Order.price_expiration_for_unconfirmed order'
    = Order.price_expiration_for_unconfirmed order.
Proof.
  intros H.
  apply engine_Ok in H as (? & order_s & total & Hall & _ & Hs & _ & ->).
  split.
  - eapply Forall2_impl; [exact Hall|]. intros l l' Hl. simpl in Hl.
    specialize (Hl w).
    destruct (_recalculate_order_prices_line manager order l w)
      as [r w1] eqn:E.
    simpl in Hl. subst r. by eapply line_prices_frame.
  - specialize (Hs w).
    destruct (_recalculate_order_prices_shipping manager order w)
      as [r ws] eqn:Es.
    simpl in Hs. subst r. simpl.
    apply shipping_prices_frame in Es as (? & ? & ? & _ & ? & ?). done.
Qed.

Lemma Forall2_frame_trans (l1 l2 l3 : list OrderLine.t) :
  Forall2
    (fun l l' =>
       OrderLine.pk l' = OrderLine.pk l
       ∧ OrderLine.variant l' = OrderLine.variant l
       ∧ OrderLine.quantity l' = OrderLine.quantity l
       ∧ OrderLine.unit_discount l' = OrderLine.unit_discount l) l1 l2 →
  Forall2
    (fun l l' =>
       OrderLine.pk l' = OrderLine.pk l
       ∧ OrderLine.variant l' = OrderLine.variant l
       ∧ OrderLine.quantity l' = OrderLine.quantity l
       ∧ OrderLine.unit_discount l' = OrderLine.unit_discount l) l2 l3 →
  Forall2
    (fun l l' =>
       OrderLine.pk l' = OrderLine.pk l
       ∧ OrderLine.variant l' = OrderLine.variant l
       ∧ OrderLine.quantity l' = OrderLine.quantity l
       ∧ OrderLine.unit_discount l' = OrderLine.unit_discount l) l1 l3.
Proof.
  intros H12. revert l3. induction H12 as [|a b l1 l2 Hab _ IH]; intros l3 H23.
  - inversion H23. constructor.
  - inversion H23 as [|? c ? l3' Hbc H23']; subst.
    constructor; [|by apply IH].
    destruct Hab as (? & ? & ? & ?), Hbc as (? & ? & ? & ?).
    repeat split; congruence.
Qed.

(** The lines a stale pass returns are those it priced, each with the key,
    the variant, the quantity and the unit discount it had. *)
Lemma stale_pass_lines_frame order manager lines w order' lines' w' :
  fetch_order_prices_stale order manager lines w
  = (Ok (order', lines'), w') →
  ∃ lines3,
    lines' = Some lines3
    ∧ Forall2
        (fun l l' =>
           OrderLine.pk l' = OrderLine.pk l
           ∧ OrderLine.variant l' = OrderLine.variant l
           ∧ OrderLine.quantity l' = OrderLine.quantity l
           ∧ OrderLine.unit_discount l' = OrderLine.unit_discount l)
        (priced_lines lines w) lines3.
Proof.
  intros H.
  apply fetch_stale_Ok in H
    as (order1 & lines1 & w1 & tax_data & order2 & lines2 & lines3 & w3
        & Hengine & _ & Hoverlay & Hdisc & -> & _).
  exists lines3. split; [done|].
  apply engine_lines_frame in Hengine.
  eapply Forall2_frame_trans; [exact Hengine|].
  unfold _recalculate_order_discounts in Hdisc.
  apply bind_inv_Ok in Hdisc as (lines3' & wb & Hlines3 & Hdisc).
  apply discounts_lines_inv in Hlines3 as [-> Hall3].
  specialize (Hall3 _ eq_refl).
  apply bind_inv_Ok in Hdisc as (ds & wc & _ & Hdisc).
  apply bind_inv_Ok in Hdisc as (order3 & wd & _ & Hdisc).
  injection Hdisc as _ <- _.
  assert (Forall2
            (fun l l' =>
               OrderLine.pk l' = OrderLine.pk l
               ∧ OrderLine.variant l' = OrderLine.variant l
               ∧ OrderLine.quantity l' = OrderLine.quantity l
               ∧ OrderLine.unit_discount l' = OrderLine.unit_discount l)
            lines2 lines3') as H23.
  { eapply Forall2_impl; [exact Hall3|]. intros l l' Hl.
    by apply discounts_line_frame in Hl as (? & ? & ? & ? & _). }
  destruct tax_data as [td|].
  - unfold _apply_tax_data in Hoverlay.
    apply bind_inv_Ok in Hoverlay as (lines2' & wa & Hlines2 & Hoverlay).
    injection Hoverlay as _ <-.
    apply overlay_lines_frame in Hlines2.
    eapply Forall2_frame_trans; [exact Hlines2|exact H23].
  - destruct Hoverlay as [_ ->]. exact H23.
Qed.

(** ** The gate, from both sides *)

(** X6. While the clock reads before the price expiration, an unforced
    call on an order of editable status returns the order and the lines as
    given; it reads the clock once, calls no capability and writes no
    row. *)
Theorem unexpired_prices_are_returned_as_given order manager lines w :
  Order.status order ∈ ORDER_EDITABLE_STATUS →
  clock w (ticks w) < Order.price_expiration_for_unconfirmed order →
  fetch_order_prices_if_expired order manager lines false w
  = (Ok (order, lines), tick w)
  ∧ calls (tick w) = calls w
  ∧ db (tick w) = db w.
Proof.
  intros Hst Hnow. split; [|done].
  unfold fetch_order_prices_if_expired.
  rewrite bool_decide_eq_true_2 by exact Hst. simpl.
  unfold mbind, M_bind, timezone_now.
  apply Z.ltb_lt in Hnow. rewrite Hnow. reflexivity.
Qed.

Lemma stale_pass_sets_expiration order manager lines w order' lines' w' :
  discount_keeps_expiration →
  fetch_order_prices_stale order manager lines w
  = (Ok (order', lines'), w') →
  Order.price_expiration_for_unconfirmed order'
  = clock w (ticks w) + ORDER_PRICES_TTL.
Proof.
  intros Hkeep H.
  apply fetch_stale_Ok in H
    as (o1 & l1 & wa & tax_data & o2 & l2 & l3 & wb
        & Hengine & _ & Hoverlay & Hdisc & _ & _).
  apply engine_keeps_expiration in Hengine.
  apply reconciliation_keeps_expiration in Hdisc; [|done].
  rewrite Hdisc.
  destruct tax_data as [td|].
  - apply overlay_keeps_expiration in Hoverlay. by rewrite Hoverlay, Hengine.
  - destruct Hoverlay as [-> _]. by rewrite Hengine.
Qed.

(** X7. A forced call on an order of editable status recalculates
    whatever the price expiration is, without reading the clock at the
    gate. When it returns, it has run the whole pass from the world it was
    called in: the Engine on the lines priced (those given, else the rows
    of the order) and on the order with the expiration moved to the first
    clock reading plus the TTL, then the tax capability on the order the
    Engine returned, the overlay when there is tax data, and the
    reconciliation, whose order and lines are the ones returned and
    saved. The order row then holds the total, the shipping price and the
    shipping tax rate of the order returned and the new expiration, and
    the lines returned have the key, variant, quantity and unit discount
    of the lines priced. The discount capability is taken to leave the
    expiration alone. *)
Theorem forced_update_recalculates
    order manager lines w order' lines' w' :
  discount_keeps_expiration →
  Order.status order ∈ ORDER_EDITABLE_STATUS →
  fetch_order_prices_if_expired order manager lines true w
  = (Ok (order', lines'), w') →
  Order.price_expiration_for_unconfirmed order'
  = clock w (ticks w) + ORDER_PRICES_TTL
  ∧ (∃ lines3,
       lines' = Some lines3
       ∧ Forall2
           (fun l l' =>
              OrderLine.pk l' = OrderLine.pk l
              ∧ OrderLine.variant l' = OrderLine.variant l
              ∧ OrderLine.quantity l' = OrderLine.quantity l
              ∧ OrderLine.unit_discount l' = OrderLine.unit_discount l)
           (priced_lines lines w) lines3)
  ∧ (∃ order1 lines1 w1 tax_data order2 lines2 lines3 w3,
       _recalculate_order_prices manager
         (Order.with_price_expiration_for_unconfirmed
            (clock w (ticks w) + ORDER_PRICES_TTL) order)
         (priced_lines lines w) (tick w)
       = (Ok (order1, lines1), w1)
       ∧ PluginsManager.get_taxes_for_order manager order1 = Ok tax_data
       ∧ match tax_data with
         | Some tax_data =>
             _apply_tax_data order1 lines1 tax_data
               (logged Call_get_taxes_for_order w1)
             = (Ok (order2, lines2), logged Call_get_taxes_for_order w1)
         | None => order2 = order1 ∧ lines2 = lines1
         end
       ∧ _recalculate_order_discounts order2 lines2
           (logged Call_get_taxes_for_order w1)
         = (Ok (order', lines3), w3)
       ∧ lines' = Some lines3
       ∧ w' = (order_lines_bulk_update lines3 (order_save order' w3).2).2)
  ∧ Order.total (db_order (db w')) = Order.total order'
  ∧ Order.shipping_price (db_order (db w')) = Order.shipping_price order'
  ∧ Order.shipping_tax_rate (db_order (db w'))
    = Order.shipping_tax_rate order'
  ∧ Order.price_expiration_for_unconfirmed (db_order (db w'))
    = clock w (ticks w) + ORDER_PRICES_TTL.
Proof.
  intros Hkeep Hst H.
  rewrite (fetch_stale order manager lines true w) in H
    by (split; [done|by left]).
  simpl in H.
  assert (Order.price_expiration_for_unconfirmed order'
          = clock w (ticks w) + ORDER_PRICES_TTL) as Hexp
    by by eapply stale_pass_sets_expiration.
  split; [exact Hexp|]. split; [by eapply stale_pass_lines_frame|].
  apply fetch_stale_Ok in H
    as (order1 & lines1 & w1 & tax_data & order2 & lines2 & lines3 & w3
        & Hengine & Htd & Hoverlay & Hdisc & Hlines & Hw).
  split.
  { exists order1, lines1, w1, tax_data, order2, lines2, lines3, w3.
    repeat split; done. }
  rewrite Hw. unfold order_save, order_lines_bulk_update. simpl.
  repeat split; done.
Qed.

(** C5, as the code has it. On an order of editable status, without
    [force_update], the gate is strict: while the clock reads before the
    price expiration the call returns the order and the lines as given,
    calls no capability and writes no row (it reads the clock once); from
    the reading that equals the price expiration on, the call runs the
    stale branch. *)
Theorem editable_order_is_fresh_strictly_before_expiration
    order manager lines w :
  Order.status order ∈ ORDER_EDITABLE_STATUS →
  (clock w (ticks w) < Order.price_expiration_for_unconfirmed order →
   fetch_order_prices_if_expired order manager lines false w
   = (Ok (order, lines), tick w)
   ∧ calls (tick w) = calls w
   ∧ db (tick w) = db w)
  ∧ (Order.price_expiration_for_unconfirmed order <= clock w (ticks w) →
     fetch_order_prices_if_expired order manager lines false w
     = fetch_order_prices_stale order manager lines (tick w)).
Proof.
  intros Hst. split.
  - intros Hnow. split; [|done]. by apply fetch_fresh.
  - intros Hnow.
    rewrite (fetch_stale order manager lines false w)
      by (split; [done|by right]).
    reflexivity.
Qed.

(** ** More on the Engine *)

Lemma lines_prices_without_variant manager order lines subtotal w r w' :
  (∀ l, l ∈ lines → OrderLine.variant l = None) →
  _recalculate_order_prices_lines manager order lines subtotal w = (r, w') →
  w' = w ∧ ∀ lines' subtotal', r = Ok (lines', subtotal') → lines' = lines.
Proof.
  revert subtotal r w'.
  induction lines as [|line rest IH]; intros subtotal r w' Hnone.
  - simpl. intros [= <- <-]. split; [done|]. by intros ? ? [= <- _].
  - simpl. unfold _recalculate_order_prices_line.
    rewrite (Hnone line) by by left.
    intros H. apply bind_inv in H as [(l1 & w1 & Hl & H)|(e & H & _)];
      [|done].
    injection Hl as <- <-.
    apply bind_inv in H as [(s1 & w2 & Hadd & H)|(e & H & ->)].
    + unfold lift in Hadd. injection Hadd as _ <-.
      apply bind_inv in H as [([rest1 s2] & w3 & Hrest & H)|(e & H & ->)].
      * apply IH in Hrest as [-> Heq];
          [|intros l Hl; apply Hnone; by right].
        injection H as <- <-. split; [done|].
        intros ? ? [= <- _]. f_equal. by eapply Heq.
      * apply IH in H as [-> _]; [|intros l Hl; apply Hnone; by right].
        done.
    + unfold lift in H. by injection H as _ <-.
Qed.

(** X8. A line whose variant is missing is returned by the Engine
    exactly as it was given. When no line has a variant, the Engine
    returns the lines as given and calls nothing but the two shipping
    capabilities. *)
Theorem engine_skips_lines_without_variant
    manager order lines w order' lines' w' :
  _recalculate_order_prices manager order lines w
  = (Ok (order', lines'), w') →
  Forall2 (fun l l' => OrderLine.variant l = None → l' = l) lines lines'
  ∧ ((∀ l, l ∈ lines → OrderLine.variant l = None) →
     lines' = lines
     ∧ ∀ c, c ∈ calls w' →
         c ∈ calls w
         ∨ c = Call_calculate_order_shipping
         ∨ c = Call_get_order_shipping_tax_rate).
Proof.
  intros H. split.
  - apply engine_Ok in H as (? & ? & ? & Hall & _).
    eapply Forall2_impl; [exact Hall|]. intros l l' Hl Hnone.
    specialize (Hl w). unfold _recalculate_order_prices_line in Hl.
    rewrite Hnone in Hl. simpl in Hl. by injection Hl as <-.
  - intros Hnone. unfold _recalculate_order_prices in H.
    apply bind_inv_Ok in H as ([lines1 subtotal] & w1 & Hlines & H).
    apply lines_prices_without_variant in Hlines as [-> Heq]; [|done].
    specialize (Heq _ _ eq_refl). subst lines1.
    apply bind_inv_Ok in H as (order1 & w2 & Hship & H).
    apply bind_inv_Ok in H as (total & w3 & Hadd & H).
    unfold lift in Hadd. injection Hadd as _ <-.
    injection H as _ <- <-. split; [done|].
    revert Hship. unfold _recalculate_order_prices_shipping. run_M.
    destruct_calls; intros [= _ <-] c Hc; simpl in Hc;
      repeat (apply elem_of_cons in Hc as [->|Hc]); auto.
Qed.

(** X9. The shipping block swallows [TaxError] field by field as well.
    When the Engine returns: if [calculate_order_shipping] raised
    [TaxError], the order keeps the shipping price and shipping tax rate
    it had; if it returned and [get_order_shipping_tax_rate] raised
    [TaxError], the order has the new shipping price next to the tax rate
    it had; if both returned, it has both new values. In every case the
    total is that shipping price plus the subtotal of the lines. *)
Theorem shipping_tax_error_is_swallowed_per_field
    manager order lines w order' lines' w' :
  _recalculate_order_prices manager order lines w
  = (Ok (order', lines'), w') →
  (PluginsManager.calculate_order_shipping manager order = Raise TaxError →
   Order.shipping_price order' = Order.shipping_price order
   ∧ Order.shipping_tax_rate order' = Order.shipping_tax_rate order)
  ∧ (∀ shipping_price,
       PluginsManager.calculate_order_shipping manager order
       = Ok shipping_price →
       Order.shipping_price order' = shipping_price
       ∧ (PluginsManager.get_order_shipping_tax_rate manager
            (Order.with_shipping_price shipping_price order) shipping_price
          = Raise TaxError →
          Order.shipping_tax_rate order' = Order.shipping_tax_rate order)
       ∧ (∀ rate,
            PluginsManager.get_order_shipping_tax_rate manager
              (Order.with_shipping_price shipping_price order) shipping_price
            = Ok rate →
            Order.shipping_tax_rate order' = rate))
  ∧ ∃ subtotal,
      sum_total_price (zero_taxed_money (Order.currency order)) lines'
      = Ok subtotal
      ∧ TaxedMoney.add (Order.shipping_price order') subtotal
        = Ok (Order.total order').
Proof.
  intros H.
  apply engine_Ok in H
    as (subtotal & order_s & total & _ & Hsum & Hs & Hadd & ->).
  specialize (Hs w). revert Hs.
  unfold _recalculate_order_prices_shipping. run_M.
  destruct (PluginsManager.calculate_order_shipping manager order)
    as [sp|e] eqn:Hship.
  - simpl.
    destruct (PluginsManager.get_order_shipping_tax_rate manager
                (Order.with_shipping_price sp order) sp) as [r|e] eqn:Hrate.
    + simpl. intros [= <-]. split; [done|]. split; [|by exists subtotal].
      intros ? [= <-]. rewrite Hrate. split; [done|]. split; [done|].
      by intros ? [= <-].
    + destruct e; simpl; try done.
      intros [= <-]. split; [done|]. split; [|by exists subtotal].
      intros ? [= <-]. rewrite Hrate. split; [done|]. split; [done|].
      done.
  - destruct e; simpl; try done.
    intros [= <-]. split; [done|]. split; [done|]. by exists subtotal.
Qed.

Lemma sum_total_price_currencies start lines s :
  sum_total_price start lines = Ok s →
  Forall
    (fun l =>
       Money.currency (TaxedMoney.net (OrderLine.total_price l))
       = Money.currency (TaxedMoney.net start)
       ∧ Money.currency (TaxedMoney.gross (OrderLine.total_price l))
         = Money.currency (TaxedMoney.gross start))
    lines.
Proof.
  revert start. induction lines as [|l ls IH]; intros start; simpl.
  - constructor.
  - destruct (TaxedMoney.add start (OrderLine.total_price l)) as [s1|] eqn:Hadd;
      [|done].
    intros H. apply IH in H.
    unfold TaxedMoney.add, Money.add in Hadd.
    repeat case_decide; simplify_eq. simpl in H.
    constructor; done.
Qed.

(** X10. The Engine returns only when all the amounts it adds up are in
    the currency of the order: the total price of every line it returns,
    the shipping price and the total of the order it returns are in that
    currency, net and gross. *)
Theorem engine_amounts_are_in_order_currency
    manager order lines w order' lines' w' :
  _recalculate_order_prices manager order lines w
  = (Ok (order', lines'), w') →
  Forall
    (fun l =>
       Money.currency (TaxedMoney.net (OrderLine.total_price l))
       = Order.currency order
       ∧ Money.currency (TaxedMoney.gross (OrderLine.total_price l))
         = Order.currency order)
    lines'
  ∧ Money.currency (TaxedMoney.net (Order.shipping_price order'))
    = Order.currency order
  ∧ Money.currency (TaxedMoney.gross (Order.shipping_price order'))
    = Order.currency order
  ∧ Money.currency (TaxedMoney.net (Order.total order'))
    = Order.currency order
  ∧ Money.currency (TaxedMoney.gross (Order.total order'))
    = Order.currency order.
Proof.
  intros H.
  apply engine_Ok in H
    as (subtotal & order_s & total & _ & Hsum & _ & Hadd & ->).
  apply sum_total_price_currencies in Hsum as Hall.
  apply sum_total_price_currency in Hsum as [Hn Hg].
  simpl in Hn, Hg. simpl.
  unfold TaxedMoney.add, Money.add in Hadd.
  repeat case_decide; simplify_eq. simpl.
  split; [exact Hall|]. repeat split; congruence.
Qed.

Lemma line_prices_log manager order line w r w' :
  _recalculate_order_prices_line manager order line w = (r, w') →
  ∃ new,
    calls w' = new ++ calls w
    ∧ (length new ≤ 3)%nat
    ∧ Forall
        (fun c =>
           c = Call_calculate_order_line_unit (OrderLine.pk line)
           ∨ c = Call_calculate_order_line_total (OrderLine.pk line)
           ∨ c = Call_get_order_line_tax_rate (OrderLine.pk line))
        new.
Proof.
  unfold _recalculate_order_prices_line.
  destruct (OrderLine.variant line).
  - run_M. destruct_calls; intros [= _ <-]; simpl;
      match goal with
      | |- ∃ new, ?a :: ?b :: ?c :: calls _ = _ ∧ _ => exists [a; b; c]
      | |- ∃ new, ?a :: ?b :: calls _ = _ ∧ _ => exists [a; b]
      | |- ∃ new, ?a :: calls _ = _ ∧ _ => exists [a]
      end;
      (split; [reflexivity|]; split; [simpl; lia|];
       repeat first [apply Forall_nil_2 | apply Forall_cons_2; [auto|]]).
  - intros [= _ <-]. exists []. repeat split; [simpl; lia|constructor].
Qed.

Lemma lines_prices_log manager order lines subtotal w r w' :
  _recalculate_order_prices_lines manager order lines subtotal w = (r, w') →
  ∃ new,
    calls w' = new ++ calls w
    ∧ (length new ≤ 3 * length lines)%nat
    ∧ Forall
        (fun c =>
           ∃ l, l ∈ lines
                ∧ (c = Call_calculate_order_line_unit (OrderLine.pk l)
                   ∨ c = Call_calculate_order_line_total (OrderLine.pk l)
                   ∨ c = Call_get_order_line_tax_rate (OrderLine.pk l)))
        new.
Proof.
  revert subtotal w r w'.
  induction lines as [|line rest IH]; intros subtotal w r w'; simpl.
  - intros [= _ <-]. exists []. repeat split; [simpl; lia|constructor].
  - intros H.
    assert (∀ new1 w1,
              calls w1 = new1 ++ calls w →
              (length new1 ≤ 3)%nat →
              Forall
                (fun c =>
                   c = Call_calculate_order_line_unit (OrderLine.pk line)
                   ∨ c = Call_calculate_order_line_total (OrderLine.pk line)
                   ∨ c = Call_get_order_line_tax_rate (OrderLine.pk line))
                new1 →
              ∃ new,
                calls w1 = new ++ calls w
                ∧ (length new ≤ 3 * S (length rest))%nat
                ∧ Forall
                    (fun c =>
                       ∃ l, l ∈ line :: rest
                            ∧ (c = Call_calculate_order_line_unit
                                     (OrderLine.pk l)
                               ∨ c = Call_calculate_order_line_total
                                       (OrderLine.pk l)
                               ∨ c = Call_get_order_line_tax_rate
                                       (OrderLine.pk l)))
                    new) as Hhead.
    { intros new1 w1 Hc Hlen Hall. exists new1.
      split; [done|]. split; [lia|].
      eapply Forall_impl; [exact Hall|]. intros c Hc'. exists line.
      split; [by left|done]. }
    apply bind_inv in H as [(l1 & w1 & Hl & H)|(e & Hl & _)].
    2: { apply line_prices_log in Hl as (new1 & ? & ? & ?). by eapply Hhead. }
    apply line_prices_log in Hl as (new1 & Hc1 & Hlen1 & Hall1).
    apply bind_inv in H as [(s1 & w2 & Hadd & H)|(e & Hadd & _)].
    2: { unfold lift in Hadd. injection Hadd as _ <-. by eapply Hhead. }
    unfold lift in Hadd. injection Hadd as _ <-.
    assert (∃ r2, _recalculate_order_prices_lines manager order rest s1 w1
                  = (r2, w')) as [r2 Hrest].
    { apply bind_inv in H as [([? ?] & w3 & Hrest & H)|(e & Hrest & _)].
      - injection H as _ <-. by eexists.
      - by eexists. }
    apply IH in Hrest as (new2 & Hc2 & Hlen2 & Hall2).
    exists (new2 ++ new1). split; [|split].
    + rewrite Hc2, Hc1. by rewrite app_assoc.
    + rewrite length_app. lia.
    + apply Forall_app. split.
      * eapply Forall_impl; [exact Hall2|].
        intros c (l & Hin & Hc). exists l. split; [by right|done].
      * eapply Forall_impl; [exact Hall1|]. intros c Hc'. exists line.
        split; [by left|done].
Qed.

Lemma shipping_prices_log manager order w r w' :
  _recalculate_order_prices_shipping manager order w = (r, w') →
  ∃ new,
    calls w' = new ++ calls w
    ∧ (length new ≤ 2)%nat
    ∧ Forall
        (fun c =>
           c = Call_calculate_order_shipping
           ∨ c = Call_get_order_shipping_tax_rate)
        new.
Proof.
  unfold _recalculate_order_prices_shipping. run_M.
  destruct_calls; intros [= _ <-]; simpl;
    match goal with
    | |- ∃ new, ?a :: ?b :: calls _ = _ ∧ _ => exists [a; b]
    | |- ∃ new, ?a :: calls _ = _ ∧ _ => exists [a]
    end;
    (split; [reflexivity|]; split; [simpl; lia|];
     repeat first [apply Forall_nil_2 | apply Forall_cons_2; [auto|]]).
Qed.

(** X11. Whether it returns or raises, the Engine writes no row and does
    not read the clock; it only adds to the record of capability calls,
    at most three calls per line and two for shipping, each one a pricing
    call for one of the lines given or a shipping call. It never calls
    the tax-data or the discount capability. *)
Theorem engine_only_records_pricing_calls manager order lines w r w' :
  _recalculate_order_prices manager order lines w = (r, w') →
  db w' = db w ∧ clock w' = clock w ∧ ticks w' = ticks w
  ∧ ∃ new,
      calls w' = new ++ calls w
      ∧ (length new ≤ 3 * length lines + 2)%nat
      ∧ Forall
          (fun c =>
             (∃ l, l ∈ lines
                   ∧ (c = Call_calculate_order_line_unit (OrderLine.pk l)
                      ∨ c = Call_calculate_order_line_total (OrderLine.pk l)
                      ∨ c = Call_get_order_line_tax_rate (OrderLine.pk l)))
             ∨ c = Call_calculate_order_shipping
             ∨ c = Call_get_order_shipping_tax_rate)
          new.
Proof.
  intros H.
  pose proof (engine_only_logs manager order lines w) as (Hdb & Hclock & Hticks).
  rewrite H in Hdb, Hclock, Hticks. simpl in Hdb, Hclock, Hticks.
  split; [done|]. split; [done|]. split; [done|].
  unfold _recalculate_order_prices in H.
  apply bind_inv in H as [([lines1 subtotal] & w1 & Hlines & H)|(e & Hlines & _)].
  2: { apply lines_prices_log in Hlines as (new & ? & ? & Hall).
       exists new. split; [done|]. split; [lia|].
       eapply Forall_impl; [exact Hall|]. intros c Hc. by left. }
  apply lines_prices_log in Hlines as (new1 & Hc1 & Hlen1 & Hall1).
  assert (∃ r2, _recalculate_order_prices_shipping manager order w1
                = (r2, w')) as [r2 Hship].
  { apply bind_inv in H as [(order1 & w2 & Hship & H)|(e & Hship & _)].
    - apply bind_inv in H as [(total & w3 & Hadd & H)|(e & Hadd & _)].
      + unfold lift in Hadd. injection Hadd as _ <-.
        injection H as _ <-. by eexists.
      + unfold lift in Hadd. injection Hadd as _ <-. by eexists.
    - by eexists. }
  apply shipping_prices_log in Hship as (new2 & Hc2 & Hlen2 & Hall2).
  exists (new2 ++ new1). split; [|split].
  - rewrite Hc2, Hc1. by rewrite app_assoc.
  - rewrite length_app. lia.
  - apply Forall_app. split.
    + eapply Forall_impl; [exact Hall2|]. intros c Hc. by right.
    + eapply Forall_impl; [exact Hall1|]. intros c Hc. by left.
Qed.

(** ** More on the overlay *)

Lemma overlay_lines_first_missing
    order (tax_lines : gmap Z TaxLineData.t) before line after w :
  (∀ l, l ∈ before → is_Some (tax_lines !! OrderLine.pk l)) →
  tax_lines !! OrderLine.pk line = None →
  _apply_tax_data_lines order tax_lines (before ++ line :: after) w
  = (Raise (KeyError (OrderLine.pk line)), w).
Proof.
  intros Hbefore Hnone. induction before as [|b before IH]; simpl.
  - by rewrite Hnone.
  - destruct (Hbefore b) as [tl Htl]; [by left|]. rewrite Htl.
    apply bind_Raise. apply IH. intros l Hl. apply Hbefore. by right.
Qed.

(** X12. The overlay returns exactly when every line given has an entry
    in the tax data, extra entries being ignored; otherwise it raises the
    [KeyError] of the first line without entry, in the order of the lines.
    In both cases it leaves the world as it was: it calls no capability
    and writes no row. *)
Theorem overlay_returns_iff_every_line_has_an_entry
    order lines tax_data w :
  ((∀ line, line ∈ lines →
      is_Some (tax_lines_dict tax_data !! OrderLine.pk line))
   ↔ ∃ r, _apply_tax_data order lines tax_data w = (Ok r, w))
  ∧ (∀ before line after,
       lines = before ++ line :: after →
       (∀ l, l ∈ before →
          is_Some (tax_lines_dict tax_data !! OrderLine.pk l)) →
       tax_lines_dict tax_data !! OrderLine.pk line = None →
       _apply_tax_data order lines tax_data w
       = (Raise (KeyError (OrderLine.pk line)), w))
  ∧ (∀ r w', _apply_tax_data order lines tax_data w = (r, w') → w' = w).
Proof.
  split; [split|split].
  - intros Hall. unfold _apply_tax_data.
    edestruct overlay_lines_Ok as (lines' & Hlines & _); [exact Hall|].
    eexists. erewrite bind_Ok by exact Hlines. reflexivity.
  - intros [[order' lines'] Hrun] line Hin.
    destruct (tax_lines_dict tax_data !! OrderLine.pk line) eqn:Hl;
      [by eexists|].
    destruct (overlay_missing order lines tax_data w) as (l & _ & _ & Hraise).
    { by exists line. }
    rewrite Hraise in Hrun. discriminate.
  - intros before line after -> Hbefore Hnone. unfold _apply_tax_data.
    apply bind_Raise. by apply overlay_lines_first_missing.
  - intros r w'. apply overlay_keeps_world.
Qed.

Lemma tax_lines_fold_lookup_other
    (l : list TaxLineData.t) (d : gmap Z TaxLineData.t) k :
  (∀ t, t ∈ l → TaxLineData.id t ≠ k) →
  foldl (fun d line => <[TaxLineData.id line := line]> d) d l !! k = d !! k.
Proof.
  revert d. induction l as [|x l IH]; intros d Hne; simpl; [done|].
  rewrite IH by (intros t Ht; apply Hne; by right).
  apply lookup_insert_ne. apply Hne. by left.
Qed.

(** X13. The dictionary of tax lines keeps, for an identity that occurs
    several times in the tax data, the last entry: an entry that no later
    entry shares its identity with is the one looked up. An identity has
    no entry exactly when no tax line carries it. *)
Theorem tax_lines_dict_keeps_last_entry tax_data before tax_line after :
  TaxData.lines tax_data = before ++ tax_line :: after →
  (∀ t, t ∈ after → TaxLineData.id t ≠ TaxLineData.id tax_line) →
  tax_lines_dict tax_data !! TaxLineData.id tax_line = Some tax_line
  ∧ ∀ k,
      tax_lines_dict tax_data !! k = None
      ↔ ∀ t, t ∈ TaxData.lines tax_data → TaxLineData.id t ≠ k.
Proof.
  intros Hlines Hlast. split.
  - unfold tax_lines_dict. rewrite Hlines, foldl_app. simpl.
    rewrite tax_lines_fold_lookup_other by done.
    apply lookup_insert_eq.
  - intros k. split.
    + intros Hnone t Hin Hid.
      destruct (tax_lines_dict_is_Some tax_data t Hin) as [x Hx].
      rewrite Hid in Hx. congruence.
    + intros Habsent.
      destruct (tax_lines_dict tax_data !! k) as [t|] eqn:Hk; [|done].
      apply tax_lines_dict_lookup_Some in Hk as [Hin Hid].
      by apply Habsent in Hin.
Qed.

(** ** More on the reconciliation *)

Lemma discounts_line_idempotent line line' :
  _recalculate_order_discounts_line line = Ok line' →
  _recalculate_order_discounts_line line' = Ok line'.
Proof.
  unfold _recalculate_order_discounts_line.
  destruct (TaxedMoney.add_money (OrderLine.unit_price line)
              (OrderLine.unit_discount line)) as [u|] eqn:Hadd; [|done].
  intros [= <-]. simpl. rewrite Hadd. simpl.
  destruct line. simpl.
  by destruct (Money.to_bool unit_discount).
Qed.

(** X14. The first pass of the reconciliation is idempotent: run again
    on the lines it returned, it returns them unchanged. *)
Theorem first_pass_is_idempotent lines w lines' w' :
  _recalculate_order_discounts_lines lines w = (Ok lines', w') →
  _recalculate_order_discounts_lines lines' w' = (Ok lines', w').
Proof.
  intros H. apply discounts_lines_inv in H as [-> Hall].
  specialize (Hall _ eq_refl).
  induction Hall as [|l l' ls ls' Hl _ IH]; simpl; [done|].
  apply discounts_line_idempotent in Hl.
  erewrite bind_Ok; [|unfold lift; rewrite Hl; reflexivity].
  erewrite bind_Ok by exact IH. reflexivity.
Qed.

(** X15. Only discount rows of the manual type reach the discount
    capability: when the order has none (it may have voucher rows), the
    reconciliation returns the order object as it was given and leaves
    the world as it was, whether it returns or raises. *)
Theorem reconciliation_without_manual_discount order lines w r w' :
  filter (fun d => OrderDiscount.type d = MANUAL) (db_discounts (db w)) = [] →
  _recalculate_order_discounts order lines w = (r, w') →
  w' = w
  ∧ ∀ order' lines',
      r = Ok (order', lines') →
      order' = order
      ∧ _recalculate_order_discounts_lines lines w = (Ok lines', w).
Proof.
  intros Hnone. unfold _recalculate_order_discounts. intros H.
  apply bind_inv in H as [(lines1 & w1 & Hlines & H)|(e & Hlines & ->)].
  - apply discounts_lines_inv in Hlines as Hinv. destruct Hinv as [-> _].
    unfold mbind in H at 1. unfold M_bind, order_discounts_filter in H.
    rewrite Hnone in H. simpl in H. injection H as <- <-.
    split; [done|]. by intros ? ? [= <- <-].
  - apply discounts_lines_inv in Hlines as [-> _]. done.
Qed.

(** ** What a pass commits *)

Lemma fetch_gate_cases order manager lines force_update w :
  fetch_order_prices_if_expired order manager lines force_update w
  = (Ok (order, lines), w)
  ∨ fetch_order_prices_if_expired order manager lines force_update w
    = (Ok (order, lines), tick w)
  ∨ (is_stale order force_update w
     ∧ fetch_order_prices_if_expired order manager lines force_update w
       = fetch_order_prices_stale order manager lines
           (after_gate force_update w)).
Proof.
  destruct (decide (Order.status order ∈ ORDER_EDITABLE_STATUS)) as [Hin|Hout].
  - destruct force_update.
    + right. right. assert (is_stale order true w) as Hs by (split; [done|by left]).
      split; [done|]. by apply fetch_stale.
    + destruct (decide (clock w (ticks w)
                        < Order.price_expiration_for_unconfirmed order))
        as [Hlt|Hge].
      * right. left. by apply fetch_fresh.
      * right. right.
        assert (is_stale order false w) as Hs by (split; [done|right; lia]).
        split; [done|]. by apply fetch_stale.
  - left. by apply fetch_not_editable.
Qed.

Lemma overlay_order_frame order lines tax_data w order' lines' w' :
  _apply_tax_data order lines tax_data w = (Ok (order', lines'), w') →
  Order.pk order' = Order.pk order
  ∧ Order.status order' = Order.status order
  ∧ Order.currency order' = Order.currency order
  ∧ Order.undiscounted_total order' = Order.undiscounted_total order
  ∧ Order.price_expiration_for_unconfirmed order'
    = Order.price_expiration_for_unconfirmed order.
Proof.
  unfold _apply_tax_data. intros H.
  apply bind_inv_Ok in H as (lines1 & w1 & _ & H). by injection H as <- _ _.
Qed.

(** The steps of a stale pass that returns when the order has no manual
    discount row: the discount capability is not reached and the rows are
    those of the start until the final save. *)
Lemma stale_pass_without_manual_discount
    order manager lines w order' lines' w' :
  filter (fun d => OrderDiscount.type d = MANUAL) (db_discounts (db w)) = [] →
  fetch_order_prices_stale order manager lines w
  = (Ok (order', lines'), w') →
  ∃ order1 lines1 w1 tax_data lines2 lines3,
    _recalculate_order_prices manager (refreshed_order order w)
      (priced_lines lines w) (tick w) = (Ok (order1, lines1), w1)
    ∧ db w1 = db w
    ∧ PluginsManager.get_taxes_for_order manager order1 = Ok tax_data
    ∧ match tax_data with
      | Some tax_data =>
          _apply_tax_data order1 lines1 tax_data
            (logged Call_get_taxes_for_order w1)
          = (Ok (order', lines2), logged Call_get_taxes_for_order w1)
      | None => order' = order1 ∧ lines2 = lines1
      end
    ∧ Forall2
        (fun line line' => _recalculate_order_discounts_line line = Ok line')
        lines2 lines3
    ∧ lines' = Some lines3
    ∧ w' = (order_lines_bulk_update lines3
              (order_save order' (logged Call_get_taxes_for_order w1)).2).2.
Proof.
  intros Hnone H.
  apply fetch_stale_Ok in H
    as (order1 & lines1 & w1 & tax_data & order2 & lines2 & lines3 & w3
        & Hengine & Htd & Hoverlay & Hdisc & -> & ->).
  pose proof (engine_only_logs manager (refreshed_order order w)
                (priced_lines lines w) (tick w)) as (Hdb1 & _ & _).
  rewrite Hengine in Hdb1. simpl in Hdb1.
  unfold _recalculate_order_discounts in Hdisc.
  apply bind_inv_Ok in Hdisc as (lines3' & w2 & Hlines & Hdisc).
  apply discounts_lines_inv in Hlines as [-> Hall].
  specialize (Hall _ eq_refl).
  apply bind_inv_Ok in Hdisc as (discounts & w2 & Hfilter & Hdisc).
  unfold order_discounts_filter in Hfilter. simpl in Hfilter.
  rewrite Hdb1, Hnone in Hfilter. injection Hfilter as <- <-.
  simpl in Hdisc. injection Hdisc as <- <- <-.
  exists order1, lines1, w1, tax_data, lines2, lines3'.
  repeat split; done.
Qed.

(** X16. The pipeline never recomputes the undiscounted total of the
    order itself: when the order has no manual discount row, a call that
    returns, stale or not, returns the order with the undiscounted total
    it was given, so [order_undiscounted_total] returns the quantized
    undiscounted total the order had before the call, even when the total
    was recalculated. *)
Theorem undiscounted_total_is_never_recomputed
    order manager lines force_update w order' lines' w' :
  filter (fun d => OrderDiscount.type d = MANUAL) (db_discounts (db w)) = [] →
  fetch_order_prices_if_expired order manager lines force_update w
  = (Ok (order', lines'), w') →
  Order.undiscounted_total order' = Order.undiscounted_total order
  ∧ order_undiscounted_total order manager lines force_update w
    = (Ok (quantize_price (Order.undiscounted_total order)
             (Order.currency order)), w').
Proof.
  intros Hnone Hfetch.
  assert (Order.undiscounted_total order' = Order.undiscounted_total order)
    as Hsame.
  { destruct (fetch_gate_cases order manager lines force_update w)
      as [H|[H|[Hstale H]]].
    - rewrite H in Hfetch. by injection Hfetch as <- _ _.
    - rewrite H in Hfetch. by injection Hfetch as <- _ _.
    - rewrite H in Hfetch.
      apply stale_pass_without_manual_discount in Hfetch
        as (order1 & lines1 & w1 & tax_data & lines2 & lines3
            & Hengine & _ & _ & Hoverlay & _);
        [|by rewrite db_after_gate].
      apply engine_Ok in Hengine as (? & order_s & total & _ & _ & Hs & _ & ->).
      specialize (Hs w).
      destruct (_recalculate_order_prices_shipping manager
                  (refreshed_order order (after_gate force_update w)) w)
        as [r ws] eqn:Es.
      simpl in Hs. subst r.
      apply shipping_prices_frame in Es as (_ & _ & _ & _ & Hu & _).
      simpl in Hu.
      destruct tax_data as [td|].
      + apply overlay_order_frame in Hoverlay as (_ & _ & _ & -> & _).
        simpl. done.
      + destruct Hoverlay as [-> _]. simpl. done. }
  split; [done|].
  unfold order_undiscounted_total.
  erewrite bind_Ok by exact Hfetch. simpl. by rewrite Hsame.
Qed.

(** X17. Every line a stale pass returns has its undiscounted prices
    rebuilt from its own unit price, unit discount and quantity: the
    undiscounted unit price is the unit price plus the unit discount, and
    the undiscounted total price is that times the quantity when the unit
    discount is not zero, the total price of the line otherwise. The
    undiscounted prices returned by the manager do not survive the
    pass. *)
Theorem returned_lines_have_rebuilt_undiscounted_prices
    order manager lines force_update w order' lines' w' :
  is_stale order force_update w →
  fetch_order_prices_if_expired order manager lines force_update w
  = (Ok (order', lines'), w') →
  ∃ lines3,
    lines' = Some lines3
    ∧ Forall
        (fun l =>
           TaxedMoney.add_money (OrderLine.unit_price l)
             (OrderLine.unit_discount l)
           = Ok (OrderLine.undiscounted_unit_price l)
           ∧ OrderLine.undiscounted_total_price l
             = (if Decimal.coefficient
                     (Money.amount (OrderLine.unit_discount l)) =? 0
                then OrderLine.total_price l
                else TaxedMoney.mul (OrderLine.undiscounted_unit_price l)
                       (OrderLine.quantity l)))
        lines3.
Proof.
  intros Hstale H. rewrite fetch_stale in H by done.
  apply fetch_stale_Ok in H
    as (order1 & lines1 & w1 & tax_data & order2 & lines2 & lines3 & w3
        & _ & _ & _ & Hdisc & -> & _).
  exists lines3. split; [done|].
  unfold _recalculate_order_discounts in Hdisc.
  apply bind_inv_Ok in Hdisc as (lines3' & wb & Hlines3 & Hdisc).
  apply discounts_lines_inv in Hlines3 as [-> Hall3].
  specialize (Hall3 _ eq_refl).
  apply bind_inv_Ok in Hdisc as (ds & wc & _ & Hdisc).
  apply bind_inv_Ok in Hdisc as (order3 & wd & _ & Hdisc).
  injection Hdisc as _ <- _.
  induction Hall3 as [|l l' ls ls' Hl _ IH]; constructor; [|done].
  unfold _recalculate_order_discounts_line in Hl.
  destruct (TaxedMoney.add_money (OrderLine.unit_price l)
              (OrderLine.unit_discount l)) as [u|] eqn:Hadd; [|done].
  injection Hl as <-. simpl. split; [done|].
  unfold Money.to_bool, Decimal.to_bool.
  by destruct (Decimal.coefficient _ =? 0).
Qed.

Lemma bulk_update_row_frame lines row :
  OrderLine.pk (bulk_update_row lines row) = OrderLine.pk row
  ∧ OrderLine.variant (bulk_update_row lines row) = OrderLine.variant row
  ∧ OrderLine.quantity (bulk_update_row lines row) = OrderLine.quantity row
  ∧ OrderLine.unit_discount (bulk_update_row lines row)
    = OrderLine.unit_discount row
  ∧ ((∀ l, l ∈ lines → OrderLine.pk l ≠ OrderLine.pk row) →
     bulk_update_row lines row = row).
Proof.
  unfold bulk_update_row.
  destruct (List.find _ lines) as [l|] eqn:Hfind; [|done].
  repeat split. intros Hnone.
  apply List.find_some in Hfind as [Hin Hpk].
  apply bool_decide_eq_true in Hpk.
  exfalso. apply (Hnone l); [|done]. by apply list_elem_of_In.
Qed.

(** X18. What a stale pass commits, when the order has no manual
    discount row. The order row gets the total, undiscounted total,
    shipping price, shipping tax rate and price expiration of the order
    returned, and keeps its key, status and currency. No line row is
    added or removed; every line row keeps its key, variant, quantity and
    unit discount, and a row whose key none of the returned lines has is
    left untouched. The discount rows are left untouched. *)
Theorem stale_pass_commits_prices_only
    order manager lines force_update w order' lines' w' :
  is_stale order force_update w →
  filter (fun d => OrderDiscount.type d = MANUAL) (db_discounts (db w)) = [] →
  fetch_order_prices_if_expired order manager lines force_update w
  = (Ok (order', lines'), w') →
  ∃ lines3,
    lines' = Some lines3
    ∧ db_order (db w')
      = Order.mk (Order.pk (db_order (db w))) (Order.status (db_order (db w)))
          (Order.currency (db_order (db w)))
          (Order.total order') (Order.undiscounted_total order')
          (Order.shipping_price order') (Order.shipping_tax_rate order')
          (Order.price_expiration_for_unconfirmed order')
    ∧ Forall2
        (fun row row' =>
           OrderLine.pk row' = OrderLine.pk row
           ∧ OrderLine.variant row' = OrderLine.variant row
           ∧ OrderLine.quantity row' = OrderLine.quantity row
           ∧ OrderLine.unit_discount row' = OrderLine.unit_discount row
           ∧ ((∀ l, l ∈ lines3 → OrderLine.pk l ≠ OrderLine.pk row) →
              row' = row))
        (db_lines (db w)) (db_lines (db w'))
    ∧ db_discounts (db w') = db_discounts (db w).
Proof.
  intros Hstale Hnone H. rewrite fetch_stale in H by done.
  apply stale_pass_without_manual_discount in H
    as (order1 & lines1 & w1 & tax_data & lines2 & lines3
        & _ & Hdb & _ & _ & _ & -> & ->);
    [|by rewrite db_after_gate].
  rewrite db_after_gate in Hdb.
  exists lines3. split; [done|].
  unfold order_save, order_lines_bulk_update. simpl. rewrite Hdb.
  split; [done|]. split; [|done].
  apply Forall2_fmap_r, Forall_Forall2_diag, Forall_forall.
  intros row _. apply bulk_update_row_frame.
Qed.

Lemma find_by_unique_key (ls : list OrderLine.t) i line :
  NoDup (OrderLine.pk <$> ls) →
  ls !! i = Some line →
  List.find (fun l => bool_decide (OrderLine.pk l = OrderLine.pk line)) ls
  = Some line.
Proof.
  revert i. induction ls as [|h ls IH]; intros i Hnd Hi; [done|].
  simpl. rewrite fmap_cons in Hnd. apply NoDup_cons in Hnd as [Hh Hnd].
  destruct i as [|i]; simpl in Hi.
  - injection Hi as ->. by rewrite bool_decide_eq_true_2.
  - rewrite bool_decide_eq_false_2; [by eapply IH|].
    intros Heq. apply Hh. rewrite Heq.
    apply list_elem_of_fmap. exists line. split; [done|].
    by eapply list_elem_of_lookup_2.
Qed.

Lemma bulk_update_own_rows (rows ls : list OrderLine.t) :
  Forall2
    (fun l l' =>
       OrderLine.pk l' = OrderLine.pk l
       ∧ OrderLine.variant l' = OrderLine.variant l
       ∧ OrderLine.quantity l' = OrderLine.quantity l
       ∧ OrderLine.unit_discount l' = OrderLine.unit_discount l)
    rows ls →
  NoDup (OrderLine.pk <$> rows) →
  map (bulk_update_row ls) rows = ls.
Proof.
  intros Hframe Hnd.
  assert (OrderLine.pk <$> ls = OrderLine.pk <$> rows) as Hpks.
  { clear Hnd. induction Hframe as [|a b l1 l2 (Hpk & _) _ IH]; [done|].
    rewrite !fmap_cons. by rewrite Hpk, IH. }
  rewrite <- Hpks in Hnd.
  apply list_eq. intros i.
  change (map (bulk_update_row ls) rows) with (bulk_update_row ls <$> rows).
  rewrite list_lookup_fmap.
  destruct (rows !! i) as [row|] eqn:Hrow; simpl.
  - destruct (Forall2_lookup_l _ _ _ _ _ Hframe Hrow)
      as (l' & Hl' & Hpk & Hv & Hq & Hd).
    rewrite Hl'. f_equal. unfold bulk_update_row.
    rewrite <- Hpk. rewrite (find_by_unique_key ls i l') by done.
    rewrite <- Hv, <- Hq, <- Hd. by destruct l'.
  - symmetry. apply lookup_ge_None.
    apply lookup_ge_None in Hrow.
    apply Forall2_length in Hframe. lia.
Qed.

(** X19. Stored is returned. When no lines are given, the rows of the
    order have distinct keys and the order has no manual discount row,
    the line rows after a stale pass that returns are exactly the lines
    it returns. *)
Theorem stored_lines_are_the_returned_lines
    order manager force_update w order' lines' w' :
  is_stale order force_update w →
  filter (fun d => OrderDiscount.type d = MANUAL) (db_discounts (db w)) = [] →
  NoDup (OrderLine.pk <$> db_lines (db w)) →
  fetch_order_prices_if_expired order manager None force_update w
  = (Ok (order', lines'), w') →
  lines' = Some (db_lines (db w')).
Proof.
  intros Hstale Hnone Hnd H. rewrite fetch_stale in H by done.
  apply stale_pass_lines_frame in H as Hframe.
  destruct Hframe as (lines3 & -> & Hframe).
  apply stale_pass_without_manual_discount in H
    as (order1 & lines1 & w1 & tax_data & lines2 & lines3'
        & _ & Hdb & _ & _ & _ & Heq & ->);
    [|by rewrite db_after_gate].
  injection Heq as <-.
  rewrite db_after_gate in Hdb. simpl in Hframe.
  rewrite db_after_gate in Hframe.
  unfold order_save, order_lines_bulk_update. simpl. rewrite Hdb.
  f_equal. symmetry. by apply bulk_update_own_rows.
Qed.

(** X20. On a stale order the line accessors read the recalculated
    line, not the copy of the caller: when one of the lines priced (those
    given, else the rows of the order) has the key of the line asked for
    and the pass returns, the three line accessors return the quantized
    prices and the tax rate of a returned line with that key. *)
Theorem stale_accessors_read_the_recalculated_line
    order order_line manager lines force_update w order' lines' w' :
  is_stale order force_update w →
  (∃ l, l ∈ priced_lines lines w
        ∧ OrderLine.pk l = OrderLine.pk order_line) →
  fetch_order_prices_if_expired order manager lines force_update w
  = (Ok (order', lines'), w') →
  ∃ lines3 line,
    lines' = Some lines3
    ∧ line ∈ lines3
    ∧ OrderLine.pk line = OrderLine.pk order_line
    ∧ order_line_unit order order_line manager lines force_update w
      = (Ok (OrderTaxedPricesData.mk
               (quantize_price (OrderLine.undiscounted_unit_price line)
                  (Order.currency order))
               (quantize_price (OrderLine.unit_price line)
                  (Order.currency order))), w')
    ∧ order_line_total order order_line manager lines force_update w
      = (Ok (OrderTaxedPricesData.mk
               (quantize_price (OrderLine.undiscounted_total_price line)
                  (Order.currency order))
               (quantize_price (OrderLine.total_price line)
                  (Order.currency order))), w')
    ∧ order_line_tax_rate order order_line manager lines force_update w
      = (Ok (OrderLine.tax_rate line), w').
Proof.
  intros Hstale (l & Hin & Hpk) Hfetch.
  pose proof Hfetch as H. rewrite fetch_stale in H by done.
  apply stale_pass_lines_frame in H as (lines3 & -> & Hframe).
  rewrite priced_lines_after_gate in Hframe.
  apply list_elem_of_lookup in Hin as [i Hi].
  destruct (Forall2_lookup_l _ _ _ _ _ Hframe Hi) as (l' & Hi' & Hpk' & _).
  destruct (List.find
              (fun line =>
                 bool_decide (OrderLine.pk line = OrderLine.pk order_line))
              lines3) as [line|] eqn:Hfind.
  - apply List.find_some in Hfind as Hsome. destruct Hsome as [Hinl Hpkl].
    apply bool_decide_eq_true in Hpkl.
    exists lines3, line. split; [done|].
    split; [by apply list_elem_of_In|]. split; [done|].
    unfold order_line_unit, order_line_total, order_line_tax_rate.
    repeat split; erewrite bind_Ok by exact Hfetch; simpl;
      unfold _find_order_line; rewrite Hfind; reflexivity.
  - exfalso.
    eapply list_elem_of_lookup_2, list_elem_of_In in Hi'.
    apply (List.find_none _ _ Hfind) in Hi'.
    apply bool_decide_eq_false in Hi'. apply Hi'. congruence.
Qed.

(** X21. Where the prices come from when there is no external tax data:
    for every line priced whose variant is resolvable and whose three
    pricing calls return, the line a stale pass returns carries the
    discounted unit price and the discounted total price the manager
    returned, and its tax rate. The manager is called with the order
    whose price expiration is already moved forward, the total-price call
    with the line that carries the new unit prices, and the tax-rate call
    with the undiscounted unit price of the manager. *)
Theorem returned_lines_carry_manager_prices
    order manager lines force_update w order' lines' w' :
  is_stale order force_update w →
  (∀ o, PluginsManager.get_taxes_for_order manager o = Ok None) →
  fetch_order_prices_if_expired order manager lines force_update w
  = (Ok (order', lines'), w') →
  ∃ lines3,
    lines' = Some lines3
    ∧ Forall2
        (fun line line' =>
           ∀ variant line_unit line_total tax_rate,
             OrderLine.variant line = Some variant →
             let order0 :=
               refreshed_order order (after_gate force_update w) in
             let product := ProductVariant.product variant in
             let line1 :=
               OrderLine.with_unit_price
                 (OrderTaxedPricesData.price_with_discounts line_unit)
                 (OrderLine.with_undiscounted_unit_price
                    (OrderTaxedPricesData.undiscounted_price line_unit)
                    line) in
             PluginsManager.calculate_order_line_unit manager
               order0 line variant product = Ok line_unit →
             PluginsManager.calculate_order_line_total manager
               order0 line1 variant product = Ok line_total →
             PluginsManager.get_order_line_tax_rate manager
               order0 product variant None
               (OrderTaxedPricesData.undiscounted_price line_unit)
             = Ok tax_rate →
             OrderLine.unit_price line'
             = OrderTaxedPricesData.price_with_discounts line_unit
             ∧ OrderLine.total_price line'
               = OrderTaxedPricesData.price_with_discounts line_total
             ∧ OrderLine.tax_rate line' = tax_rate)
        (priced_lines lines w) lines3.
Proof.
  intros Hstale Htax H. rewrite fetch_stale in H by done.
  apply fetch_stale_Ok in H
    as (order1 & lines1 & w1 & tax_data & order2 & lines2 & lines3 & w3
        & Hengine & Htd & Hoverlay & Hdisc & -> & _).
  rewrite Htax in Htd. injection Htd as <-. destruct Hoverlay as [-> ->].
  rewrite priced_lines_after_gate in Hengine.
  exists lines3. split; [done|].
  apply engine_Ok in Hengine as (? & ? & ? & Hall & _).
  unfold _recalculate_order_discounts in Hdisc.
  apply bind_inv_Ok in Hdisc as (lines3' & wb & Hlines3 & Hdisc).
  apply discounts_lines_inv in Hlines3 as [-> Hall3].
  specialize (Hall3 _ eq_refl).
  apply bind_inv_Ok in Hdisc as (ds & wc & _ & Hdisc).
  apply bind_inv_Ok in Hdisc as (order3 & wd & _ & Hdisc).
  injection Hdisc as _ <- _.
  revert lines3' Hall3.
  induction Hall as [|l l1 ls ls1 Hl _ IH]; intros lines3' Hall3.
  - inversion Hall3. constructor.
  - inversion Hall3 as [|? l3 ? ls3 Hl3 Hall3']; subst.
    constructor; [|by apply IH].
    intros variant line_unit line_total tax_rate Hv order0 product line1
      Hunit Htotal Hrate.
    apply discounts_line_frame in Hl3 as (_ & _ & _ & _ & -> & -> & ->).
    specialize (Hl w). revert Hl.
    unfold _recalculate_order_prices_line. rewrite Hv. run_M.
    fold order0. fold product. rewrite Hunit. simpl.
    fold line1. rewrite Htotal. simpl. rewrite Hrate. simpl.
    by intros [= <-].
Qed.

End Pipeline.

(** ** The pipeline on the sample data *)

Lemma sample_order_is_stale force_update now :
  1000 <= now →
  is_stale sample_editable_status sample_order force_update
    (sample_world now).
Proof.
  intros Hnow. split.
  - apply list_elem_of_further, list_elem_of_here.
  - right. simpl. exact Hnow.
Defined.

(** Witness of C1: the sample order, expired, no tax data, no discount. *)
Lemma total_is_shipping_plus_lines_witness :
  ∃ order' lines' w',
    fetch_order_prices_if_expired sample_editable_status sample_ttl
      sample_no_discount sample_order sample_manager None false
      (sample_world 2000)
    = (Ok (order', lines'), w')
    ∧ ∃ lines3 subtotal,
        lines' = Some lines3
        ∧ sum_total_price (zero_taxed_money (Order.currency order')) lines3
          = Ok subtotal
        ∧ TaxedMoney.add (Order.shipping_price order') subtotal
          = Ok (Order.total order')
        ∧ Money.currency (TaxedMoney.net (Order.total order'))
          = Order.currency order'
        ∧ Money.currency (TaxedMoney.gross (Order.total order'))
          = Order.currency order'
        ∧ Order.total (db_order (db w')) = Order.total order'
        ∧ Order.shipping_price (db_order (db w'))
          = Order.shipping_price order'.
Proof.
  eexists _, _, _. split; [vm_compute; reflexivity|].
  apply (total_is_shipping_plus_lines sample_editable_status sample_ttl
           sample_no_discount sample_order sample_manager None false
           (sample_world 2000)).
  - apply sample_order_is_stale. lia.
  - reflexivity.
  - reflexivity.
  - vm_compute. reflexivity.
Defined.

(** C1 fails as stated. With external tax data whose order total was
    rounded on the whole order, the stale pass returns and commits a total
    (55.66 gross) that is not the shipping price plus the sum of the line
    totals (6.15 + 29.70 + 19.80 = 55.65 gross). *)
Lemma total_differs_with_tax_data :
  ∃ order' lines' w' subtotal sum,
    fetch_order_prices_if_expired sample_editable_status sample_ttl
      sample_no_discount sample_order
      (sample_manager_with_tax_data sample_tax_data) None false
      (sample_world 2000)
    = (Ok (order', Some lines'), w')
    ∧ sum_total_price (zero_taxed_money (Order.currency order')) lines'
      = Ok subtotal
    ∧ TaxedMoney.add (Order.shipping_price order') subtotal = Ok sum
    ∧ sum = usd_taxed 4525 5565
    ∧ Order.total order' = usd_taxed 4525 5566
    ∧ Order.total order' ≠ sum
    ∧ Order.total (db_order (db w')) = Order.total order'.
Proof.
  eexists _, _, _, _, _.
  split; [vm_compute; reflexivity|].
  split; [vm_compute; reflexivity|].
  split; [vm_compute; reflexivity|].
  split; [vm_compute; reflexivity|].
  split; [vm_compute; reflexivity|].
  split; [vm_compute; discriminate|].
  vm_compute. reflexivity.
Qed.

(** With a manual discount of 5.00 applied as the spec describes the
    discount capability, the committed total (40.25 net) is the shipping
    price plus the line totals (45.25 net) less the discount. *)
Lemma total_differs_with_manual_discount :
  ∃ order' lines' w' subtotal sum,
    fetch_order_prices_if_expired sample_editable_status sample_ttl
      update_order_discount_for_order_by_spec sample_order
      sample_manager None false (sample_world_with_discount 2000)
    = (Ok (order', Some lines'), w')
    ∧ sum_total_price (zero_taxed_money (Order.currency order')) lines'
      = Ok subtotal
    ∧ TaxedMoney.add (Order.shipping_price order') subtotal = Ok sum
    ∧ sum = usd_taxed 4525 5565
    ∧ Order.total order' = usd_taxed 4025 5065
    ∧ Order.total order' ≠ sum.
Proof.
  eexists _, _, _, _, _.
  split; [vm_compute; reflexivity|].
  split; [vm_compute; reflexivity|].
  split; [vm_compute; reflexivity|].
  split; [vm_compute; reflexivity|].
  split; [vm_compute; reflexivity|].
  vm_compute; discriminate.
Qed.

(** C2 fails as stated. The total-price call for line 1 raises
    [TaxError] after the unit-price call has returned: the failure is
    swallowed, but the unit price of line 1 is no longer the stored 8.00,
    it is the 8.05 net, 9.90 gross just computed, next to the old total
    price of 24.00. *)
Lemma tax_error_leaves_line_half_updated :
  ∃ order' line1' line2' w',
    PluginsManager.calculate_order_line_total
      (sample_manager_failing 1 None (Some TaxError)) sample_order
      (OrderLine.with_unit_price (usd_taxed 805 990)
         (OrderLine.with_undiscounted_unit_price (usd_taxed 805 990)
            sample_line1))
      (sample_variant 1) (ProductVariant.product (sample_variant 1))
    = Raise TaxError
    ∧ _recalculate_order_prices
        (sample_manager_failing 1 None (Some TaxError)) sample_order
        sample_lines (sample_world 2000)
      = (Ok (order', [line1'; line2']), w')
    ∧ OrderLine.unit_price sample_line1 = usd_taxed 800 800
    ∧ OrderLine.unit_price line1' = usd_taxed 805 990
    ∧ OrderLine.total_price line1' = OrderLine.total_price sample_line1
    ∧ OrderLine.unit_price line1' ≠ OrderLine.unit_price sample_line1
    ∧ OrderLine.undiscounted_unit_price line1'
      ≠ OrderLine.undiscounted_unit_price sample_line1.
Proof.
  eexists _, _, _, _.
  split; [vm_compute; reflexivity|].
  split; [vm_compute; reflexivity|].
  split; [vm_compute; reflexivity|].
  split; [vm_compute; reflexivity|].
  split; [vm_compute; reflexivity|].
  split; vm_compute; discriminate.
Qed.

(** Witness of C2: on line 1 of the sample order. *)
Lemma tax_error_is_swallowed_per_field_witness :
  OrderLine.variant sample_line1 = Some (sample_variant 1)
  ∧ ∀ w,
      (_recalculate_order_prices_line
         (sample_manager_failing 1 (Some TaxError) None)
         sample_order sample_line1 w).1
      = Ok sample_line1.
Proof.
  split; [reflexivity|].
  apply (tax_error_is_swallowed_per_field
           (sample_manager_failing 1 (Some TaxError) None)
           sample_order sample_line1 (sample_variant 1)).
  - reflexivity.
  - reflexivity.
Defined.

(** Witness of C3: the sample tax data on the sample order. *)
Lemma tax_data_overrides_engine_prices_witness :
  (∀ line, line ∈ sample_lines →
     is_Some (tax_lines_dict sample_tax_data !! OrderLine.pk line))
  ∧ ∃ order' lines',
      _apply_tax_data sample_order sample_lines sample_tax_data
        (sample_world 2000)
      = (Ok (order', lines'), sample_world 2000)
      ∧ Order.total order' = usd_taxed 4525 5566
      ∧ Order.shipping_price order' = usd_taxed 500 615
      ∧ Order.shipping_tax_rate order' = Decimal.mk 23 (-2).
Proof.
  assert (∀ line, line ∈ sample_lines →
            is_Some (tax_lines_dict sample_tax_data !! OrderLine.pk line))
    as Hall.
  { intros line Hin. unfold sample_lines in Hin.
    apply elem_of_cons in Hin as [->|Hin]; [vm_compute; eauto|].
    apply elem_of_cons in Hin as [->|Hin]; [vm_compute; eauto|].
    by apply elem_of_nil in Hin. }
  split; [exact Hall|].
  destruct (tax_data_overrides_engine_prices sample_order sample_lines
              sample_tax_data (sample_world 2000) Hall)
    as (order' & lines' & Hrun & Htotal & Hship & Hrate & _).
  exists order', lines'. split; [exact Hrun|].
  split; [exact Htotal|]. split; [exact Hship|exact Hrate].
Defined.

(** Witness of C4: the tax data has no entry for line 2. *)
Lemma tax_data_mismatch_aborts_witness :
  (∃ line, line ∈ priced_lines None (sample_world 2000)
           ∧ tax_lines_dict sample_tax_data_line1_only !! OrderLine.pk line
             = None)
  ∧ ∃ e w',
      fetch_order_prices_if_expired sample_editable_status sample_ttl
        sample_no_discount sample_order
        (sample_manager_with_tax_data sample_tax_data_line1_only) None false
        (sample_world 2000)
      = (Raise e, w')
      ∧ db w' = db (sample_world 2000).
Proof.
  assert (∃ line, line ∈ priced_lines None (sample_world 2000)
           ∧ tax_lines_dict sample_tax_data_line1_only !! OrderLine.pk line
             = None) as Hmiss.
  { exists sample_line2. split; [|vm_compute; reflexivity].
    apply list_elem_of_further, list_elem_of_here. }
  split; [exact Hmiss|].
  destruct (tax_data_mismatch_aborts sample_editable_status sample_ttl
              sample_no_discount sample_order
              (sample_manager_with_tax_data sample_tax_data_line1_only)
              None false (sample_world 2000) sample_tax_data_line1_only)
    as (e & w' & Hrun & Hdb & _).
  - apply sample_order_is_stale. lia.
  - reflexivity.
  - exact Hmiss.
  - exists e, w'. split; [exact Hrun|exact Hdb].
Defined.

(** The pass of the previous lemma raises the [KeyError] of line 2. *)
Lemma tax_data_mismatch_raises_KeyError :
  (fetch_order_prices_if_expired sample_editable_status sample_ttl
     sample_no_discount sample_order
     (sample_manager_with_tax_data sample_tax_data_line1_only) None false
     (sample_world 2000)).1
  = Raise (KeyError 2).
Proof. vm_compute. reflexivity. Qed.

(** Witness of C8: a fulfilled order whose prices expired long ago. *)
Lemma non_editable_short_circuit_witness :
  (Order.status sample_fulfilled_order ∉ sample_editable_status)
  ∧ Order.price_expiration_for_unconfirmed sample_fulfilled_order < 2000
  ∧ fetch_order_prices_if_expired sample_editable_status sample_ttl
      sample_no_discount sample_fulfilled_order sample_manager None true
      (sample_world 2000)
    = (Ok (sample_fulfilled_order, None), sample_world 2000).
Proof.
  assert (Order.status sample_fulfilled_order ∉ sample_editable_status)
    as Hout.
  { apply (bool_decide_eq_false_1 _). vm_compute. reflexivity. }
  split; [exact Hout|]. split; [simpl; lia|].
  apply (non_editable_short_circuit sample_editable_status sample_ttl
           sample_no_discount sample_fulfilled_order sample_manager None
           true (sample_world 2000) Hout).
Defined.

(** Witness of C6: the line with unit price 8.00, unit discount 2.00 and
    quantity 3. *)
Lemma first_pass_rebuilds_undiscounted_prices_witness :
  (∀ line, line ∈ [sample_line_to_rebuild] →
     Money.currency (OrderLine.unit_discount line)
     = Money.currency (TaxedMoney.net (OrderLine.unit_price line))
     ∧ Money.currency (OrderLine.unit_discount line)
       = Money.currency (TaxedMoney.gross (OrderLine.unit_price line)))
  ∧ ∃ lines',
      _recalculate_order_discounts_lines [sample_line_to_rebuild]
        (sample_world 2000)
      = (Ok lines', sample_world 2000).
Proof.
  assert (∀ line, line ∈ [sample_line_to_rebuild] →
     Money.currency (OrderLine.unit_discount line)
     = Money.currency (TaxedMoney.net (OrderLine.unit_price line))
     ∧ Money.currency (OrderLine.unit_discount line)
       = Money.currency (TaxedMoney.gross (OrderLine.unit_price line)))
    as Hcur.
  { intros line Hin. apply elem_of_cons in Hin as [->|Hin].
    - split; reflexivity.
    - by apply elem_of_nil in Hin. }
  split; [exact Hcur|].
  destruct (first_pass_rebuilds_undiscounted_prices [sample_line_to_rebuild]
              (sample_world 2000) Hcur) as [(lines' & Hrun & _) _].
  exists lines'. exact Hrun.
Defined.

(** Witness of C9: a stored total of 19.995 net, 24.594 gross is returned
    as 20.00 net, 24.59 gross. *)
Lemma order_total_is_quantized_witness :
  fetch_order_prices_if_expired sample_editable_status sample_ttl
    sample_no_discount sample_order_extra_digits sample_manager None false
    (sample_world 2000)
  = (Ok (sample_order_extra_digits, None), sample_world 2000)
  ∧ order_total sample_editable_status sample_ttl sample_precision
      sample_no_discount sample_order_extra_digits sample_manager None false
      (sample_world 2000)
    = (Ok (usd_taxed 2000 2459), sample_world 2000).
Proof.
  assert (fetch_order_prices_if_expired sample_editable_status sample_ttl
            sample_no_discount sample_order_extra_digits sample_manager None
            false (sample_world 2000)
          = (Ok (sample_order_extra_digits, None), sample_world 2000))
    as Hfetch by (vm_compute; reflexivity).
  split; [exact Hfetch|].
  apply (order_total_is_quantized sample_editable_status sample_ttl
           sample_precision sample_no_discount sample_order_extra_digits
           sample_manager None false (sample_world 2000)
           sample_order_extra_digits None (sample_world 2000) Hfetch).
Defined.

(** Witness of C7: two calls on the expired sample order, the clock
    reading 2000 throughout. *)
Lemma second_call_is_fresh_witness :
  discount_keeps_expiration sample_no_discount
  ∧ ∃ order1 lines1 w1 w2,
      fetch_order_prices_if_expired sample_editable_status sample_ttl
        sample_no_discount sample_order sample_manager None false
        (sample_world 2000)
      = (Ok (order1, lines1), w1)
      ∧ Order.price_expiration_for_unconfirmed order1 = 2000 + sample_ttl
      ∧ fetch_order_prices_if_expired sample_editable_status sample_ttl
          sample_no_discount order1 sample_manager lines1 false w1
        = (Ok (order1, lines1), w2)
      ∧ calls w2 = calls w1
      ∧ db w2 = db w1.
Proof.
  assert (discount_keeps_expiration sample_no_discount) as Hkeep.
  { intros order d w order' w' H. injection H as <- _. reflexivity. }
  split; [exact Hkeep|].
  eexists _, _, _.
  assert (∀ order1 lines1 w1,
            fetch_order_prices_if_expired sample_editable_status sample_ttl
              sample_no_discount sample_order sample_manager None false
              (sample_world 2000)
            = (Ok (order1, lines1), w1) →
            clock w1 (ticks w1) < 2000 + sample_ttl →
            Order.price_expiration_for_unconfirmed order1 = 2000 + sample_ttl
            ∧ ∃ w2,
                fetch_order_prices_if_expired sample_editable_status
                  sample_ttl sample_no_discount order1 sample_manager lines1
                  false w1
                = (Ok (order1, lines1), w2)
                ∧ calls w2 = calls w1
                ∧ db w2 = db w1) as Hstep.
  { intros order1 lines1 w1 Hfirst Hnow.
    destruct (second_call_is_fresh sample_editable_status sample_ttl
                sample_no_discount sample_order sample_manager None lines1
                (sample_world 2000) order1 lines1 w1 Hkeep
                (proj1 (sample_order_is_stale false 2000 ltac:(lia)))
                Hfirst Hnow) as [Hexp Hsecond].
    split; [|exact Hsecond]. apply Hexp. simpl. lia. }
  edestruct Hstep as (Hexp & w2 & Hsecond & Hcalls & Hdb).
  - vm_compute. reflexivity.
  - vm_compute. reflexivity.
  - exists w2. split; [vm_compute; reflexivity|].
    split; [exact Hexp|]. split; [exact Hsecond|]. split; assumption.
Defined.

(** Witness of C10: the total-price call for line 2 raises a connection
    error. *)
Lemma other_exceptions_propagate_witness :
  engine_call_raises
    (sample_manager_failing 2 None (Some (OtherError "ConnectionError")))
    (refreshed_order sample_ttl sample_order
       (after_gate false (sample_world 2000)))
    (priced_lines None (sample_world 2000))
    (OtherError "ConnectionError")
  ∧ ∃ w',
      fetch_order_prices_if_expired sample_editable_status sample_ttl
        sample_no_discount sample_order
        (sample_manager_failing 2 None (Some (OtherError "ConnectionError")))
        None false (sample_world 2000)
      = (Raise (OtherError "ConnectionError"), w')
      ∧ db w' = db (sample_world 2000).
Proof.
  assert (engine_call_raises
            (sample_manager_failing 2 None
               (Some (OtherError "ConnectionError")))
            (refreshed_order sample_ttl sample_order
               (after_gate false (sample_world 2000)))
            (priced_lines None (sample_world 2000))
            (OtherError "ConnectionError")) as Hcall.
  { left. exists [sample_line1], sample_line2, []. split; [reflexivity|].
    split.
    - exists (sample_world 2000). eexists _, _. vm_compute. reflexivity.
    - exists (sample_variant 2). split; [reflexivity|].
      right. eexists. split; [reflexivity|]. left. reflexivity. }
  split; [exact Hcall|].
  destruct (other_exceptions_propagate sample_editable_status sample_ttl
              sample_no_discount sample_order
              (sample_manager_failing 2 None
                 (Some (OtherError "ConnectionError")))
              None false (sample_world 2000) (OtherError "ConnectionError"))
    as (w1 & w' & _ & Hrun & Hdb).
  - discriminate.
  - apply sample_order_is_stale. lia.
  - exact Hcall.
  - exists w'. split; [exact Hrun|exact Hdb].
Defined.

(** C5 fails as stated, at its boundary. The clock reads exactly the
    price expiration of the sample order (1000), the status is editable
    and the update is not forced: the call does not treat the order as
    fresh. It calls the pricing and tax capabilities nine times, moves the
    expiration and commits a new total. *)
Lemma boundary_reading_recalculates :
  clock (sample_world 1000) (ticks (sample_world 1000))
  = Order.price_expiration_for_unconfirmed sample_order
  ∧ Order.status sample_order ∈ sample_editable_status
  ∧ ∃ order' lines' w',
      fetch_order_prices_if_expired sample_editable_status sample_ttl
        sample_no_discount sample_order sample_manager None false
        (sample_world 1000)
      = (Ok (order', Some lines'), w')
      ∧ calls w'
        = [Call_get_taxes_for_order; Call_get_order_shipping_tax_rate;
           Call_calculate_order_shipping; Call_get_order_line_tax_rate 2;
           Call_calculate_order_line_total 2;
           Call_calculate_order_line_unit 2; Call_get_order_line_tax_rate 1;
           Call_calculate_order_line_total 1;
           Call_calculate_order_line_unit 1]
      ∧ Order.price_expiration_for_unconfirmed order' = 1000 + sample_ttl
      ∧ Order.total sample_order = usd_taxed 4500 4500
      ∧ Order.total order' = usd_taxed 4525 5565
      ∧ Order.total (db_order (db (sample_world 1000))) = usd_taxed 4500 4500
      ∧ Order.total (db_order (db w')) = usd_taxed 4525 5565.
Proof.
  split; [reflexivity|].
  split; [apply (proj1 (sample_order_is_stale false 1000 ltac:(lia)))|].
  eexists _, _, _.
  split; [vm_compute; reflexivity|].
  repeat split; vm_compute; reflexivity.
Qed.

(** ** The further properties on the sample data *)

Lemma sample_fulfilled_order_not_editable :
  Order.status sample_fulfilled_order ∉ sample_editable_status.
Proof. apply (bool_decide_eq_false_1 _). vm_compute. reflexivity. Defined.

(** Witness of X2: the total of line 1 of a fulfilled order. *)
Lemma accessors_read_non_editable_order_witness :
  (Order.status sample_fulfilled_order ∉ sample_editable_status)
  ∧ order_line_total sample_editable_status sample_ttl sample_precision
      sample_no_discount sample_fulfilled_order sample_line1 sample_manager
      None true (sample_world 2000)
    = (Ok (OrderTaxedPricesData.mk (usd_taxed 3000 3000)
             (usd_taxed 2400 2400)),
       sample_world 2000).
Proof.
  split; [exact sample_fulfilled_order_not_editable|].
  pose proof (accessors_read_non_editable_order sample_editable_status
                sample_ttl sample_precision sample_no_discount
                sample_fulfilled_order sample_line1 sample_manager None true
                (sample_world 2000) sample_fulfilled_order_not_editable) as T.
  cbv zeta in T. destruct T as (_ & Htotal & _). exact Htotal.
Defined.

(** Witness of X3: the discount capability saves the order and then
    raises; the order row is as before. *)
Lemma failed_call_writes_no_row_witness :
  ∃ w',
    fetch_order_prices_if_expired sample_editable_status sample_ttl
      sample_discount_saves_then_raises sample_order sample_manager None
      false (sample_world_with_discount 2000)
    = (Raise (OtherError "IntegrityError"), w')
    ∧ db w' = db (sample_world_with_discount 2000).
Proof.
  eexists. split; [vm_compute; reflexivity|].
  apply (failed_call_writes_no_row sample_editable_status sample_ttl
           sample_discount_saves_then_raises sample_order sample_manager
           None false (sample_world_with_discount 2000)
           (OtherError "IntegrityError") _).
  vm_compute. reflexivity.
Defined.

(** Witness of X4: the tax capability raises [TaxError]. *)
Lemma tax_capability_error_is_not_swallowed_witness :
  ∃ order1 lines1 w1,
    _recalculate_order_prices (sample_manager_taxes_raising TaxError)
      (refreshed_order sample_ttl sample_order
         (after_gate false (sample_world 2000)))
      (priced_lines None (sample_world 2000))
      (tick (after_gate false (sample_world 2000)))
    = (Ok (order1, lines1), w1)
    ∧ fetch_order_prices_if_expired sample_editable_status sample_ttl
        sample_no_discount sample_order
        (sample_manager_taxes_raising TaxError) None false
        (sample_world 2000)
      = (Raise TaxError, logged Call_get_taxes_for_order w1)
    ∧ db (logged Call_get_taxes_for_order w1) = db (sample_world 2000).
Proof.
  eexists _, _, _. split; [vm_compute; reflexivity|].
  eapply (tax_capability_error_is_not_swallowed sample_editable_status
           sample_ttl sample_no_discount sample_order
           (sample_manager_taxes_raising TaxError) None false
           (sample_world 2000)).
  - apply sample_order_is_stale. lia.
  - vm_compute. reflexivity.
  - reflexivity.
Defined.

(** Witness of X5: the Engine on the sample order. *)
Lemma engine_writes_prices_only_witness :
  ∃ order' lines' w',
    _recalculate_order_prices sample_manager sample_order sample_lines
      (sample_world 2000)
    = (Ok (order', lines'), w')
    ∧ Forall2
        (fun l l' =>
           OrderLine.pk l' = OrderLine.pk l
           ∧ OrderLine.variant l' = OrderLine.variant l
           ∧ OrderLine.quantity l' = OrderLine.quantity l
           ∧ OrderLine.unit_discount l' = OrderLine.unit_discount l)
        sample_lines lines'.
Proof.
  eexists _, _, _. split; [vm_compute; reflexivity|].
  eapply (engine_writes_prices_only sample_manager sample_order sample_lines
           (sample_world 2000) _ _ _).
  vm_compute. reflexivity.
Defined.

(** Witness of X6: the clock reads 500, the prices expire at 1000. *)
Lemma unexpired_prices_are_returned_as_given_witness :
  Order.status sample_order ∈ sample_editable_status
  ∧ clock (sample_world 500) (ticks (sample_world 500))
    < Order.price_expiration_for_unconfirmed sample_order
  ∧ fetch_order_prices_if_expired sample_editable_status sample_ttl
      sample_no_discount sample_order sample_manager None false
      (sample_world 500)
    = (Ok (sample_order, None), tick (sample_world 500)).
Proof.
  assert (Order.status sample_order ∈ sample_editable_status) as Hst
    by apply list_elem_of_further, list_elem_of_here.
  assert (clock (sample_world 500) (ticks (sample_world 500))
          < Order.price_expiration_for_unconfirmed sample_order) as Hnow
    by (simpl; lia).
  split; [exact Hst|]. split; [exact Hnow|].
  apply (unexpired_prices_are_returned_as_given sample_editable_status
           sample_ttl sample_no_discount sample_order sample_manager None
           (sample_world 500) Hst Hnow).
Defined.

Lemma sample_no_discount_keeps_expiration :
  discount_keeps_expiration sample_no_discount.
Proof. intros order d w order' w' H. injection H as <- _. reflexivity. Defined.

(** Witness of X7: a forced call while the prices are not expired; the
    order row had a total of 45.00 and gets 45.25 net, 55.65 gross. *)
Lemma forced_update_recalculates_witness :
  clock (sample_world 500) (ticks (sample_world 500))
  < Order.price_expiration_for_unconfirmed sample_order
  ∧ ∃ order' lines' w',
      fetch_order_prices_if_expired sample_editable_status sample_ttl
        sample_no_discount sample_order sample_manager None true
        (sample_world 500)
      = (Ok (order', lines'), w')
      ∧ Order.price_expiration_for_unconfirmed order' = 500 + sample_ttl
      ∧ Order.total (db_order (db w')) = Order.total order'
      ∧ Order.total order' = usd_taxed 4525 5565
      ∧ Order.price_expiration_for_unconfirmed (db_order (db w'))
        = 500 + sample_ttl.
Proof.
  split; [simpl; lia|].
  eexists _, _, _. split; [vm_compute; reflexivity|].
  edestruct (forced_update_recalculates sample_editable_status sample_ttl
               sample_no_discount sample_order sample_manager None
               (sample_world 500))
    as (Hexp & _ & _ & Htotal & _ & _ & Hrow).
  - exact sample_no_discount_keeps_expiration.
  - apply list_elem_of_further, list_elem_of_here.
  - vm_compute. reflexivity.
  - split; [exact Hexp|]. split; [exact Htotal|].
    split; [vm_compute; reflexivity|exact Hrow].
Defined.

(** Witness of X8: a line without variant next to line 1. *)
Lemma engine_skips_lines_without_variant_witness :
  ∃ order' lines' w',
    _recalculate_order_prices sample_manager sample_order
      [sample_line_without_variant; sample_line1] (sample_world 2000)
    = (Ok (order', lines'), w')
    ∧ Forall2 (fun l l' => OrderLine.variant l = None → l' = l)
        [sample_line_without_variant; sample_line1] lines'.
Proof.
  eexists _, _, _. split; [vm_compute; reflexivity|].
  eapply (engine_skips_lines_without_variant sample_manager sample_order
           [sample_line_without_variant; sample_line1] (sample_world 2000)
           _ _ _).
  vm_compute. reflexivity.
Defined.

(** Witness of X9: [calculate_order_shipping] raises [TaxError]. *)
Lemma shipping_tax_error_is_swallowed_per_field_witness :
  ∃ order' lines' w',
    _recalculate_order_prices
      (sample_manager_shipping_failing (Some TaxError) None) sample_order
      sample_lines (sample_world 2000)
    = (Ok (order', lines'), w')
    ∧ Order.shipping_price order' = Order.shipping_price sample_order
    ∧ Order.shipping_tax_rate order' = Order.shipping_tax_rate sample_order.
Proof.
  eexists _, _, _. split; [vm_compute; reflexivity|].
  eapply (shipping_tax_error_is_swallowed_per_field
            (sample_manager_shipping_failing (Some TaxError) None)
            sample_order sample_lines (sample_world 2000)).
  - vm_compute. reflexivity.
  - reflexivity.
Defined.

(** Witness of X10: the Engine on the sample order. *)
Lemma engine_amounts_are_in_order_currency_witness :
  ∃ order' lines' w',
    _recalculate_order_prices sample_manager sample_order sample_lines
      (sample_world 2000)
    = (Ok (order', lines'), w')
    ∧ Forall
        (fun l =>
           Money.currency (TaxedMoney.net (OrderLine.total_price l))
           = Order.currency sample_order
           ∧ Money.currency (TaxedMoney.gross (OrderLine.total_price l))
             = Order.currency sample_order)
        lines'.
Proof.
  eexists _, _, _. split; [vm_compute; reflexivity|].
  eapply (engine_amounts_are_in_order_currency sample_manager sample_order
            sample_lines (sample_world 2000)).
  vm_compute. reflexivity.
Defined.

(** Witness of X11: the Engine on the sample order. *)
Lemma engine_only_records_pricing_calls_witness :
  ∃ r w',
    _recalculate_order_prices sample_manager sample_order sample_lines
      (sample_world 2000)
    = (r, w')
    ∧ db w' = db (sample_world 2000).
Proof.
  eexists _, _. split; [vm_compute; reflexivity|].
  eapply (engine_only_records_pricing_calls sample_manager sample_order
            sample_lines (sample_world 2000)).
  vm_compute. reflexivity.
Defined.

(** Witness of X13: the second entry for line 1 is the one kept. *)
Lemma tax_lines_dict_keeps_last_entry_witness :
  tax_lines_dict sample_tax_data_duplicate !! 1
  = Some (TaxLineData.mk 1 (Decimal.mk 805 (-2)) (Decimal.mk 1000 (-2))
            (Decimal.mk 2415 (-2)) (Decimal.mk 3000 (-2))
            (Decimal.mk 24 (-2))).
Proof.
  apply (tax_lines_dict_keeps_last_entry sample_tax_data_duplicate
           [TaxLineData.mk 1 (Decimal.mk 805 (-2)) (Decimal.mk 990 (-2))
              (Decimal.mk 2415 (-2)) (Decimal.mk 2970 (-2))
              (Decimal.mk 23 (-2));
            TaxLineData.mk 2 (Decimal.mk 805 (-2)) (Decimal.mk 990 (-2))
              (Decimal.mk 1610 (-2)) (Decimal.mk 1980 (-2))
              (Decimal.mk 23 (-2))]
           (TaxLineData.mk 1 (Decimal.mk 805 (-2)) (Decimal.mk 1000 (-2))
              (Decimal.mk 2415 (-2)) (Decimal.mk 3000 (-2))
              (Decimal.mk 24 (-2)))
           []).
  - reflexivity.
  - intros t Hin. by apply elem_of_nil in Hin.
Defined.

(** Witness of X14: the first pass twice on the line to rebuild. *)
Lemma first_pass_is_idempotent_witness :
  ∃ lines' w',
    _recalculate_order_discounts_lines [sample_line_to_rebuild]
      (sample_world 2000)
    = (Ok lines', w')
    ∧ _recalculate_order_discounts_lines lines' w' = (Ok lines', w').
Proof.
  eexists _, _. split; [vm_compute; reflexivity|].
  apply (first_pass_is_idempotent [sample_line_to_rebuild]
           (sample_world 2000)).
  vm_compute. reflexivity.
Defined.

(** Witness of X15: the order has a voucher row only; the discount
    capability modelled from the spec is not applied. *)
Lemma reconciliation_without_manual_discount_witness :
  filter (fun d => OrderDiscount.type d = MANUAL)
    (db_discounts (db (sample_world_with_voucher 2000))) = []
  ∧ ∃ lines' w',
      _recalculate_order_discounts update_order_discount_for_order_by_spec
        sample_order sample_lines (sample_world_with_voucher 2000)
      = (Ok (sample_order, lines'), w')
      ∧ w' = sample_world_with_voucher 2000.
Proof.
  split; [reflexivity|].
  eexists _, _. split; [vm_compute; reflexivity|].
  eapply (reconciliation_without_manual_discount
            update_order_discount_for_order_by_spec sample_order
            sample_lines (sample_world_with_voucher 2000)).
  - reflexivity.
  - vm_compute. reflexivity.
Defined.

(** Witness of X16: the total is recalculated, the undiscounted total is
    not. *)
Lemma undiscounted_total_is_never_recomputed_witness :
  filter (fun d => OrderDiscount.type d = MANUAL)
    (db_discounts (db (sample_world 2000))) = []
  ∧ ∃ order' lines' w',
      fetch_order_prices_if_expired sample_editable_status sample_ttl
        sample_no_discount sample_order sample_manager None false
        (sample_world 2000)
      = (Ok (order', lines'), w')
      ∧ Order.undiscounted_total order'
        = Order.undiscounted_total sample_order.
Proof.
  split; [reflexivity|].
  eexists _, _, _. split; [vm_compute; reflexivity|].
  eapply (undiscounted_total_is_never_recomputed sample_editable_status
            sample_ttl sample_precision sample_no_discount sample_order
            sample_manager None false (sample_world 2000)).
  - reflexivity.
  - vm_compute. reflexivity.
Defined.

(** Witness of X17: the stale pass on the sample order. *)
Lemma returned_lines_have_rebuilt_undiscounted_prices_witness :
  ∃ order' lines' w',
    fetch_order_prices_if_expired sample_editable_status sample_ttl
      sample_no_discount sample_order sample_manager None false
      (sample_world 2000)
    = (Ok (order', lines'), w')
    ∧ ∃ lines3,
        lines' = Some lines3
        ∧ Forall
            (fun l =>
               TaxedMoney.add_money (OrderLine.unit_price l)
                 (OrderLine.unit_discount l)
               = Ok (OrderLine.undiscounted_unit_price l)
               ∧ OrderLine.undiscounted_total_price l
                 = (if Decimal.coefficient
                         (Money.amount (OrderLine.unit_discount l)) =? 0
                    then OrderLine.total_price l
                    else TaxedMoney.mul (OrderLine.undiscounted_unit_price l)
                           (OrderLine.quantity l)))
            lines3.
Proof.
  eexists _, _, _. split; [vm_compute; reflexivity|].
  eapply (returned_lines_have_rebuilt_undiscounted_prices
            sample_editable_status sample_ttl sample_no_discount
            sample_order sample_manager None false (sample_world 2000)).
  - apply sample_order_is_stale. lia.
  - vm_compute. reflexivity.
Defined.

(** Witness of X18: the stale pass on the sample order. *)
Lemma stale_pass_commits_prices_only_witness :
  ∃ order' lines' w',
    fetch_order_prices_if_expired sample_editable_status sample_ttl
      sample_no_discount sample_order sample_manager None false
      (sample_world 2000)
    = (Ok (order', lines'), w')
    ∧ db_discounts (db w') = db_discounts (db (sample_world 2000))
    ∧ Order.total (db_order (db w')) = Order.total order'
    ∧ Order.status (db_order (db w'))
      = Order.status (db_order (db (sample_world 2000))).
Proof.
  eexists _, _, _. split; [vm_compute; reflexivity|].
  edestruct (stale_pass_commits_prices_only sample_editable_status
               sample_ttl sample_no_discount sample_order sample_manager
               None false (sample_world 2000))
    as (lines3 & _ & Hrow & _ & Hdiscounts).
  - apply sample_order_is_stale. lia.
  - reflexivity.
  - vm_compute. reflexivity.
  - split; [exact Hdiscounts|]. rewrite Hrow. split; reflexivity.
Defined.

(** Witness of X19: the two rows of the sample order. *)
Lemma stored_lines_are_the_returned_lines_witness :
  NoDup (OrderLine.pk <$> db_lines (db (sample_world 2000)))
  ∧ ∃ order' lines' w',
      fetch_order_prices_if_expired sample_editable_status sample_ttl
        sample_no_discount sample_order sample_manager None false
        (sample_world 2000)
      = (Ok (order', lines'), w')
      ∧ lines' = Some (db_lines (db w')).
Proof.
  assert (NoDup (OrderLine.pk <$> db_lines (db (sample_world 2000))))
    as Hnd.
  { apply (bool_decide_eq_true_1 _). vm_compute. reflexivity. }
  split; [exact Hnd|].
  eexists _, _, _. split; [vm_compute; reflexivity|].
  eapply (stored_lines_are_the_returned_lines sample_editable_status
            sample_ttl sample_no_discount sample_order sample_manager false
            (sample_world 2000)).
  - apply sample_order_is_stale. lia.
  - reflexivity.
  - exact Hnd.
  - vm_compute. reflexivity.
Defined.

(** Witness of X20: the caller holds the outdated line 1 (unit price
    8.00, tax rate 0) and gives no lines. *)
Lemma stale_accessors_read_the_recalculated_line_witness :
  (∃ l, l ∈ priced_lines None (sample_world 2000)
        ∧ OrderLine.pk l = OrderLine.pk sample_line1)
  ∧ ∃ order' lines' w',
      fetch_order_prices_if_expired sample_editable_status sample_ttl
        sample_no_discount sample_order sample_manager None false
        (sample_world 2000)
      = (Ok (order', lines'), w')
      ∧ order_line_unit sample_editable_status sample_ttl sample_precision
          sample_no_discount sample_order sample_line1 sample_manager None
          false (sample_world 2000)
        = (Ok (OrderTaxedPricesData.mk (usd_taxed 1005 1190)
                 (usd_taxed 805 990)), w')
      ∧ order_line_tax_rate sample_editable_status sample_ttl
          sample_no_discount sample_order sample_line1 sample_manager None
          false (sample_world 2000)
        = (Ok (Decimal.mk 23 (-2)), w').
Proof.
  assert (∃ l, l ∈ priced_lines None (sample_world 2000)
               ∧ OrderLine.pk l = OrderLine.pk sample_line1) as Hrow.
  { exists sample_line1. split; [apply list_elem_of_here|reflexivity]. }
  split; [exact Hrow|].
  eexists _, _, _. split; [vm_compute; reflexivity|].
  edestruct (stale_accessors_read_the_recalculated_line
               sample_editable_status sample_ttl sample_precision
               sample_no_discount sample_order sample_line1 sample_manager
               None false (sample_world 2000))
    as (lines3 & line & Hlines & Hin & Hpk & Hunit & _ & Hrate).
  - apply sample_order_is_stale. lia.
  - exact Hrow.
  - vm_compute. reflexivity.
  - injection Hlines as <-.
    assert (line
            = OrderLine.mk 1 (Some (sample_variant 1)) 3 (usd 200)
                (usd_taxed 1005 1190) (usd_taxed 805 990)
                (usd_taxed 3015 3570) (usd_taxed 2415 2970)
                (Decimal.mk 23 (-2))) as ->.
    { apply elem_of_cons in Hin as [->|Hin]; [reflexivity|].
      apply elem_of_cons in Hin as [->|Hin]; [discriminate Hpk|].
      by apply elem_of_nil in Hin. }
    split; [exact Hunit|exact Hrate].
Defined.

(** Witness of X21: the stale pass on the sample order. *)
Lemma returned_lines_carry_manager_prices_witness :
  ∃ order' line1' line2' w',
    fetch_order_prices_if_expired sample_editable_status sample_ttl
      sample_no_discount sample_order sample_manager None false
      (sample_world 2000)
    = (Ok (order', Some [line1'; line2']), w')
    ∧ OrderLine.unit_price line1' = usd_taxed 805 990
    ∧ OrderLine.total_price line1' = usd_taxed 2415 2970
    ∧ OrderLine.tax_rate line1' = Decimal.mk 23 (-2).
Proof.
  eexists _, _, _, _. split; [vm_compute; reflexivity|].
  edestruct (returned_lines_carry_manager_prices sample_editable_status
               sample_ttl sample_no_discount sample_order sample_manager
               None false (sample_world 2000))
    as (lines3 & Hlines & Hall).
  - apply sample_order_is_stale. lia.
  - reflexivity.
  - vm_compute. reflexivity.
  - injection Hlines as <-.
    apply Forall2_cons_1 in Hall as [Hline1 _].
    apply (Hline1 (sample_variant 1)
             (OrderTaxedPricesData.mk (usd_taxed 805 990)
                (usd_taxed 805 990))
             (OrderTaxedPricesData.mk (usd_taxed 2415 2970)
                (usd_taxed 2415 2970))
             (Decimal.mk 23 (-2))); reflexivity.
Defined.

(** Witness of C5: the clock reads 500, the prices expire at 1000. *)
Lemma editable_order_is_fresh_strictly_before_expiration_witness :
  Order.status sample_order ∈ sample_editable_status
  ∧ clock (sample_world 500) (ticks (sample_world 500))
    < Order.price_expiration_for_unconfirmed sample_order
  ∧ fetch_order_prices_if_expired sample_editable_status sample_ttl
      sample_no_discount sample_order sample_manager None false
      (sample_world 500)
    = (Ok (sample_order, None), tick (sample_world 500))
  ∧ calls (tick (sample_world 500)) = calls (sample_world 500)
  ∧ db (tick (sample_world 500)) = db (sample_world 500).
Proof.
  assert (Order.status sample_order ∈ sample_editable_status) as Hst
    by apply list_elem_of_further, list_elem_of_here.
  assert (clock (sample_world 500) (ticks (sample_world 500))
          < Order.price_expiration_for_unconfirmed sample_order) as Hnow
    by (simpl; lia).
  split; [exact Hst|]. split; [exact Hnow|].
  apply (proj1 (editable_order_is_fresh_strictly_before_expiration
                  sample_editable_status sample_ttl sample_no_discount
                  sample_order sample_manager None (sample_world 500) Hst)
           Hnow).
Defined.
